(** * Trading-signal core: indicator library and strategy engine

    Shallow embedding of [src/analysis/technical_indicators.py] and
    [src/strategies/trading_strategy.py].

    Conventions of the embedding.
    - Python [int] is [Z]; list indices and slice bounds follow Python's
      rules, negative values included ([py_index], [py_slice]).
    - Python [float] is idealised as an exact rational [Q]: no rounding,
      no NaN, no infinities.  Division by zero raises, as in Python.
    - A Python exception is a value of [exn]; code that may raise lives in
      the error monad [res]; a [try]/[except Exception] of the source is a
      [try_except], or a [catch] when its handler returns a constant.
    - A Python [dict] is a [gmap] keyed by strings, or a record whose
      optional keys are [option] fields when the value types differ.
    - What the source takes from outside the repository (numpy, sklearn,
      the clock, the [float] parser) is a [Variable] of section
      [Externals]. *)

From Stdlib Require Import QArith Qround Qabs Qminmax Lqa.
From stdpp Require Import gmap strings list sorting.
Close Scope Q_scope.

(** ** Python exceptions and the error monad *)

Inductive exn : Set :=
| ZeroDivisionError
| IndexError
| KeyError
| TypeError
| ValueError
| AttributeError
| OverflowError.

Inductive res (A : Type) : Type :=
| Ok (a : A)
| Raise (e : exn).
Arguments Ok {A} a.
Arguments Raise {A} e.

#[global] Instance res_ret : MRet res := λ A a, Ok a.
#[global] Instance res_bind : MBind res := λ A B f m,
  match m with
  | Ok a => f a
  | Raise e => Raise e
  end.

(** [try: body except Exception: handler] *)
Definition try_except {A} (body : res A) (handler : exn → res A) : res A :=
  match body with
  | Ok a => Ok a
  | Raise e => handler e
  end.

(** [for x in xs: state = body(state, x)], stopping at the first exception. *)
Fixpoint for_loop {S X} (body : S → X → res S) (xs : list X) (s : S) : res S :=
  match xs with
  | [] => Ok s
  | x :: xs' => s' ← body s x; for_loop body xs' s'
  end.

(** A loop whose body appends exactly one value per iteration. *)
Fixpoint for_collect {X B} (body : X → res B) (xs : list X) : res (list B) :=
  match xs with
  | [] => Ok []
  | x :: xs' => b ← body x; bs ← for_collect body xs'; Ok (b :: bs)
  end.

(** ** Python lists *)

Definition len {A} (l : list A) : Z := Z.of_nat (length l).

(** [range(lo, hi)] *)
Definition py_range (lo hi : Z) : list Z := seqZ lo (hi - lo).

(** [l[i]]: a negative index counts from the end; out of range raises. *)
Definition py_index {A} (l : list A) (i : Z) : res A :=
  let k := if (i <? 0)%Z then (i + len l)%Z else i in
  if ((k <? 0) || (len l <=? k))%Z then Raise IndexError
  else match l !! Z.to_nat k with
       | Some x => Ok x
       | None => Raise IndexError
       end.

(** A slice bound is shifted by the length when negative, then clamped. *)
Definition slice_bound (n i : Z) : Z :=
  if (i <? 0)%Z then Z.max (i + n) 0 else Z.min i n.

(** [l[lo:hi]] *)
Definition py_slice {A} (l : list A) (lo hi : Z) : list A :=
  let a := slice_bound (len l) lo in
  let b := slice_bound (len l) hi in
  take (Z.to_nat (b - a)) (drop (Z.to_nat a) l).

(** [l[lo:]] *)
Definition py_slice_from {A} (l : list A) (lo : Z) : list A :=
  py_slice l lo (len l).

(** [sum(l)]: left to right from 0. *)
Definition py_sum (l : list Q) : Q := foldl Qplus 0%Q l.

(** [a / b] on floats. *)
Definition py_div (a b : Q) : res Q :=
  if Qeq_bool b 0 then Raise ZeroDivisionError else Ok (a / b)%Q.

Definition Qltb (a b : Q) : bool := negb (Qle_bool b a).

(** ** technical_indicators.py *)

(** [TechnicalIndicators.sma] *)
Definition sma (prices : list Q) (period : Z) : res (list Q) :=
  if (len prices <? period)%Z then Ok []
  else
    for_collect
      (λ i, py_div (py_sum (py_slice prices (i - period + 1) (i + 1)))
                   (inject_Z period))
      (py_range (period - 1) (len prices)).

(** [TechnicalIndicators.ema] *)
Definition ema (prices : list Q) (period : Z) : res (list Q) :=
  if (len prices <? period)%Z then Ok []
  else
    multiplier ← py_div 2 (inject_Z (period + 1));
    first_ema ← py_div (py_sum (py_slice prices 0 period)) (inject_Z period);
    for_loop
      (λ ema_values i,
         p ← py_index prices i;
         prev ← py_index ema_values (-1);
         Ok (ema_values ++ [(p * multiplier + prev * (1 - multiplier))%Q]))
      (py_range period (len prices))
      [first_ema].

(** [max(a, b)] and [min(a, b)]: the first argument wins a tie. *)
Definition py_max (a b : Q) : Q := if Qltb a b then b else a.
Definition py_min (a b : Q) : Q := if Qltb b a then b else a.

(** One RSI reading from the two smoothed averages. *)
Definition rsi_value (avg_gain avg_loss : Q) : res Q :=
  if Qeq_bool avg_loss 0 then Ok 100%Q
  else
    rs ← py_div avg_gain avg_loss;
    q ← py_div 100 (1 + rs);
    Ok (100 - q)%Q.

(** [price_changes] of [rsi]. *)
Definition price_changes (prices : list Q) : res (list Q) :=
  for_collect
    (λ i, a ← py_index prices i; b ← py_index prices (i - 1); Ok (a - b)%Q)
    (py_range 1 (len prices)).

(** [gains] and [losses] of [rsi]. *)
Definition gains_of (changes : list Q) : list Q :=
  (λ change, py_max change 0) <$> changes.
Definition losses_of (changes : list Q) : list Q :=
  (λ change, Qabs (py_min change 0)) <$> changes.

(** Loop state of [rsi]: [avg_gain], [avg_loss], [rsi_values]. *)
Definition rsi_state : Type := Q * Q * list Q.

(** Body of the second loop of [rsi]. *)
Definition rsi_step (gains losses : list Q) (period : Z)
    (st : rsi_state) (i : Z) : res rsi_state :=
  let '(avg_gain, avg_loss, rsi_values) := st in
  g ← py_index gains i;
  avg_gain ← py_div (avg_gain * inject_Z (period - 1) + g) (inject_Z period);
  l ← py_index losses i;
  avg_loss ← py_div (avg_loss * inject_Z (period - 1) + l) (inject_Z period);
  v ← rsi_value avg_gain avg_loss;
  Ok (avg_gain, avg_loss, rsi_values ++ [v]).

(** The whole of [rsi] up to its [return], keeping the final averages. *)
Definition rsi_run (prices : list Q) (period : Z) : res rsi_state :=
  changes ← price_changes prices;
  let gains := gains_of changes in
  let losses := losses_of changes in
  avg_gain ← py_div (py_sum (py_slice gains 0 period)) (inject_Z period);
  avg_loss ← py_div (py_sum (py_slice losses 0 period)) (inject_Z period);
  v ← rsi_value avg_gain avg_loss;
  for_loop (rsi_step gains losses period)
           (py_range period (len changes))
           (avg_gain, avg_loss, [v]).

(** [TechnicalIndicators.rsi] *)
Definition rsi (prices : list Q) (period : Z) : res (list Q) :=
  if (len prices <? period + 1)%Z then Ok []
  else st ← rsi_run prices period; Ok st.2.

(** Wilder's smoothing as the specification words it: the seed is the
    simple mean of the first [period] values, each later average is
    [(prev * (period - 1) + current) / period].  [wilder_avg period xs k] is
    the average behind the [k]-th reading. *)
Fixpoint wilder_avg (period : Z) (xs : list Q) (k : nat) : Q :=
  match k with
  | O => (py_sum (take (Z.to_nat period) xs) / inject_Z period)%Q
  | S k' => ((wilder_avg period xs k' * inject_Z (period - 1)
              + nth (Z.to_nat period + k') xs 0) / inject_Z period)%Q
  end.

(** The dict returned by [macd], keys ['macd'], ['signal'], ['histogram']. *)
Record MacdData : Type := mkMacd {
  macd_line : list Q;
  signal_line : list Q;
  histogram : list Q
}.

(** [TechnicalIndicators.macd] *)
Definition macd (prices : list Q) (fast_period slow_period signal_period : Z)
    : res MacdData :=
  if (len prices <? slow_period)%Z then Ok (mkMacd [] [] [])
  else
    fast_ema ← ema prices fast_period;
    slow_ema ← ema prices slow_period;
    let start_index := (slow_period - fast_period)%Z in
    let fast_ema_aligned := py_slice_from fast_ema start_index in
    macd_l ← for_collect
      (λ i, a ← py_index fast_ema_aligned i;
            b ← py_index slow_ema i;
            Ok (a - b)%Q)
      (py_range 0 (len slow_ema));
    signal_l ← ema macd_l signal_period;
    let start_index := (len macd_l - len signal_l)%Z in
    hist ← for_collect
      (λ i, a ← py_index macd_l (start_index + i);
            b ← py_index signal_l i;
            Ok (a - b)%Q)
      (py_range 0 (len signal_l));
    Ok (mkMacd macd_l signal_l hist).

(** The dict returned by [volume_analysis]; the early return has no
    ['current_volume'] key. *)
Record VolumeAnalysis : Type := mkVolume {
  avg_volume : Q;
  current_volume : option Q;
  volume_ratio : Q;
  is_abnormal : bool
}.

(** [TechnicalIndicators.volume_analysis] *)
Definition volume_analysis (volumes : list Q) (period : Z)
    : res VolumeAnalysis :=
  if (len volumes <? period)%Z then Ok (mkVolume 0%Q None 1%Q false)
  else
    avg ← py_div (py_sum (py_slice_from volumes (- period))) (inject_Z period);
    cur ← match volumes with
          | [] => Ok 0%Q
          | _ => py_index volumes (-1)
          end;
    ratio ← (if Qltb 0 avg then py_div cur avg else Ok 1%Q);
    Ok (mkVolume avg (Some cur) ratio (Qltb (15 # 10) ratio)).

(** Inner loop of both searches of [support_resistance_levels]: the flag
    becomes [False], and the loop breaks, at the first bar [j != i] of the
    window whose value beats the current one ([lows[j] < current_low] for a
    support, [highs[j] > current_high] for a resistance). *)
Fixpoint window_scan (beats : Q → Q → bool) (values : list Q) (current : Q)
    (i : Z) (js : list Z) : res bool :=
  match js with
  | [] => Ok true
  | j :: js' =>
      if bool_decide (j ≠ i) then
        vj ← py_index values j;
        if beats vj current then Ok false
        else window_scan beats values current i js'
      else window_scan beats values current i js'
  end.

(** Body of the outer loop: bar [i] is appended when the flag survived. *)
Definition level_loop (beats : Q → Q → bool) (values : list Q) (window : Z)
    (levels : list Q) (i : Z) : res (list Q) :=
  current ← py_index values i;
  is_level ← window_scan beats values current i
               (py_range (i - window) (i + window + 1));
  Ok (if (is_level : bool) then levels ++ [current] else levels).

Definition lower_than (lj current_low : Q) : bool := Qltb lj current_low.
Definition higher_than (hj current_high : Q) : bool := Qltb current_high hj.

Record Levels : Type := mkLevels {
  support : list Q;
  resistance : list Q
}.

(** [TechnicalIndicators.support_resistance_levels] *)
Definition support_resistance_levels (prices highs lows : list Q)
    (window : Z) : res Levels :=
  if (len prices <? window * 2 + 1)%Z then Ok (mkLevels [] [])
  else
    s ← for_loop (level_loop lower_than lows window)
                 (py_range window (len lows - window)) ([] : list Q);
    r ← for_loop (level_loop higher_than highs window)
                 (py_range window (len highs - window)) ([] : list Q);
    Ok (mkLevels s r).

(** Bar [i] is a local extremum of [values] for the relation [R] when
    [R values[i] values[j]] holds for every other bar [j] of the window
    [[i - window, i + window]]. *)
Definition local_extremum (R : Q → Q → Prop) (values : list Q)
    (window i : Z) : Prop :=
  ∃ v, values !! Z.to_nat i = Some v ∧
       ∀ j vj, (i - window ≤ j ≤ i + window)%Z → j ≠ i →
               values !! Z.to_nat j = Some vj → R v vj.

(** [levels] lists, oldest first and once each, the values of exactly the
    bars [i] of [range(window, len(values) - window)] that satisfy [P]. *)
Definition lists_exactly (P : Z → Prop) (values : list Q) (window : Z)
    (levels : list Q) : Prop :=
  ∃ listed : list Z,
    levels = (λ i, nth (Z.to_nat i) values 0%Q) <$> listed ∧
    StronglySorted Z.lt listed ∧
    ∀ i, i ∈ listed ↔ (window ≤ i < len values - window)%Z ∧ P i.

(** [values] rises (falls) at every step. *)
Definition rising (values : list Q) : Prop :=
  ∀ i a b, values !! i = Some a → values !! S i = Some b → (a < b)%Q.
Definition falling (values : list Q) : Prop :=
  ∀ i a b, values !! i = Some a → values !! S i = Some b → (b < a)%Q.

(** ** Candlestick patterns *)

(** [TechnicalIndicators._is_hammer] *)
Definition _is_hammer (open_price high low close : Q) : bool :=
  let body := Qabs (close - open_price) in
  let upper_shadow := (high - py_max open_price close)%Q in
  let lower_shadow := (py_min open_price close - low)%Q in
  Qltb (body * 2) lower_shadow && Qltb upper_shadow (body * (5 # 10))
  && Qltb 0 body.

(** [TechnicalIndicators._is_doji] *)
Definition _is_doji (open_price close high low : Q) : bool :=
  let body := Qabs (close - open_price) in
  let total_range := (high - low)%Q in
  if Qltb 0 total_range then Qltb body (total_range * (1 # 10)) else false.

(** [TechnicalIndicators._is_bullish_engulfing] *)
Definition _is_bullish_engulfing (opens closes : list Q) : res bool :=
  if ((len opens <? 2) || (len closes <? 2))%Z then Ok false
  else
    c0 ← py_index closes 0;
    o0 ← py_index opens 0;
    let prev_bearish := Qltb c0 o0 in
    c1 ← py_index closes 1;
    o1 ← py_index opens 1;
    let curr_bullish := Qltb o1 c1 in
    let engulfing := Qltb o1 c0 && Qltb o0 c1 in
    Ok (prev_bearish && curr_bullish && engulfing).

(** [TechnicalIndicators._is_bearish_engulfing] *)
Definition _is_bearish_engulfing (opens closes : list Q) : res bool :=
  if ((len opens <? 2) || (len closes <? 2))%Z then Ok false
  else
    c0 ← py_index closes 0;
    o0 ← py_index opens 0;
    let prev_bullish := Qltb o0 c0 in
    c1 ← py_index closes 1;
    o1 ← py_index opens 1;
    let curr_bearish := Qltb c1 o1 in
    let engulfing := Qltb c0 o1 && Qltb c1 o0 in
    Ok (prev_bullish && curr_bearish && engulfing).

(** The dict returned by [k_line_pattern_analysis]: the early return has the
    key ['pattern'], the normal one the key ['patterns']. *)
Record PatternAnalysis : Type := mkPattern {
  pattern : option string;
  patterns : option (list string);
  pattern_signal : string
}.

(** [TechnicalIndicators.k_line_pattern_analysis] *)
Definition k_line_pattern_analysis (opens highs lows closes : list Q)
    : res PatternAnalysis :=
  if (len closes <? 3)%Z
  then Ok (mkPattern (Some "insufficient_data") None "neutral")
  else
    let recent_opens := py_slice_from opens (-3) in
    let recent_highs := py_slice_from highs (-3) in
    let recent_lows := py_slice_from lows (-3) in
    let recent_closes := py_slice_from closes (-3) in
    o ← py_index recent_opens (-1);
    h ← py_index recent_highs (-1);
    l ← py_index recent_lows (-1);
    c ← py_index recent_closes (-1);
    let found := if _is_hammer o h l c then ["hammer"] else [] in
    let found := if _is_doji o c h l then found ++ ["doji"] else found in
    found ← (if (2 <=? len recent_closes)%Z then
               bullish ← _is_bullish_engulfing
                           (py_slice_from recent_opens (-2))
                           (py_slice_from recent_closes (-2));
               if (bullish : bool) then Ok (found ++ ["bullish_engulfing"])
               else
                 bearish ← _is_bearish_engulfing
                             (py_slice_from recent_opens (-2))
                             (py_slice_from recent_closes (-2));
                 Ok (if (bearish : bool)
                     then found ++ ["bearish_engulfing"] else found)
             else Ok found);
    let bias :=
      if bool_decide ("hammer" ∈ found ∨ "bullish_engulfing" ∈ found)
      then "bullish"
      else if bool_decide ("bearish_engulfing" ∈ found) then "bearish"
      else "neutral" in
    Ok (mkPattern None (Some found) bias).

(** ** settings.py *)

(** [Config.RISK_PARAMS] *)
Record RiskParams : Type := mkRiskParams {
  stop_loss_pct : Q;
  take_profit_pct : Q;
  volatility_threshold : Q;
  volume_threshold : Q
}.

Definition default_RISK_PARAMS : RiskParams :=
  mkRiskParams (5 # 100) (15 # 100) (3 # 10) (15 # 10).

(** ** Values of an asset record ([Dict[str, Any]]) *)

(** [VOther] stands for any object that [float()] rejects with a
    [TypeError] and that has no [upper] method (a list, a dict, ...). *)
Inductive pyval : Type :=
| VNone
| VBool (b : bool)
| VInt (z : Z)
| VFloat (q : Q)
| VStr (s : string)
| VOther.

(** [round(x, ndigits)] for [ndigits >= 0]: to the nearest multiple of
    [10 ** -ndigits], a tie going to the even neighbour. *)
Definition py_round (x : Q) (ndigits : Z) : Q :=
  let scale := inject_Z (10 ^ ndigits) in
  let y := (x * scale)%Q in
  let f := Qfloor y in
  let r := (y - inject_Z f)%Q in
  let n := if Qltb r (1 # 2) then f
           else if Qltb (1 # 2) r then (f + 1)%Z
           else if Z.even f then f else (f + 1)%Z in
  (inject_Z n / scale)%Q.

(** ** Data shapes of trading_strategy.py *)

(** An elementary signal: [{'type': ..., 'reason': ..., 'strength': ...}]. *)
Record ElementarySignal : Type := mkSignal {
  sig_type : string;
  sig_reason : string;
  sig_strength : string
}.

Record MacdSnapshot : Type := mkMacdSnapshot {
  snap_macd : Q;
  snap_signal : Q;
  snap_histogram : Q
}.

Record BollingerSnapshot : Type := mkBollingerSnapshot {
  bb_upper : Q;
  bb_middle : Q;
  bb_lower : Q;
  bb_position : Q
}.

Record MovingAverages : Type := mkMovingAverages {
  sma_5 : Q;
  sma_20 : Q;
  price_vs_sma5 : Q;
  price_vs_sma20 : Q
}.

(** The [indicators] dict: a key is present when its analysis block ran. *)
Record Indicators : Type := mkIndicators {
  ind_rsi : option Q;
  ind_macd : option MacdSnapshot;
  ind_bollinger_bands : option BollingerSnapshot;
  ind_moving_averages : option MovingAverages;
  ind_volume : option VolumeAnalysis
}.

Definition no_indicators : Indicators := mkIndicators None None None None None.

Record TechnicalAnalysis : Type := mkAnalysis {
  indicators : Indicators;
  signals : list ElementarySignal
}.

(** [{'indicators': {}, 'signals': []}] *)
Definition empty_analysis : TechnicalAnalysis := mkAnalysis no_indicators [].

(** What [MLPredictor.predict] returns when it returns a dict. *)
Record MLPrediction : Type := mkPrediction {
  probability : Q;
  prediction : Z;
  ml_confidence : string;
  feature_importance : list (string * Q)
}.

(** The composite signal.  [_generate_signal] fills the seven keys;
    [_create_empty_result] writes only the first three. *)
Record CompositeSignal : Type := mkComposite {
  signal_type : string;
  strength : Z;
  confidence : string;
  buy_signals_count : option Z;
  sell_signals_count : option Z;
  ml_contribution : option Z;
  total_score : option Z
}.

Record RiskAssessment : Type := mkRisk {
  risk_level : string;
  risk_score : option Z;
  risk_factors : list string;
  risk_volatility : option Q
}.

Record AssetInfo : Type := mkAssetInfo {
  info_symbol : pyval;
  info_name : pyval;
  info_type : string
}.

(** The record returned by [analyze_asset]. *)
Record Recommendation : Type := mkRecommendation {
  asset_info : AssetInfo;
  current_price : Q;
  signal : CompositeSignal;
  technical_analysis : TechnicalAnalysis;
  ml_prediction : option MLPrediction;
  entry_exit_points : gmap string Q;
  risk_assessment : RiskAssessment;
  recommendation_reason : string;
  analysis_time : string
}.

(** [SignalType] values *)
Definition STRONG_BUY : string := "strong_buy".
Definition BUY : string := "buy".
Definition HOLD : string := "hold".
Definition SELL : string := "sell".
Definition STRONG_SELL : string := "strong_sell".

(** [xs] is truthy: a non-empty list. *)
Definition truthy {A} (xs : list A) : bool :=
  match xs with [] => false | _ => true end.

(** [TradingStrategy._calculate_confidence] *)
Definition _calculate_confidence (score : Z) (signal_count : Z) : string :=
  if ((4 <=? Z.abs score) && (3 <=? signal_count))%Z then "high"
  else if ((2 <=? Z.abs score) && (2 <=? signal_count))%Z then "medium"
  else "low".

(** [sum(2 if s['strength'] == 'strong' else 1 for s in xs)] *)
Definition strength_sum (xs : list ElementarySignal) : Z :=
  foldl Z.add 0%Z
    ((λ s, if String.eqb (sig_strength s) "strong" then 2 else 1)%Z <$> xs).

(** The ML weight of [_generate_signal]. *)
Definition ml_weight_of (ml : option MLPrediction) : Z :=
  match ml with
  | None => 0
  | Some m =>
      if Qltb (6 # 10) (probability m) then 2
      else if Qltb (4 # 10) (probability m) then 1
      else -1
  end.

(** [TradingStrategy._generate_signal].  On these typed arguments no
    statement of the [try] block can raise, so the [except] branch is not
    represented. *)
Definition _generate_signal (ta : TechnicalAnalysis)
    (ml : option MLPrediction) : CompositeSignal :=
  let sigs := signals ta in
  let buy_signals := filter (λ s, sig_type s = "buy") sigs in
  let sell_signals := filter (λ s, sig_type s = "sell") sigs in
  let buy_strength := strength_sum buy_signals in
  let sell_strength := strength_sum sell_signals in
  let ml_weight := ml_weight_of ml in
  let score := (buy_strength - sell_strength + ml_weight)%Z in
  let ty :=
    if (4 <=? score)%Z then STRONG_BUY
    else if (2 <=? score)%Z then BUY
    else if (score <=? -4)%Z then STRONG_SELL
    else if (score <=? -2)%Z then SELL
    else HOLD in
  mkComposite ty (Z.abs score) (_calculate_confidence score (len sigs))
    (Some (len buy_signals)) (Some (len sell_signals))
    (Some ml_weight) (Some score).

(** The specification's aggregate: each buy (resp. sell) signal counts 2 when
    strong and 1 otherwise. *)
Fixpoint directed_strength (direction : string)
    (sigs : list ElementarySignal) : Z :=
  match sigs with
  | [] => 0
  | s :: rest =>
      ((if String.eqb (sig_type s) direction
        then (if String.eqb (sig_strength s) "strong" then 2 else 1)
        else 0) + directed_strength direction rest)%Z
  end.

(** [sep.join(xs)] *)
Fixpoint py_join (sep : string) (xs : list string) : string :=
  match xs with
  | [] => ""
  | [x] => x
  | x :: rest => x +:+ sep +:+ py_join sep rest
  end.

(** [d[key]] on a dict. *)
Definition py_getitem {V} (d : gmap string V) (key : string) : res V :=
  match d !! key with
  | Some v => Ok v
  | None => Raise KeyError
  end.

(** [key in d] *)
Definition py_in {V} (key : string) (d : gmap string V) : bool :=
  bool_decide (is_Some (d !! key)).

(** A computation whose exceptions are all caught: [fallback] is the value
    the [except] branch returns. *)
Definition catch {A} (body : res A) (fallback : A) : A :=
  match body with
  | Ok a => a
  | Raise _ => fallback
  end.

(** The dict returned by [bollinger_bands]. *)
Record BollingerData : Type := mkBollinger {
  upper : list Q;
  middle : list Q;
  lower : list Q
}.

(** ** ml_predictor.py *)

(** [MLPredictor.prepare_labels]: the labels as a list ([np.array] keeps
    them in order); [None] when the loop raises. *)
Definition prepare_labels (closes : list Q) (prediction_days : Z)
    (target_return : Q) : option (list Z) :=
  catch
    (labels ← for_collect
       (λ i,
          current_price ← py_index closes i;
          future_price ← py_index closes (i + prediction_days);
          return_rate ← (if negb (Qeq_bool current_price 0)
                         then py_div (future_price - current_price)
                                     current_price
                         else Ok 0%Q);
          Ok (if Qle_bool target_return return_rate then 1 else 0)%Z)
       (py_range 0 (len closes - prediction_days));
     Ok (Some labels))
    None.

(** ** cache_manager.py *)

(** One entry of [MemoryCache._cache]. *)
Record CacheEntry (V : Type) : Type := mkEntry {
  entry_value : V;
  expire_time : Q;
  created_time : Q
}.
Arguments mkEntry {V} _ _ _.
Arguments entry_value {V} _.
Arguments expire_time {V} _.
Arguments created_time {V} _.

(** [MemoryCache.get] at clock reading [clock]: the value returned and the
    cache afterwards (an expired entry is deleted). *)
Definition cache_get {V} (cache : gmap string (CacheEntry V)) (key : string)
    (clock : Q) : option V * gmap string (CacheEntry V) :=
  match cache !! key with
  | Some cache_data =>
      if Qltb clock (expire_time cache_data)
      then (Some (entry_value cache_data), cache)
      else (None, delete key cache)
  | None => (None, cache)
  end.

(** [MemoryCache.set]; [clock1] and [clock2] are its two readings of
    [time.time()]. *)
Definition cache_set {V} (cache : gmap string (CacheEntry V)) (key : string)
    (value : V) (expire : Z) (clock1 clock2 : Q)
    : gmap string (CacheEntry V) :=
  <[key := mkEntry value (clock1 + inject_Z expire)%Q clock2]> cache.

(** [MemoryCache.delete] *)
Definition cache_delete {V} (cache : gmap string (CacheEntry V))
    (key : string) : gmap string (CacheEntry V) :=
  if bool_decide (is_Some (cache !! key)) then delete key cache else cache.

(** [MemoryCache.cleanup_expired]: the expired keys are collected, then
    deleted one by one. *)
Definition cache_cleanup_expired {V} (cache : gmap string (CacheEntry V))
    (clock : Q) : gmap string (CacheEntry V) :=
  let expired_keys :=
    (map_to_list cache)
      ≫= (λ kv, if Qle_bool (expire_time kv.2) clock then [kv.1] else []) in
  foldl (λ c key, delete key c) cache expired_keys.

(** [MemoryCache.get_stats]: total, active and expired key counts. *)
Definition cache_get_stats {V} (cache : gmap string (CacheEntry V))
    (clock : Q) : Z * Z * Z :=
  let active_count :=
    len (filter (λ kv, Qltb clock (expire_time kv.2) = true)
                (map_to_list cache)) in
  (Z.of_nat (size cache), active_count,
   (Z.of_nat (size cache) - active_count)%Z).

(** [CacheManager.get_or_set] once [_generate_key] has produced
    [cache_key].  A cached value is [Some w] or Python's [None]; [func] is
    the outcome of calling [func] on the given arguments; [expire] is the keyword
    argument [expire_time]; [clock] is the clock reading of
    [MemoryCache.get], [clock1] and [clock2] are those of
    [MemoryCache.set]. *)
Definition get_or_set {W} (default_expire_time : Z)
    (cache : gmap string (CacheEntry (option W))) (cache_key : string)
    (func : res (option W)) (expire : option Z) (clock clock1 clock2 : Q)
    : res (option W) * gmap string (CacheEntry (option W)) :=
  let (cached_result, cache) := cache_get cache cache_key clock in
  match cached_result with
  | Some (Some w) => (Ok (Some w), cache)
  | _ =>
      match func with
      | Ok result =>
          let lifetime :=
            match expire with
            | Some e => if (e =? 0)%Z then default_expire_time else e
            | None => default_expire_time
            end in
          (Ok result,
           cache_set cache cache_key result lifetime clock1 clock2)
      | Raise e => (Raise e, cache)
      end
  end.

(** A block appends nothing, one medium buy signal or one medium sell
    signal. *)
Definition medium_vote (sigs : list ElementarySignal) : Prop :=
  sigs = [] ∨
  (∃ reason, sigs = [mkSignal "buy" reason "medium"]) ∨
  (∃ reason, sigs = [mkSignal "sell" reason "medium"]).

(** ** The end-to-end scenario of the specification *)

(** Thirty bars rising from 100 to 130, thirty bars falling from 160 to 130,
    and a flat volume. *)
Definition rising_closes : list Q :=
  (λ i, Qred (100 + 30 * inject_Z i / 29)) <$> seqZ 0 30.
Definition flat_volume : list Q := replicate 30 1000%Q.

(** A price list given by integers. *)
Definition Qs (l : list Z) : list Q := inject_Z <$> l.

(** [{'close': closes, 'volume': volumes}] *)
Definition bars (closes volumes : list Q) : gmap string (list Q) :=
  <["close" := closes]> (<["volume" := volumes]> ∅).

(** ** A concrete environment for worked examples *)

(** Stand-ins for the external functions: a predictor that was never
    trained, a [float] parser that rejects every text, a fixed clock. *)
Definition sample_std (xs : list Q) : Q := 0%Q.
Definition sample_pow_half (x : Q) : Q := x.
Definition sample_normal (k : nat) : Q := 0%Q.
Definition sample_float_of_str (s : string) : res Q := Raise ValueError.
Definition sample_upper (s : string) : string := s.
Definition sample_percent (x : Q) : string := "".
Definition sample_now : string := "2024-01-01 00:00:00".
Definition sample_model (price_data : gmap string (list Q))
    : option MLPrediction := None.

(** A CoinGecko quote, the price record extracted from it, and a record
    with no price key. *)
Definition sample_quote : gmap string pyval :=
  <["symbol" := VStr "btc"]> (<["current_price" := VFloat 100]> ∅).
Definition sample_price_data : gmap string (list Q) :=
  <["close" := [100%Q]]> (<["high" := [0%Q]]> (<["low" := [0%Q]]>
  (<["volume" := [0%Q]]> ∅))).
Definition sample_unpriced : gmap string pyval :=
  <["symbol" := VStr "btc"]> ∅.

Section Externals.

(** [np.std]: population standard deviation. *)
Variable np_std : list Q → Q.
(** [x ** 0.5] *)
Variable pow_half : Q → Q.
(** [np_normal k]: the [k]-th value [np.random.normal(0, 0.02)] returns after
    [np.random.seed(42)]. *)
Variable np_normal : nat → Q.
(** [float(s)] on a [str]; it raises [ValueError] on malformed text. *)
Variable float_of_str : string → res Q.
(** [s.upper()] *)
Variable str_upper : string → string.
(** The format [f'{x:.1%}']. *)
Variable format_percent : Q → string.
(** [datetime.now().strftime('%Y-%m-%d %H:%M:%S')] *)
Variable now : string.
(** [ml_predictor.is_trained], and what [MLPredictor.predict] makes of the
    fitted scaler and model once the feature matrix is built ([None] when it
    gives up or catches an exception). *)
Variable is_trained : bool.
Variable model_predict : gmap string (list Q) → option MLPrediction.
(** [self.config.RISK_PARAMS] *)
Variable RISK_PARAMS : RiskParams.

(** [TechnicalIndicators.bollinger_bands] *)
Definition bollinger_bands (prices : list Q) (period : Z) (std_dev : Q)
    : res BollingerData :=
  if (len prices <? period)%Z then Ok (mkBollinger [] [] [])
  else
    middle_band ← sma prices period;
    bands ← for_loop
      (λ (bands : list Q * list Q) i,
         let price_slice := py_slice prices (i - period + 1) (i + 1) in
         let std := np_std price_slice in
         mid ← py_index middle_band (i - period + 1);
         Ok (bands.1 ++ [(mid + std * std_dev)%Q],
             bands.2 ++ [(mid - std * std_dev)%Q]))
      (py_range (period - 1) (len prices))
      ([], []);
    Ok (mkBollinger bands.1 middle_band bands.2).

(** [TechnicalIndicators.calculate_volatility] *)
Definition calculate_volatility (prices : list Q) (period : Z) : res Q :=
  if (len prices <? period + 1)%Z then Ok 0%Q
  else
    returns ← for_loop
      (λ (returns : list Q) i,
         prev ← py_index prices (i - 1);
         if negb (Qeq_bool prev 0) then
           cur ← py_index prices i;
           ret ← py_div (cur - prev) prev;
           Ok (returns ++ [ret])
         else Ok returns)
      (py_range 1 (len prices))
      [];
    if (len returns <? period)%Z then Ok 0%Q
    else
      let recent_returns := py_slice_from returns (- period) in
      mean_return ← py_div (py_sum recent_returns)
                           (inject_Z (len recent_returns));
      variance ← py_div
        (py_sum ((λ r, (r - mean_return) ^ 2)%Q <$> recent_returns))
        (inject_Z (len recent_returns));
      Ok (pow_half variance).

(** ** trading_strategy.py *)

(** [float(v)] *)
Definition py_float (v : pyval) : res Q :=
  match v with
  | VNone => Raise TypeError
  | VBool b => Ok (if b then 1 else 0)%Q
  | VInt z => if (Z.abs z <? 2 ^ 1024 - 2 ^ 970)%Z then Ok (inject_Z z)
              else Raise OverflowError
  | VFloat q => Ok q
  | VStr s => float_of_str s
  | VOther => Raise TypeError
  end.

(** [asset_data.get(key, default)] *)
Definition py_get (asset_data : gmap string pyval) (key : string)
    (default : pyval) : pyval :=
  match asset_data !! key with
  | Some v => v
  | None => default
  end.

(** [TradingStrategy._extract_price_data] *)
Definition _extract_price_data (asset_data : gmap string pyval)
    : option (gmap string (list Q)) :=
  catch
    (if py_in "current_price" asset_data then
       c ← py_float (py_get asset_data "current_price" (VInt 0));
       h ← py_float (py_get asset_data "high_24h" (VInt 0));
       l ← py_float (py_get asset_data "low_24h" (VInt 0));
       v ← py_float (py_get asset_data "total_volume" (VInt 0));
       Ok (Some (<["close" := [c]]> (<["high" := [h]]> (<["low" := [l]]>
                 (<["volume" := [v]]> ∅)))))
     else if py_in "收盘" asset_data then
       c ← py_float (py_get asset_data "收盘" (VInt 0));
       o ← py_float (py_get asset_data "开盘" (VInt 0));
       h ← py_float (py_get asset_data "最高" (VInt 0));
       l ← py_float (py_get asset_data "最低" (VInt 0));
       v ← py_float (py_get asset_data "成交量" (VInt 0));
       Ok (Some (<["close" := [c]]> (<["open" := [o]]> (<["high" := [h]]>
                 (<["low" := [l]]> (<["volume" := [v]]> ∅))))))
     else if py_in "dwjz" asset_data then
       c ← py_float (py_get asset_data "dwjz" (VInt 0));
       Ok (Some (<["close" := [c]]> (<["volume" := [1%Q]]> ∅)))
     else Ok None)
    None.

(** [TradingStrategy._generate_mock_historical_data]: [days - 1] draws, each
    applied to [prices[-1]] and inserted at the front. *)
Definition _generate_mock_historical_data (current_price : Q) (days : Z)
    : res (list Q) :=
  for_loop
    (λ (prices : list Q) i,
       let change := np_normal (Z.to_nat i) in
       last_price ← py_index prices (-1);
       let new_price := (last_price * (1 + change))%Q in
       Ok (py_max new_price (current_price * (5 # 10)) :: prices))
    (py_range 0 (days - 1))
    [current_price].

(** The five analysis blocks of [_technical_analysis].  Each returns the
    entry it writes into [indicators] (if any) and the signals it appends. *)
Definition rsi_block (historical_closes : list Q)
    : res (option Q * list ElementarySignal) :=
  rsi_values ← rsi historical_closes 14;
  if truthy rsi_values then
    current_rsi ← py_index rsi_values (-1);
    Ok (Some current_rsi,
        if Qltb current_rsi 30 then [mkSignal "buy" "RSI超卖" "medium"]
        else if Qltb 70 current_rsi then [mkSignal "sell" "RSI超买" "medium"]
        else [])
  else Ok (None, []).

Definition macd_block (historical_closes : list Q)
    : res (option MacdSnapshot * list ElementarySignal) :=
  macd_data ← macd historical_closes 12 26 9;
  if truthy (macd_line macd_data) && truthy (signal_line macd_data) then
    m ← py_index (macd_line macd_data) (-1);
    sl ← py_index (signal_line macd_data) (-1);
    h ← (if truthy (histogram macd_data)
         then py_index (histogram macd_data) (-1) else Ok 0%Q);
    Ok (Some (mkMacdSnapshot m sl h),
        if Qltb sl m && Qltb 0 h then [mkSignal "buy" "MACD金叉" "strong"]
        else if Qltb m sl && Qltb h 0
             then [mkSignal "sell" "MACD死叉" "strong"]
        else [])
  else Ok (None, []).

Definition bollinger_block (historical_closes closes : list Q)
    : res (option BollingerSnapshot * list ElementarySignal) :=
  bb_data ← bollinger_bands historical_closes 20 2;
  if truthy (upper bb_data) && truthy (lower bb_data) then
    price ← py_index closes (-1);
    upper_band ← py_index (upper bb_data) (-1);
    lower_band ← py_index (lower bb_data) (-1);
    middle_band ← py_index (middle bb_data) (-1);
    position ← (if negb (Qeq_bool upper_band lower_band)
                then py_div (price - lower_band) (upper_band - lower_band)
                else Ok (5 # 10)%Q);
    Ok (Some (mkBollingerSnapshot upper_band middle_band lower_band position),
        if Qle_bool price lower_band
        then [mkSignal "buy" "价格触及布林带下轨" "medium"]
        else if Qle_bool upper_band price
             then [mkSignal "sell" "价格触及布林带上轨" "medium"]
        else [])
  else Ok (None, []).

Definition moving_average_block (historical_closes closes : list Q)
    : res (option MovingAverages * list ElementarySignal) :=
  sma5 ← sma historical_closes 5;
  sma20 ← sma historical_closes 20;
  if truthy sma5 && truthy sma20 then
    current_sma5 ← py_index sma5 (-1);
    current_sma20 ← py_index sma20 (-1);
    price ← py_index closes (-1);
    r5 ← (if negb (Qeq_bool current_sma5 0)
          then py_div price current_sma5 else Ok 1%Q);
    r20 ← (if negb (Qeq_bool current_sma20 0)
           then py_div price current_sma20 else Ok 1%Q);
    Ok (Some (mkMovingAverages current_sma5 current_sma20 r5 r20),
        if Qltb current_sma20 current_sma5 && Qltb current_sma5 price
        then [mkSignal "buy" "均线多头排列" "medium"]
        else if Qltb current_sma5 current_sma20 && Qltb price current_sma5
             then [mkSignal "sell" "均线空头排列" "medium"]
        else [])
  else Ok (None, []).

Definition volume_block (price_data : gmap string (list Q))
    : res (option VolumeAnalysis * list ElementarySignal) :=
  let volumes := default [] (price_data !! "volume") in
  if truthy volumes then
    va ← volume_analysis volumes 10;
    Ok (Some va,
        if is_abnormal va && Qltb 2 (volume_ratio va)
        then [mkSignal "buy" "成交量异常放大" "medium"]
        else [])
  else Ok (None, []).

(** [TradingStrategy._technical_analysis] *)
Definition _technical_analysis (price_data : gmap string (list Q))
    : TechnicalAnalysis :=
  catch
    (let closes := default [] (price_data !! "close") in
     if (len closes <? 2)%Z then Ok empty_analysis
     else
       last_close ← py_index closes (-1);
       historical_closes ← _generate_mock_historical_data last_close 30;
       r ← rsi_block historical_closes;
       m ← macd_block historical_closes;
       b ← bollinger_block historical_closes closes;
       a ← moving_average_block historical_closes closes;
       v ← volume_block price_data;
       Ok (mkAnalysis (mkIndicators r.1 m.1 b.1 a.1 v.1)
                      (r.2 ++ m.2 ++ b.2 ++ a.2 ++ v.2)))
    empty_analysis.

(** The three price levels of [_calculate_entry_exit_points], before
    rounding: entry, stop-loss, take-profit. *)
Definition entry_exit_levels (signal_type : string) (price : Q) : Q * Q * Q :=
  if bool_decide (signal_type ∈ ["buy"; "strong_buy"]) then
    (price * (995 # 1000),
     price * (1 - stop_loss_pct RISK_PARAMS),
     price * (1 + take_profit_pct RISK_PARAMS))%Q
  else if bool_decide (signal_type ∈ ["sell"; "strong_sell"]) then
    (price * (1005 # 1000),
     price * (1 + stop_loss_pct RISK_PARAMS),
     price * (1 - take_profit_pct RISK_PARAMS))%Q
  else
    (price,
     price * (1 - stop_loss_pct RISK_PARAMS),
     price * (1 + take_profit_pct RISK_PARAMS))%Q.

(** [price_data['close'][-1] if price_data['close'] else 0] *)
Definition last_close_or_zero (price_data : gmap string (list Q)) : res Q :=
  closes ← py_getitem price_data "close";
  if truthy closes then py_index closes (-1) else Ok 0%Q.

(** [TradingStrategy._calculate_entry_exit_points] *)
Definition _calculate_entry_exit_points (price_data : gmap string (list Q))
    (sg : CompositeSignal) : gmap string Q :=
  catch
    (price ← last_close_or_zero price_data;
     if Qeq_bool price 0 then
       Ok (<["entry_price" := 0%Q]> (<["stop_loss" := 0%Q]>
           (<["take_profit" := 0%Q]> ∅)))
     else
       let '(entry_price, stop_loss, take_profit) :=
         entry_exit_levels (signal_type sg) price in
       ratio ← (if Qltb 0 (Qabs (entry_price - stop_loss)) then
                  q ← py_div (Qabs (take_profit - entry_price))
                             (Qabs (entry_price - stop_loss));
                  Ok (py_round q 2)
                else Ok 0%Q);
       Ok (<["entry_price" := py_round entry_price 4]>
           (<["stop_loss" := py_round stop_loss 4]>
           (<["take_profit" := py_round take_profit 4]>
           (<["risk_reward_ratio" := ratio]> ∅)))))
    (<["entry_price" := 0%Q]> (<["stop_loss" := 0%Q]>
     (<["take_profit" := 0%Q]> (<["risk_reward_ratio" := 0%Q]> ∅)))).

(** The four risk blocks of [_assess_risk]: the labels appended and the
    score added. *)
Definition volatility_risk (volatility : Q) : list string * Z :=
  if Qltb (volatility_threshold RISK_PARAMS) volatility
  then (["高波动率"], 2%Z)
  else if Qltb (volatility_threshold RISK_PARAMS * (5 # 10)) volatility
       then (["中等波动率"], 1%Z)
  else ([], 0%Z).

Definition rsi_risk (ind : Indicators) : list string * Z :=
  match ind_rsi ind with
  | Some r => if Qltb 80 r || Qltb r 20 then (["RSI极值"], 1%Z) else ([], 0%Z)
  | None => ([], 0%Z)
  end.

Definition bollinger_risk (ind : Indicators) : list string * Z :=
  match ind_bollinger_bands ind with
  | Some b => if Qltb (9 # 10) (bb_position b) || Qltb (bb_position b) (1 # 10)
              then (["价格偏离均值"], 1%Z) else ([], 0%Z)
  | None => ([], 0%Z)
  end.

Definition volume_risk (ind : Indicators) : list string * Z :=
  match ind_volume ind with
  | Some v => if Qltb (volume_ratio v) (5 # 10)
              then (["成交量萎缩"], 1%Z) else ([], 0%Z)
  | None => ([], 0%Z)
  end.

(** [TradingStrategy._assess_risk] *)
Definition _assess_risk (price_data : gmap string (list Q))
    (ta : TechnicalAnalysis) : RiskAssessment :=
  catch
    (let closes := default [] (price_data !! "close") in
     if negb (truthy closes) then Ok (mkRisk "unknown" None [] None)
     else
       vol ← (if (1 <? len closes)%Z then
                last_close ← py_index closes (-1);
                historical_closes ←
                  _generate_mock_historical_data last_close 20;
                volatility ← calculate_volatility historical_closes 20;
                Ok (Some volatility)
              else Ok None);
       let r1 := match vol with
                 | Some volatility => volatility_risk volatility
                 | None => ([], 0%Z)
                 end in
       let r2 := rsi_risk (indicators ta) in
       let r3 := bollinger_risk (indicators ta) in
       let r4 := volume_risk (indicators ta) in
       let score := (r1.2 + r2.2 + r3.2 + r4.2)%Z in
       let level := if (4 <=? score)%Z then "high"
                    else if (2 <=? score)%Z then "medium"
                    else "low" in
       Ok (mkRisk level (Some score) (r1.1 ++ r2.1 ++ r3.1 ++ r4.1)
                  (Some (default 0%Q vol))))
    (mkRisk "unknown" (Some 0%Z) [] (Some 0%Q)).

(** [TradingStrategy._generate_recommendation_reason] *)
Definition _generate_recommendation_reason (ta : TechnicalAnalysis)
    (ml : option MLPrediction) (sg : CompositeSignal) : string :=
  let technical := sig_reason <$> signals ta in
  let learned :=
    match ml with
    | Some m =>
        if negb (Qeq_bool (probability m) (5 # 10)) then
          if Qltb (6 # 10) (probability m)
          then ["AI模型预测上涨概率" +:+ format_percent (probability m)]
          else if Qltb (probability m) (4 # 10)
               then ["AI模型预测下跌概率"
                       +:+ format_percent (1 - probability m)]
          else []
        else []
    | None => []
    end in
  let overall :=
    if bool_decide (signal_type sg ∈ ["strong_buy"; "buy"])
    then ["多项指标显示买入机会"]
    else if bool_decide (signal_type sg ∈ ["strong_sell"; "sell"])
         then ["多项指标显示卖出信号"]
    else [] in
  let reasons := technical ++ learned ++ overall in
  if truthy reasons then py_join "; " (py_slice reasons 0 3)
  else "暂无明确信号".

(** [v.upper()]: only a [str] has the method. *)
Definition py_upper (v : pyval) : res pyval :=
  match v with
  | VStr s => Ok (VStr (str_upper s))
  | _ => Raise AttributeError
  end.

(** [TradingStrategy._extract_asset_info] *)
Definition _extract_asset_info (asset_data : gmap string pyval)
    : res AssetInfo :=
  if py_in "symbol" asset_data then
    symbol ← py_upper (py_get asset_data "symbol" (VStr ""));
    Ok (mkAssetInfo symbol (py_get asset_data "name" (VStr "")) "crypto")
  else if py_in "代码" asset_data then
    Ok (mkAssetInfo (py_get asset_data "代码" (VStr ""))
                    (py_get asset_data "名称" (VStr "")) "stock")
  else if py_in "fundcode" asset_data then
    Ok (mkAssetInfo (py_get asset_data "fundcode" (VStr ""))
                    (py_get asset_data "name" (VStr "")) "fund")
  else Ok (mkAssetInfo (VStr "") (VStr "") "unknown").

(** [TradingStrategy._create_empty_result] *)
Definition _create_empty_result (asset_data : gmap string pyval)
    : res Recommendation :=
  info ← _extract_asset_info asset_data;
  Ok (mkRecommendation
        info
        0%Q
        (mkComposite HOLD 0 "low" None None None None)
        empty_analysis
        None
        (<["entry_price" := 0%Q]> (<["stop_loss" := 0%Q]>
         (<["take_profit" := 0%Q]> ∅)))
        (mkRisk "unknown" None [] None)
        "数据不足"
        now).

(** [MLPredictor.predict]: nothing without a trained model, nothing when
    [prepare_features] sees fewer than 30 closes. *)
Definition predict (price_data : gmap string (list Q))
    : option MLPrediction :=
  if negb is_trained then None
  else if (len (default [] (price_data !! "close")) <? 30)%Z then None
  else model_predict price_data.

(** [TradingStrategy.analyze_asset] *)
Definition analyze_asset (asset_data : gmap string pyval)
    : res Recommendation :=
  try_except
    (match _extract_price_data asset_data with
     | None => _create_empty_result asset_data
     | Some price_data =>
         if bool_decide (size price_data = 0%nat)
         then _create_empty_result asset_data
         else
         let ta := _technical_analysis price_data in
         let ml := if is_trained then predict price_data else None in
         let sg := _generate_signal ta ml in
         let entry_exit := _calculate_entry_exit_points price_data sg in
         let risk := _assess_risk price_data ta in
         let reason := _generate_recommendation_reason ta ml sg in
         info ← _extract_asset_info asset_data;
         price ← last_close_or_zero price_data;
         Ok (mkRecommendation info price sg ta ml entry_exit risk reason now)
     end)
    (λ _, _create_empty_result asset_data).

(** ** ml_predictor.py: the feature matrix *)

(** One iteration of the loop of [MLPredictor.prepare_features]: the
    thirteen features of row [i]. *)
Definition feature_row (opens highs lows closes volumes rsi_values : list Q)
    (macd_data : MacdData) (bb_data : BollingerData)
    (sma_5 sma_20 ema_12 ema_26 : list Q) (min_length i : Z)
    : res (list Q) :=
  let back := (min_length - i)%Z in
  current_price ← py_index closes (- back);
  prev_price ← (if (back + 1 <=? len closes)%Z
                then py_index closes (- (back + 1))
                else Ok current_price);
  price_change ← (if negb (Qeq_bool prev_price 0)
                  then py_div (current_price - prev_price) prev_price
                  else Ok 0%Q);
  r ← py_index rsi_values i;
  rsi_feature ← py_div r 100;
  macd_value ← py_index (macd_line macd_data) i;
  macd_signal ← (if (i <? len (signal_line macd_data))%Z
                 then py_index (signal_line macd_data) i else Ok 0%Q);
  macd_histogram ← (if (i <? len (histogram macd_data))%Z
                    then py_index (histogram macd_data) i else Ok 0%Q);
  u ← py_index (upper bb_data) i;
  l ← py_index (lower bb_data) i;
  bb_position ← (if negb (Qeq_bool u l)
                 then py_div (current_price - l) (u - l)
                 else Ok (5 # 10)%Q);
  s5 ← py_index sma_5 i;
  sma5_ratio ← (if negb (Qeq_bool s5 0) then py_div current_price s5
                else Ok 1%Q);
  s20 ← py_index sma_20 i;
  sma20_ratio ← (if negb (Qeq_bool s20 0) then py_div current_price s20
                 else Ok 1%Q);
  e12 ← py_index ema_12 i;
  ema12_ratio ← (if negb (Qeq_bool e12 0) then py_div current_price e12
                 else Ok 1%Q);
  e26 ← py_index ema_26 i;
  ema26_ratio ← (if negb (Qeq_bool e26 0) then py_div current_price e26
                 else Ok 1%Q);
  volume_ratio ←
    (if truthy volumes && (back <? len volumes)%Z then
       current_volume ← py_index volumes (- back);
       avg_volume ← (if (back + 10 <=? len volumes)%Z
                     then py_div (py_sum (py_slice volumes (- (back + 10))
                                                   (- back))) 10
                     else Ok current_volume);
       if negb (Qeq_bool avg_volume 0)
       then py_div current_volume avg_volume else Ok 1%Q
     else Ok 1%Q);
  let upto (series : list Q) :=
    if (0 <? back - 1)%Z then py_slice series 0 (- (back - 1))
    else series in
  volatility ← calculate_volatility (upto closes) 10;
  signal_value ←
    (if (back <? len opens)%Z && (back <? len highs)%Z
        && (back <? len lows)%Z then
       pattern_data ← k_line_pattern_analysis (upto opens) (upto highs)
                                               (upto lows) (upto closes);
       Ok (if bool_decide (pattern_signal pattern_data = "bullish") then 1
           else if bool_decide (pattern_signal pattern_data = "bearish")
                then -1 else 0)%Q
     else Ok 0%Q);
  Ok [price_change; rsi_feature; macd_value; macd_signal; macd_histogram;
      bb_position; sma5_ratio; sma20_ratio; ema12_ratio; ema26_ratio;
      volume_ratio; volatility; signal_value].

(** [MLPredictor.prepare_features]: the feature matrix as a list of rows;
    [None] when the function returns [None] (too little data, or an
    exception caught by its handler). *)
Definition prepare_features (price_data : gmap string (list Q))
    : option (list (list Q)) :=
  catch
    (let opens := default [] (price_data !! "open") in
     let highs := default [] (price_data !! "high") in
     let lows := default [] (price_data !! "low") in
     let closes := default [] (price_data !! "close") in
     let volumes := default [] (price_data !! "volume") in
     if (len closes <? 30)%Z then Ok None
     else
       rsi_values ← rsi closes 14;
       macd_data ← macd closes 12 26 9;
       bb_data ← bollinger_bands closes 20 2;
       sma_5 ← sma closes 5;
       sma_20 ← sma closes 20;
       ema_12 ← ema closes 12;
       ema_26 ← ema closes 26;
       let min_length :=
         Z.min (len rsi_values)
           (Z.min (len (macd_line macd_data))
              (Z.min (len (middle bb_data))
                 (Z.min (len sma_5)
                    (Z.min (len sma_20)
                       (Z.min (len ema_12) (len ema_26)))))) in
       if (min_length =? 0)%Z then Ok None
       else
         features ← for_collect
           (feature_row opens highs lows closes volumes rsi_values
              macd_data bb_data sma_5 sma_20 ema_12 ema_26 min_length)
           (py_range 0 min_length);
         Ok (Some features))
    None.

(** * Properties *)

(** Forget the external functions a statement does not mention, so that a
    proof cannot come to depend on them. *)
Ltac only_needed :=
  try clear RISK_PARAMS; try clear model_predict; try clear is_trained;
  try clear now; try clear format_percent; try clear str_upper;
  try clear float_of_str; try clear np_normal; try clear pow_half;
  try clear np_std.

(** ** The error monad and the list primitives *)

Lemma for_collect_length {X B} (body : X → res B) xs out :
  for_collect body xs = Ok out → length out = length xs.
Proof.
  revert out. induction xs as [|x xs IH]; intros out; simpl.
  - intros [= <-]. reflexivity.
  - destruct (body x) as [b|e]; simpl; [|discriminate].
    destruct (for_collect body xs) as [bs|e]; simpl; [|discriminate].
    intros [= <-]. simpl. f_equal. by apply IH.
Qed.

Lemma for_collect_total {X B} (body : X → res B) xs :
  (∀ x, x ∈ xs → ∃ b, body x = Ok b) → ∃ out, for_collect body xs = Ok out.
Proof.
  induction xs as [|x xs IH]; intros Hbody; simpl.
  - by eexists.
  - destruct (Hbody x) as [b ->]; [left|]. simpl.
    destruct IH as [bs ->]; [intros y Hy; apply Hbody; by right|].
    simpl. by eexists.
Qed.

Lemma for_collect_lookup {X B} (body : X → res B) xs out k x :
  for_collect body xs = Ok out → xs !! k = Some x →
  ∃ b, out !! k = Some b ∧ body x = Ok b.
Proof.
  revert out k. induction xs as [|y xs IH]; intros out k; simpl; [done|].
  destruct (body y) as [b|e] eqn:Hy; simpl; [|discriminate].
  destruct (for_collect body xs) as [bs|e]; simpl; [|discriminate].
  intros [= <-]. destruct k as [|k]; simpl.
  - intros [= <-]. eauto.
  - intros Hk. by apply IH.
Qed.

(** Loop invariant rule: an invariant indexed by the number of iterations
    done so far. *)
Lemma for_loop_invariant {S X} (Inv : nat → S → Prop) (body : S → X → res S)
    xs s0 :
  Inv 0%nat s0 →
  (∀ k s x, xs !! k = Some x → Inv k s →
            ∃ s', body s x = Ok s' ∧ Inv (Datatypes.S k) s') →
  ∃ s', for_loop body xs s0 = Ok s' ∧ Inv (length xs) s'.
Proof.
  revert Inv s0. induction xs as [|x xs IH]; intros Inv s0 H0 Hstep; simpl.
  - eauto.
  - destruct (Hstep 0%nat s0 x) as (s1 & -> & H1); [done..|]. simpl.
    apply (IH (λ k, Inv (Datatypes.S k))); [done|].
    intros k s y Hk Hs. by apply (Hstep (Datatypes.S k)).
Qed.

Lemma length_py_range lo hi : length (py_range lo hi) = Z.to_nat (hi - lo).
Proof. apply length_seqZ. Qed.

Lemma lookup_py_range lo hi k i :
  py_range lo hi !! k = Some i → (i = lo + Z.of_nat k ∧ i < hi)%Z.
Proof.
  unfold py_range. intros H. apply lookup_seqZ in H. lia.
Qed.

Lemma elem_of_py_range lo hi i : i ∈ py_range lo hi ↔ (lo ≤ i < hi)%Z.
Proof. unfold py_range. rewrite elem_of_seqZ. lia. Qed.

Lemma py_index_nonneg {A} (l : list A) i :
  (0 ≤ i < len l)%Z → ∃ x, py_index l i = Ok x ∧ l !! Z.to_nat i = Some x.
Proof.
  intros Hi. unfold py_index.
  destruct (Z.ltb_spec i 0); [lia|].
  destruct (Z.ltb_spec i 0); [lia|]. destruct (Z.leb_spec (len l) i); [lia|].
  simpl. destruct (lookup_lt_is_Some_2 l (Z.to_nat i)) as [x Hx].
  { unfold len in Hi. lia. }
  rewrite Hx. eauto.
Qed.

Lemma py_index_last {A} (l : list A) x :
  py_index (l ++ [x]) (-1) = Ok x.
Proof.
  unfold py_index, len. rewrite length_app. simpl.
  destruct (Z.ltb_spec (-1 + Z.of_nat (length l + 1)) 0); [lia|].
  destruct (Z.leb_spec (Z.of_nat (length l + 1))
              (-1 + Z.of_nat (length l + 1))); [lia|]. simpl.
  replace (Z.to_nat (-1 + Z.of_nat (length l + 1))) with (length l) by lia.
  by rewrite list_lookup_middle.
Qed.

Lemma py_index_elem {A} (l : list A) i x : py_index l i = Ok x → x ∈ l.
Proof.
  unfold py_index. case_match; [discriminate|].
  destruct (l !! _) eqn:Hl; [|discriminate].
  intros [= <-]. by eapply list_elem_of_lookup_2.
Qed.

Lemma inject_Z_nonzero z : z ≠ 0%Z → Qeq_bool (inject_Z z) 0 = false.
Proof.
  intros Hz. apply not_true_is_false. intros H%Qeq_bool_iff.
  apply Hz. revert H. unfold Qeq, inject_Z. simpl. lia.
Qed.

Lemma py_div_inject_Z a z :
  z ≠ 0%Z → py_div a (inject_Z z) = Ok (a / inject_Z z)%Q.
Proof. intros Hz. unfold py_div. by rewrite inject_Z_nonzero. Qed.

Lemma py_div_nonzero a b : ¬ (b == 0)%Q → py_div a b = Ok (a / b)%Q.
Proof.
  intros Hb. unfold py_div. destruct (Qeq_bool b 0) eqn:E; [|done].
  by apply Qeq_bool_iff in E.
Qed.

(** ** Moving averages *)

Lemma sma_total prices period :
  (1 ≤ period)%Z →
  ∃ out, sma prices period = Ok out ∧
         len out = Z.max 0 (len prices - period + 1).
Proof.
  intros Hp. unfold sma. destruct (Z.ltb_spec (len prices) period).
  - eexists; split; [done|]. unfold len at 1. simpl. lia.
  - destruct (for_collect_total
      (λ i, py_div (py_sum (py_slice prices (i - period + 1) (i + 1)))
                   (inject_Z period))
      (py_range (period - 1) (len prices))) as [out Hout].
    { intros i _. rewrite py_div_inject_Z by lia. by eexists. }
    exists out. split; [done|].
    apply for_collect_length in Hout. rewrite length_py_range in Hout.
    unfold len at 1. lia.
Qed.

Lemma ema_total prices period :
  (1 ≤ period)%Z →
  ∃ out, ema prices period = Ok out ∧
         len out = Z.max 0 (len prices - period + 1).
Proof.
  intros Hp. unfold ema. destruct (Z.ltb_spec (len prices) period).
  - eexists; split; [done|]. unfold len at 1. simpl. lia.
  - rewrite !py_div_inject_Z by lia. simpl.
    match goal with
    | |- context [for_loop ?body ?r ?s0] =>
        destruct (for_loop_invariant
          (λ k (vs : list Q), length vs = Datatypes.S k) body r s0)
          as (out & Hout & Hlen)
    end.
    + reflexivity.
    + intros k vs i [-> Hi]%lookup_py_range Hvs.
      destruct (py_index_nonneg prices (period + Z.of_nat k)) as (p & -> & _);
        [lia|]. simpl.
      destruct (exists_last (l:=vs)) as (vs' & v & ->).
      { intros ->. discriminate. }
      rewrite py_index_last. simpl. eexists; split; [done|].
      rewrite !length_app in *. simpl in *. lia.
    + exists out. split; [exact Hout|].
      rewrite length_py_range in Hlen. unfold len at 1. lia.
Qed.

(** C6. For every price list and every period >= 1, [sma] and [ema] return
    (they do not raise) a list of [max(0, len(prices) - period + 1)] values;
    both return the empty list when [len(prices) < period]. *)
Theorem sma_ema_length (prices : list Q) (period : Z) :
  (1 ≤ period)%Z →
  (∃ out, sma prices period = Ok out ∧
          len out = Z.max 0 (len prices - period + 1)) ∧
  (∃ out, ema prices period = Ok out ∧
          len out = Z.max 0 (len prices - period + 1)) ∧
  ((len prices < period)%Z →
   sma prices period = Ok [] ∧ ema prices period = Ok []).
Proof.
  intros Hp. split; [by apply sma_total|]. split; [by apply ema_total|].
  intros Hlt. unfold sma, ema.
  destruct (Z.ltb_spec (len prices) period); [done|lia].
Qed.

(** ** RSI *)

Lemma Qltb_lt a b : Qltb a b = true ↔ (a < b)%Q.
Proof.
  unfold Qltb. rewrite negb_true_iff, <- not_true_iff_false, Qle_bool_iff.
  split; [apply Qnot_le_lt | apply Qlt_not_le].
Qed.

Lemma Qltb_ge a b : Qltb a b = false ↔ (b <= a)%Q.
Proof. unfold Qltb. by rewrite negb_false_iff, Qle_bool_iff. Qed.

Lemma py_max_0_nonneg c : (0 <= py_max c 0)%Q.
Proof.
  unfold py_max. destruct (Qltb c 0) eqn:E; [lra|]. by apply Qltb_ge in E.
Qed.

Lemma py_sum_nonneg l : Forall (λ x, 0 <= x)%Q l → (0 <= py_sum l)%Q.
Proof.
  intros Hl. unfold py_sum.
  assert (∀ acc, (0 <= acc)%Q → (0 <= foldl Qplus acc l)%Q) as Hgen.
  { induction Hl as [|x l Hx Hl IH]; intros acc Hacc; simpl; [done|].
    apply IH. lra. }
  apply Hgen. lra.
Qed.

Lemma gains_nonneg changes : Forall (λ x, 0 <= x)%Q (gains_of changes).
Proof.
  unfold gains_of. apply Forall_fmap, Forall_true. intros c.
  apply py_max_0_nonneg.
Qed.

Lemma losses_nonneg changes : Forall (λ x, 0 <= x)%Q (losses_of changes).
Proof.
  unfold losses_of. apply Forall_fmap, Forall_true. intros c.
  apply Qabs_nonneg.
Qed.

Lemma Qdiv_nonneg a b : (0 <= a)%Q → (0 < b)%Q → (0 <= a / b)%Q.
Proof. intros. apply Qle_shift_div_l; lra. Qed.

Lemma inject_Z_pos z : (1 ≤ z)%Z → (0 < inject_Z z)%Q.
Proof. intros. change 0%Q with (inject_Z 0). rewrite <- Zlt_Qlt. lia. Qed.

Lemma inject_Z_nonneg z : (0 ≤ z)%Z → (0 <= inject_Z z)%Q.
Proof. intros. change 0%Q with (inject_Z 0). by rewrite <- Zle_Qle. Qed.

Lemma wilder_avg_nonneg period xs k :
  (1 ≤ period)%Z → Forall (λ x, 0 <= x)%Q xs →
  (0 <= wilder_avg period xs k)%Q.
Proof.
  intros Hp Hxs. induction k as [|k IH]; simpl.
  - apply Qdiv_nonneg; [|by apply inject_Z_pos].
    apply py_sum_nonneg. by apply Forall_take.
  - apply Qdiv_nonneg; [|by apply inject_Z_pos].
    assert (0 <= nth (Z.to_nat period + k) xs 0)%Q as Hn.
    { destruct (nth_in_or_default (Z.to_nat period + k) xs 0%Q) as [Hin| ->];
        [|lra].
      rewrite Forall_forall in Hxs. apply Hxs. by apply list_elem_of_In. }
    pose proof (inject_Z_nonneg (period - 1) ltac:(lia)). nra.
Qed.

Lemma py_sum_zero l : Forall (λ x, x == 0)%Q l → (py_sum l == 0)%Q.
Proof.
  intros Hl. unfold py_sum.
  assert (∀ acc, (acc == 0)%Q → (foldl Qplus acc l == 0)%Q) as Hgen.
  { induction Hl as [|x l Hx Hl IH]; intros acc Hacc; simpl; [done|].
    apply IH. rewrite Hacc, Hx. reflexivity. }
  by apply Hgen.
Qed.

(** A price that does not fall contributes no loss. *)
Lemma losses_zero changes :
  Forall (λ change, 0 <= change)%Q changes →
  Forall (λ x, x == 0)%Q (losses_of changes).
Proof.
  intros H. unfold losses_of. apply Forall_fmap.
  eapply Forall_impl; [exact H|]. intros c Hc.
  unfold compose, py_min. cbv beta in *.
  destruct (Qltb 0 c) eqn:E; [reflexivity|].
  apply Qltb_ge in E. assert (c == 0)%Q as Hc0 by (apply Qle_antisym; done).
  rewrite Hc0. reflexivity.
Qed.

Lemma wilder_avg_zero period xs k :
  (1 ≤ period)%Z → Forall (λ x, x == 0)%Q xs →
  (wilder_avg period xs k == 0)%Q.
Proof.
  intros Hp Hxs. pose proof (inject_Z_pos period Hp) as Hpos.
  induction k as [|k IH]; simpl.
  - rewrite (py_sum_zero (take (Z.to_nat period) xs)) by by apply Forall_take.
    field. lra.
  - assert (nth (Z.to_nat period + k) xs 0 == 0)%Q as ->.
    { destruct (nth_in_or_default (Z.to_nat period + k) xs 0%Q) as [Hin| ->];
        [|reflexivity].
      rewrite Forall_forall in Hxs. apply Hxs. by apply list_elem_of_In. }
    rewrite IH. field. lra.
Qed.

(** One reading: total on non-negative averages, within [0, 100], and the
    literal 100 when the average loss is zero. *)
Lemma rsi_value_spec g l :
  (0 <= g)%Q → (0 <= l)%Q →
  ∃ v, rsi_value g l = Ok v ∧ (0 <= v <= 100)%Q ∧ ((l == 0)%Q → v = 100%Q).
Proof.
  intros Hg Hl. unfold rsi_value. destruct (Qeq_bool l 0) eqn:E.
  - exists 100%Q. repeat split; try done; lra.
  - assert (¬ (l == 0)%Q) as Hl0.
    { intros H%Qeq_bool_iff. congruence. }
    rewrite py_div_nonzero by done. simpl.
    assert (0 <= g / l)%Q as Hrs by (apply Qdiv_nonneg; lra).
    rewrite py_div_nonzero by lra. simpl.
    eexists; split; [done|]. split; [|done].
    assert (0 <= 100 / (1 + g / l))%Q by (apply Qdiv_nonneg; lra).
    assert (100 / (1 + g / l) <= 100)%Q by (apply Qle_shift_div_r; lra).
    lra.
Qed.

Lemma py_slice_prefix {A} (l : list A) p :
  (0 ≤ p)%Z → py_slice l 0 p = take (Z.to_nat p) l.
Proof.
  intros Hp. unfold py_slice, slice_bound.
  destruct (Z.ltb_spec 0 0); [lia|]. destruct (Z.ltb_spec p 0); [lia|].
  rewrite (Z.min_l 0) by (unfold len; lia). simpl. rewrite drop_0, Z.sub_0_r.
  destruct (Z.le_ge_cases p (len l)).
  - by rewrite Z.min_l.
  - rewrite Z.min_r by done. unfold len in *.
    rewrite !take_ge; [done|lia..].
Qed.

Lemma price_changes_total prices :
  ∃ changes, price_changes prices = Ok changes ∧
             len changes = Z.max 0 (len prices - 1).
Proof.
  unfold price_changes.
  match goal with
  | |- context [for_collect ?body ?r] =>
      destruct (for_collect_total body r) as [changes Hc]
  end.
  - intros i [Hlo Hhi]%elem_of_py_range.
    destruct (py_index_nonneg prices i) as (a & -> & _); [lia|].
    destruct (py_index_nonneg prices (i - 1)) as (b & -> & _); [lia|].
    simpl. by eexists.
  - exists changes. split; [done|].
    apply for_collect_length in Hc. rewrite length_py_range in Hc.
    unfold len at 1. lia.
Qed.

Lemma py_index_nth (l : list Q) i x :
  (0 ≤ i)%Z → py_index l i = Ok x → nth (Z.to_nat i) l 0%Q = x.
Proof.
  intros Hi. unfold py_index. destruct (Z.ltb_spec i 0); [lia|].
  case_match; [discriminate|].
  destruct (l !! Z.to_nat i) eqn:Hl; [|discriminate].
  intros [= <-]. by apply nth_lookup_Some.
Qed.

Lemma rsi_run_spec prices period changes :
  (1 ≤ period)%Z → (period + 1 ≤ len prices)%Z →
  price_changes prices = Ok changes →
  ∃ st, rsi_run prices period = Ok st ∧
        st.1.1 = wilder_avg period (gains_of changes) (length st.2 - 1) ∧
        st.1.2 = wilder_avg period (losses_of changes) (length st.2 - 1) ∧
        len st.2 = (len changes - period + 1)%Z ∧
        ∀ k v, st.2 !! k = Some v →
               rsi_value (wilder_avg period (gains_of changes) k)
                         (wilder_avg period (losses_of changes) k) = Ok v.
Proof.
  intros Hp Hlen Hc. unfold rsi_run. rewrite Hc. simpl.
  rewrite !py_div_inject_Z by lia. simpl.
  rewrite !py_slice_prefix by lia.
  set (G := wilder_avg period (gains_of changes)).
  set (L := wilder_avg period (losses_of changes)).
  change (py_sum (take (Z.to_nat period) (gains_of changes))
          / inject_Z period)%Q with (G 0%nat).
  change (py_sum (take (Z.to_nat period) (losses_of changes))
          / inject_Z period)%Q with (L 0%nat).
  destruct (rsi_value_spec (G 0%nat) (L 0%nat)) as (v0 & Hv0 & _).
  { apply wilder_avg_nonneg; [done|apply gains_nonneg]. }
  { apply wilder_avg_nonneg; [done|apply losses_nonneg]. }
  rewrite Hv0. simpl.
  destruct (price_changes_total prices) as (c' & Hc' & Hclen).
  rewrite Hc in Hc'. injection Hc' as <-.
  destruct (for_loop_invariant
    (λ k (st : rsi_state),
       st.1.1 = G k ∧ st.1.2 = L k ∧ length st.2 = S k ∧
       ∀ j v, st.2 !! j = Some v → rsi_value (G j) (L j) = Ok v)
    (rsi_step (gains_of changes) (losses_of changes) period)
    (py_range period (len changes)) (G 0%nat, L 0%nat, [v0]))
    as (st & Hst & Hg & Hl & Hn & Hvals).
  - simpl. repeat split; try done.
    intros [|j] v; simpl; [by intros [= <-]|done].
  - intros k [[g l] vals] i [-> Hi]%lookup_py_range (Hg & Hl & Hn & Hvals).
    simpl in *. subst g l.
    destruct (py_index_nonneg (gains_of changes) (period + Z.of_nat k))
      as (x & Hx & _).
    { unfold gains_of, len. rewrite length_fmap. unfold len in Hi. lia. }
    destruct (py_index_nonneg (losses_of changes) (period + Z.of_nat k))
      as (y & Hy & _).
    { unfold losses_of, len. rewrite length_fmap. unfold len in Hi. lia. }
    rewrite Hx, Hy. simpl. rewrite !py_div_inject_Z by lia. simpl.
    apply py_index_nth in Hx; [|lia]. apply py_index_nth in Hy; [|lia].
    replace (Z.to_nat (period + Z.of_nat k)) with (Z.to_nat period + k)%nat
      in Hx, Hy by lia. subst x y.
    change ((G k * inject_Z (period - 1)
             + nth (Z.to_nat period + k) (gains_of changes) 0)
            / inject_Z period)%Q with (G (S k)).
    change ((L k * inject_Z (period - 1)
             + nth (Z.to_nat period + k) (losses_of changes) 0)
            / inject_Z period)%Q with (L (S k)).
    destruct (rsi_value_spec (G (S k)) (L (S k))) as (v & Hv & _).
    { apply wilder_avg_nonneg; [done|apply gains_nonneg]. }
    { apply wilder_avg_nonneg; [done|apply losses_nonneg]. }
    rewrite Hv. simpl. eexists; split; [done|]. simpl.
    repeat split; try done.
    + rewrite length_app. simpl. lia.
    + intros j w Hj. destruct (decide (j < length vals)%nat) as [Hlt|Hge].
      * rewrite lookup_app_l in Hj by done. by apply Hvals.
      * apply lookup_lt_Some in Hj as Hj'. rewrite length_app in Hj'.
        simpl in Hj'. assert (j = S k) as -> by lia.
        rewrite lookup_app_r in Hj by lia.
        replace (S k - length vals)%nat with 0%nat in Hj by lia.
        simpl in Hj. by injection Hj as <-.
  - rewrite length_py_range in *. exists st. split; [done|].
    rewrite Hn. replace (S (Z.to_nat (len changes - period)) - 1)%nat
      with (Z.to_nat (len changes - period)) by lia.
    repeat split; try done. unfold len at 1. rewrite Hn. lia.
Qed.

(** C7. For period >= 1 and at least period + 1 prices, [rsi] returns
    [len(prices) - period] readings; the [k]-th reading is computed from the
    Wilder-smoothed average gain and loss, lies in the closed interval
    [0, 100], and is exactly 100 whenever the smoothed average loss is 0;
    in particular every reading is 100 when no price falls. *)
Theorem rsi_bounds (prices : list Q) (period : Z) :
  (1 ≤ period)%Z → (period + 1 ≤ len prices)%Z →
  ∃ changes values,
    price_changes prices = Ok changes ∧
    rsi prices period = Ok values ∧
    len values = (len prices - period)%Z ∧
    ∀ k v, values !! k = Some v →
      rsi_value (wilder_avg period (gains_of changes) k)
                (wilder_avg period (losses_of changes) k) = Ok v ∧
      (0 <= v <= 100)%Q ∧
      ((wilder_avg period (losses_of changes) k == 0)%Q → v = 100%Q) ∧
      (Forall (λ change, 0 <= change)%Q changes → v = 100%Q).
Proof.
  intros Hp Hlen.
  destruct (price_changes_total prices) as (changes & Hc & Hclen).
  destruct (rsi_run_spec prices period changes Hp Hlen Hc)
    as (st & Hrun & _ & _ & Hn & Hvals).
  exists changes, st.2. split; [done|]. split.
  { unfold rsi. destruct (Z.ltb_spec (len prices) (period + 1)); [lia|].
    by rewrite Hrun. }
  split; [lia|]. intros k v Hk. specialize (Hvals k v Hk).
  split; [done|].
  destruct (rsi_value_spec (wilder_avg period (gains_of changes) k)
              (wilder_avg period (losses_of changes) k)) as (w & Hw & Hb & Hz).
  { apply wilder_avg_nonneg; [done|apply gains_nonneg]. }
  { apply wilder_avg_nonneg; [done|apply losses_nonneg]. }
  rewrite Hvals in Hw. injection Hw as <-.
  split; [done|]. split; [done|].
  intros Hup. apply Hz. apply wilder_avg_zero; [done|].
  by apply losses_zero.
Qed.

(** ** MACD *)

Lemma py_slice_from_drop {A} (l : list A) k :
  (0 ≤ k)%Z → py_slice_from l k = drop (Z.to_nat k) l.
Proof.
  intros Hk. unfold py_slice_from, py_slice, slice_bound.
  destruct (Z.ltb_spec k 0); [lia|].
  destruct (Z.ltb_spec (len l) 0); [unfold len in *; lia|].
  rewrite Z.min_id. destruct (Z.le_ge_cases k (len l)).
  - rewrite Z.min_l by done. apply take_ge. rewrite length_drop.
    unfold len. lia.
  - rewrite Z.min_r by done. rewrite Z.sub_diag. change (Z.to_nat 0) with 0%nat.
    rewrite take_0. symmetry. apply drop_ge. unfold len in *. lia.
Qed.

(** The two subtraction loops of [macd]: element [off + i] of [xs] minus
    element [i] of [ys], for [i] in [range(n)]. *)
Lemma collect_differences (xs ys : list Q) (off n : Z) :
  (0 ≤ off)%Z → (off + n ≤ len xs)%Z → (n ≤ len ys)%Z →
  ∃ out,
    for_collect (λ i, a ← py_index xs (off + i);
                      b ← py_index ys i;
                      Ok (a - b)%Q) (py_range 0 n) = Ok out ∧
    out = zip_with Qminus (drop (Z.to_nat off) xs) (take (Z.to_nat n) ys).
Proof.
  intros Hoff Hxs Hys.
  match goal with
  | |- context [for_collect ?body ?r] =>
      destruct (for_collect_total body r) as [out Hout]
  end.
  { intros i [Hlo Hhi]%elem_of_py_range.
    destruct (py_index_nonneg xs (off + i)) as (a & -> & _); [lia|].
    destruct (py_index_nonneg ys i) as (b & -> & _); [lia|].
    simpl. by eexists. }
  exists out. split; [done|].
  pose proof (for_collect_length _ _ _ Hout) as Hlen.
  rewrite length_py_range, Z.sub_0_r in Hlen.
  apply (list_eq_same_length _ _ (Z.to_nat n)); [|done|].
  { rewrite length_zip_with, length_drop, length_take.
    unfold len in *. lia. }
  intros i x y Hi Hx Hy.
  destruct (for_collect_lookup _ _ _ i (Z.of_nat i) Hout) as (b & Hb & Hbody).
  { unfold py_range. apply lookup_seqZ. lia. }
  rewrite Hx in Hb. injection Hb as <-.
  apply lookup_zip_with_Some in Hy as (a' & b' & -> & Ha' & Hb').
  rewrite lookup_drop in Ha'. rewrite lookup_take_lt in Hb' by done.
  destruct (py_index_nonneg xs (off + Z.of_nat i)) as (a & Ha & Ha2); [lia|].
  destruct (py_index_nonneg ys (Z.of_nat i)) as (b & Hb & Hb2); [lia|].
  rewrite Ha, Hb in Hbody. simpl in Hbody. injection Hbody as <-.
  replace (Z.to_nat (off + Z.of_nat i)) with (Z.to_nat off + i)%nat in Ha2
    by lia.
  rewrite Nat2Z.id in Hb2. congruence.
Qed.

(** C8. With [1 <= fast <= slow] and [1 <= signal] (the defaults are
    12, 26, 9): when [len(prices) >= slow], [macd] returns, the histogram
    is as long as the signal line, and it is, entry by entry, the MACD line
    truncated from the front by the length difference minus the signal line;
    when [len(prices) < slow] the three series are empty. *)
Theorem macd_alignment (prices : list Q) (fast slow signal : Z) :
  (1 ≤ fast ≤ slow)%Z → (1 ≤ signal)%Z →
  ((slow ≤ len prices)%Z →
   ∃ m, macd prices fast slow signal = Ok m ∧
        length (histogram m) = length (signal_line m) ∧
        len (macd_line m) = (len prices - slow + 1)%Z ∧
        ema (macd_line m) signal = Ok (signal_line m) ∧
        histogram m =
          zip_with Qminus
            (drop (length (macd_line m) - length (signal_line m))
                  (macd_line m))
            (signal_line m)) ∧
  ((len prices < slow)%Z →
   macd prices fast slow signal = Ok (mkMacd [] [] [])).
Proof.
  intros Hfs Hsig. split; intros Hlen; unfold macd.
  2: { destruct (Z.ltb_spec (len prices) slow); [done|lia]. }
  destruct (Z.ltb_spec (len prices) slow); [lia|].
  destruct (ema_total prices fast) as (fast_ema & -> & Hfl); [lia|].
  destruct (ema_total prices slow) as (slow_ema & -> & Hsl); [lia|].
  simpl. rewrite py_slice_from_drop by lia.
  destruct (collect_differences (drop (Z.to_nat (slow - fast)) fast_ema)
              slow_ema 0 (len slow_ema)) as (macd_l & Hm & Hmeq).
  { lia. }
  { unfold len in *. rewrite length_drop. lia. }
  { lia. }
  cbv beta iota delta [Z.add] in Hm. rewrite Hm. simpl.
  assert (len macd_l = (len prices - slow + 1)%Z) as Hml.
  { apply for_collect_length in Hm. rewrite length_py_range in Hm.
    unfold len in *. lia. }
  destruct (ema_total macd_l signal) as (signal_l & Hs & Hsl'); [lia|].
  rewrite Hs. simpl.
  destruct (collect_differences macd_l signal_l
              (len macd_l - len signal_l) (len signal_l))
    as (hist & Hh & Hheq); [lia..|].
  rewrite Hh. simpl. eexists; split; [done|]. simpl.
  rewrite take_ge in Hheq by (unfold len; lia).
  replace (Z.to_nat (len macd_l - len signal_l))
    with (length macd_l - length signal_l)%nat in Hheq by (unfold len; lia).
  repeat split; try done.
  rewrite Hheq, length_zip_with, length_drop. unfold len in *. lia.
Qed.

(** ** Support and resistance *)

Lemma window_scan_spec beats values current i js :
  (∀ j, j ∈ js → (0 ≤ j < len values)%Z) →
  ∃ b, window_scan beats values current i js = Ok b ∧
       (b = true ↔
        ∀ j vj, j ∈ js → j ≠ i → values !! Z.to_nat j = Some vj →
                beats vj current = false).
Proof.
  induction js as [|j js IH]; intros Hjs; simpl.
  - exists true. split; [done|]. split; [|done].
    intros _ j vj Hj. by apply elem_of_nil in Hj.
  - destruct IH as (b & Hb & Hiff).
    { intros j' Hj'. apply Hjs. by right. }
    destruct (py_index_nonneg values j) as (vj & Hvj & Hlk).
    { apply Hjs. by left. }
    case_bool_decide as Hne.
    + rewrite Hvj. simpl. destruct (beats vj current) eqn:Hbeat.
      * exists false. split; [done|]. split; [done|].
        intros Hall. specialize (Hall j vj). rewrite Hbeat in Hall.
        symmetry. apply Hall; [by left|done..].
      * exists b. split; [done|]. rewrite Hiff. split.
        -- intros Hall j' vj' [->|Hin]%elem_of_cons Hne' Hlk'.
           ++ congruence.
           ++ by eapply Hall.
        -- intros Hall j' vj' Hin. apply Hall. by right.
    + exists b. split; [done|]. rewrite Hiff. split.
      * intros Hall j' vj' [->|Hin]%elem_of_cons Hne' Hlk'.
        -- by destruct Hne.
        -- by eapply Hall.
      * intros Hall j' vj' Hin. apply Hall. by right.
Qed.

Lemma level_loop_spec beats values window :
  (0 ≤ window)%Z →
  ∃ levels,
    for_loop (level_loop beats values window)
             (py_range window (len values - window)) [] = Ok levels ∧
    lists_exactly
      (local_extremum (λ v vj, beats vj v = false) values window)
      values window levels.
Proof.
  intros Hw.
  set (P := local_extremum (λ v vj, beats vj v = false) values window).
  destruct (for_loop_invariant
    (λ k levels, ∃ listed : list Z,
       levels = (λ i, nth (Z.to_nat i) values 0%Q) <$> listed ∧
       StronglySorted Z.lt listed ∧
       ∀ i, i ∈ listed ↔ (window ≤ i < window + Z.of_nat k)%Z ∧ P i)
    (level_loop beats values window)
    (py_range window (len values - window)) [])
    as (levels & Hrun & listed & Heq & Hsorted & Hmem).
  - exists []. split; [done|]. split; [constructor|].
    intros i. split; [by intros ?%elem_of_nil|lia].
  - intros k levels i [-> Hi]%lookup_py_range
      (listed & -> & Hsorted & Hmem).
    set (i := (window + Z.of_nat k)%Z) in *. unfold level_loop.
    destruct (py_index_nonneg values i) as (cur & -> & Hcur); [lia|].
    simpl.
    destruct (window_scan_spec beats values cur i
                (py_range (i - window) (i + window + 1)))
      as (b & -> & Hb).
    { intros j Hj%elem_of_py_range. lia. }
    simpl. eexists; split; [done|].
    assert (b = true ↔ P i) as HbP.
    { rewrite Hb. unfold P, local_extremum. split.
      - intros Hall. exists cur. split; [done|]. intros j vj Hj Hne Hlk.
        apply (Hall j vj); [|done..]. apply elem_of_py_range. lia.
      - intros (v & Hv & Hall) j vj Hj%elem_of_py_range Hne Hlk.
        rewrite Hcur in Hv. injection Hv as <-. apply (Hall j vj); [lia|done..]. }
    destruct b.
    + exists (listed ++ [i]). split; [|split].
      * rewrite fmap_app. simpl. by rewrite (nth_lookup_Some _ _ _ _ Hcur).
      * apply StronglySorted_app_2; [|done|repeat constructor].
        intros x1 x2 Hx1%Hmem ->%list_elem_of_singleton. lia.
      * intros x. rewrite elem_of_app, list_elem_of_singleton, Hmem.
        split.
        -- intros [[? ?]| ->]; [split; [lia|done]|].
           split; [lia|by apply HbP].
        -- intros [Hx HPx]. destruct (decide (x = i)) as [->|]; [by right|].
           left. split; [lia|done].
    + exists listed. split; [done|]. split; [done|].
      intros x. rewrite Hmem. split.
      * intros [? ?]. split; [lia|done].
      * intros [Hx HPx]. split; [|done].
        destruct (decide (x = i)) as [->|]; [|lia].
        apply HbP in HPx. discriminate.
  - exists levels. split; [done|]. exists listed. split; [done|].
    split; [done|]. intros i. rewrite Hmem, length_py_range. unfold P.
    split; intros [Hi HP]; (split; [|done]); lia.
Qed.

Lemma lists_exactly_iff (P1 P2 : Z → Prop) values window levels :
  (∀ i, P1 i ↔ P2 i) →
  lists_exactly P1 values window levels →
  lists_exactly P2 values window levels.
Proof.
  intros HP (listed & Heq & Hs & Hmem). exists listed.
  split; [done|]. split; [done|]. intros i. by rewrite Hmem, HP.
Qed.

Lemma local_extremum_iff (R1 R2 : Q → Q → Prop) values window i :
  (∀ a b, R1 a b ↔ R2 a b) →
  local_extremum R1 values window i ↔ local_extremum R2 values window i.
Proof.
  intros HR. unfold local_extremum. split; intros (v & Hv & Hall);
    exists v; (split; [done|]); intros j vj Hj Hne Hlk;
    apply HR; by eapply Hall.
Qed.

(** C4, as the code has it.  With [window >= 0] and at least
    [2 * window + 1] closes, the call returns; bar [i] is listed as a support
    exactly when no other bar of its window has a strictly lower low
    ([lows[i] <= lows[j]] throughout), and as a resistance exactly when no
    other bar of its window has a strictly higher high.  A bar that ties
    with its neighbours is therefore listed. *)
Theorem support_resistance_weak_extrema (prices highs lows : list Q)
    (window : Z) :
  (0 ≤ window)%Z → (2 * window + 1 ≤ len prices)%Z →
  ∃ lv,
    support_resistance_levels prices highs lows window = Ok lv ∧
    lists_exactly (local_extremum Qle lows window) lows window (support lv) ∧
    lists_exactly (local_extremum (λ v vj, vj <= v)%Q highs window)
                  highs window (resistance lv).
Proof.
  intros Hw Hlen. unfold support_resistance_levels.
  destruct (Z.ltb_spec (len prices) (window * 2 + 1)); [lia|].
  destruct (level_loop_spec lower_than lows window Hw) as (s & -> & Hs).
  destruct (level_loop_spec higher_than highs window Hw) as (r & -> & Hr).
  simpl. eexists; split; [done|]. simpl. split.
  - eapply lists_exactly_iff; [|exact Hs]. intros i.
    apply local_extremum_iff. intros a b. unfold lower_than.
    apply Qltb_ge.
  - eapply lists_exactly_iff; [|exact Hr]. intros i.
    apply local_extremum_iff. intros a b. unfold higher_than.
    apply Qltb_ge.
Qed.

(** C4, as stated, fails: on three equal bars with window 1 the middle bar
    is listed as support and as resistance although it is not a strict
    local extremum. *)
Lemma support_resistance_lists_ties :
  ∃ lv,
    support_resistance_levels [1; 1; 1]%Q [1; 1; 1]%Q [1; 1; 1]%Q 1 = Ok lv ∧
    support lv = [1%Q] ∧ resistance lv = [1%Q] ∧
    ¬ lists_exactly (local_extremum Qlt [1; 1; 1]%Q 1) [1; 1; 1]%Q 1
        (support lv) ∧
    ¬ lists_exactly (local_extremum (λ v vj, vj < v)%Q [1; 1; 1]%Q 1)
        [1; 1; 1]%Q 1 (resistance lv).
Proof.
  eexists. split; [vm_compute; reflexivity|]. simpl.
  split; [done|]. split; [done|].
  split; intros (listed & Heq & _ & Hmem);
    (destruct listed as [|i listed]; [discriminate|]);
    (destruct (proj1 (Hmem i)) as [Hi (v & Hv & Hall)]; [by left|]);
    change (len [1%Q; 1%Q; 1%Q]) with 3%Z in Hi;
    (assert (i = 1%Z) as -> by lia);
    simpl in Hv; injection Hv as <-;
    specialize (Hall 0%Z 1%Q ltac:(lia) ltac:(lia) eq_refl);
    by apply Qlt_irrefl in Hall.
Qed.

(** ** Composite signal *)

Lemma strength_sum_filter (direction : string) sigs :
  strength_sum (filter (λ s, sig_type s = direction) sigs)
  = directed_strength direction sigs.
Proof.
  unfold strength_sum.
  assert (∀ acc xs,
    foldl Z.add acc
      ((λ s, if String.eqb (sig_strength s) "strong" then 2 else 1)%Z <$>
       filter (λ s, sig_type s = direction) xs)
    = (acc + directed_strength direction xs)%Z) as Hgen.
  { intros acc xs. revert acc. induction xs as [|s xs IH]; intros acc.
    - simpl. lia.
    - rewrite filter_cons. simpl directed_strength.
      destruct (String.eqb_spec (sig_type s) direction) as [Heq|Hne].
      + rewrite decide_True by done. simpl. rewrite IH. lia.
      + rewrite decide_False by done. rewrite IH. lia. }
  rewrite Hgen. lia.
Qed.

(** C3. The composite signal of [_generate_signal]: its [total_score] is
    buy strength minus sell strength plus the ML weight (an element of
    {0, 2, 1, -1}); the type follows the bands >= 4 strong_buy, >= 2 buy,
    <= -4 strong_sell, <= -2 sell, otherwise hold, so a score of 4 is
    strong_buy and a score of 3 is buy; the strength is the absolute
    score. *)
Theorem generate_signal_bands (ta : TechnicalAnalysis)
    (ml : option MLPrediction) :
  ∃ score w,
    total_score (_generate_signal ta ml) = Some score ∧
    ml_contribution (_generate_signal ta ml) = Some w ∧
    w = ml_weight_of ml ∧ w ∈ [0; 2; 1; -1]%Z ∧
    score = (directed_strength "buy" (signals ta)
             - directed_strength "sell" (signals ta) + w)%Z ∧
    strength (_generate_signal ta ml) = Z.abs score ∧
    ((4 ≤ score)%Z → signal_type (_generate_signal ta ml) = "strong_buy") ∧
    ((2 ≤ score < 4)%Z → signal_type (_generate_signal ta ml) = "buy") ∧
    ((score ≤ -4)%Z → signal_type (_generate_signal ta ml) = "strong_sell") ∧
    ((-4 < score ≤ -2)%Z → signal_type (_generate_signal ta ml) = "sell") ∧
    ((-2 < score < 2)%Z → signal_type (_generate_signal ta ml) = "hold") ∧
    (score = 4%Z → signal_type (_generate_signal ta ml) = "strong_buy") ∧
    (score = 3%Z → signal_type (_generate_signal ta ml) = "buy" ∧
                   signal_type (_generate_signal ta ml) ≠ "strong_buy").
Proof.
  eexists _, _. split; [reflexivity|]. split; [reflexivity|].
  split; [reflexivity|]. split.
  { unfold ml_weight_of. destruct ml as [m|]; [|set_solver].
    repeat case_match; set_solver. }
  split.
  { by rewrite !strength_sum_filter. }
  split; [reflexivity|]. unfold _generate_signal. simpl.
  rewrite !strength_sum_filter.
  set (score := (_ - _ + _)%Z).
  repeat split; try intros Hs;
    destruct (Z.leb_spec 4 score); try lia; try done;
    destruct (Z.leb_spec 2 score); try lia; try done;
    destruct (Z.leb_spec score (-4)); try lia; try done;
    destruct (Z.leb_spec score (-2)); try lia; done.
Qed.

(** ** Entry and exit points *)

Lemma py_index_last_elem {A} (l : list A) :
  py_index l (-1) = match last l with
                    | Some x => Ok x
                    | None => Raise IndexError
                    end.
Proof.
  destruct l as [|a l] using rev_ind.
  - reflexivity.
  - by rewrite py_index_last, last_snoc.
Qed.

Lemma bind_Ok {A B} (a : A) (f : A → res B) : Ok a ≫= f = f a.
Proof. reflexivity. Qed.

Lemma last_close_or_zero_spec (price_data : gmap string (list Q)) closes :
  price_data !! "close" = Some closes →
  last_close_or_zero price_data = Ok (default 0%Q (last closes)).
Proof.
  intros Hclose. unfold last_close_or_zero, py_getitem. rewrite Hclose.
  rewrite bind_Ok. destruct closes as [|c closes]; [done|].
  cbn [truthy]. rewrite py_index_last_elem.
  by destruct (last (c :: closes)) eqn:E; [|apply last_None in E].
Qed.

Lemma py_round_nonneg x ndigits :
  (0 <= x)%Q → (0 ≤ ndigits)%Z → (0 <= py_round x ndigits)%Q.
Proof.
  intros Hx Hn. unfold py_round.
  assert (0 < inject_Z (10 ^ ndigits))%Q as Hscale.
  { apply inject_Z_pos. pose proof (Z.pow_pos_nonneg 10 ndigits). lia. }
  apply Qdiv_nonneg; [|done]. apply inject_Z_nonneg.
  assert (0 ≤ Qfloor (x * inject_Z (10 ^ ndigits)))%Z as Hf.
  { change 0%Z with (Qfloor 0). apply Qfloor_resp_le. nra. }
  repeat case_match; lia.
Qed.

(** C10. The entry/exit calculator on a price record with a close series.
    An empty series or a last close equal to 0 gives the three keys
    [entry_price], [stop_loss], [take_profit], all 0, and no
    [risk_reward_ratio] key.  A non-zero last close gives the four keys; the
    ratio is non-negative, and it is 0 when the (unrounded) entry price
    equals the stop-loss. *)
Theorem entry_exit_points_fields (price_data : gmap string (list Q))
    (sg : CompositeSignal) (closes : list Q) :
  price_data !! "close" = Some closes →
  ((closes = [] ∨ ∃ p, last closes = Some p ∧ (p == 0)%Q) →
   _calculate_entry_exit_points price_data sg
   = <["entry_price" := 0%Q]> (<["stop_loss" := 0%Q]>
       (<["take_profit" := 0%Q]> ∅)) ∧
   _calculate_entry_exit_points price_data sg !! "risk_reward_ratio" = None) ∧
  (∀ p, last closes = Some p → ¬ (p == 0)%Q →
   ∃ ratio,
     _calculate_entry_exit_points price_data sg
     = <["entry_price" :=
           py_round (entry_exit_levels (signal_type sg) p).1.1 4]>
       (<["stop_loss" :=
            py_round (entry_exit_levels (signal_type sg) p).1.2 4]>
       (<["take_profit" :=
            py_round (entry_exit_levels (signal_type sg) p).2 4]>
       (<["risk_reward_ratio" := ratio]> ∅))) ∧
     (0 <= ratio)%Q ∧
     (((entry_exit_levels (signal_type sg) p).1.1
       == (entry_exit_levels (signal_type sg) p).1.2)%Q → (ratio == 0)%Q)).
Proof.
  intros Hclose. unfold _calculate_entry_exit_points.
  rewrite (last_close_or_zero_spec _ _ Hclose), bind_Ok. split.
  - intros Hzero.
    assert (Qeq_bool (default 0%Q (last closes)) 0 = true) as ->.
    { destruct Hzero as [->|(p & -> & Hp0)]; [done|].
      by apply Qeq_bool_iff. }
    split; [done|]. by vm_compute.
  - intros p Hp Hp0. rewrite Hp. simpl default.
    destruct (Qeq_bool p 0) eqn:E; [by apply Qeq_bool_iff in E|].
    destruct (entry_exit_levels (signal_type sg) p) as [[e st] t].
    cbn [fst snd]. cbv beta iota zeta.
    destruct (Qltb 0 (Qabs (e - st))) eqn:Hlt.
    + apply Qltb_lt in Hlt.
      rewrite py_div_nonzero
        by (intros H0; rewrite H0 in Hlt; by apply Qlt_irrefl in Hlt).
      rewrite !bind_Ok. eexists. split; [reflexivity|]. split.
      * apply py_round_nonneg; [|done]. apply Qdiv_nonneg; [|done].
        apply Qabs_nonneg.
      * intros Heq. assert (Qabs (e - st) == 0)%Q as H0.
        { assert (e - st == 0)%Q as -> by (rewrite Heq; ring). done. }
        rewrite H0 in Hlt. by apply Qlt_irrefl in Hlt.
    + rewrite bind_Ok. exists 0%Q. split; [reflexivity|]. split; [lra|]. done.
Qed.

(** ** Asset records *)

Lemma bind_Raise {A B} (e : exn) (f : A → res B) : Raise e ≫= f = Raise e.
Proof. reflexivity. Qed.

Lemma py_in_None {V} (d : gmap string V) key :
  d !! key = None → py_in key d = false.
Proof.
  intros H. unfold py_in. rewrite H. apply bool_decide_eq_false_2.
  by intros [? ?].
Qed.

Ltac single_bar H :=
  repeat (apply lookup_insert_Some in H as [[_ <-]|[_ H]]; [reflexivity|]);
  by rewrite lookup_empty in H.

(** Whatever price record is extracted holds a one-bar close series, and
    every series in it has exactly one bar. *)
Lemma extract_price_data_shape asset_data price_data :
  _extract_price_data asset_data = Some price_data →
  (∃ c, price_data !! "close" = Some [c]) ∧
  ∀ key series, price_data !! key = Some series → length series = 1%nat.
Proof.
  unfold _extract_price_data, catch.
  repeat match goal with
  | |- context [py_in ?k asset_data] => destruct (py_in k asset_data)
  | |- context [py_float ?v] =>
      destruct (py_float v) as [?|?]; rewrite ?bind_Ok, ?bind_Raise
  end; try discriminate; intros [= <-];
    (split; [eexists; by vm_compute|]); intros key series H; single_bar H.
Qed.

Lemma technical_analysis_single_bar (price_data : gmap string (list Q)) c :
  price_data !! "close" = Some [c] →
  _technical_analysis price_data = empty_analysis.
Proof. intros H. unfold _technical_analysis. by rewrite H. Qed.

Lemma ml_weight_bounds ml : (-1 ≤ ml_weight_of ml ≤ 2)%Z.
Proof.
  unfold ml_weight_of. destruct ml as [m|]; [|lia].
  repeat case_match; lia.
Qed.

Lemma generate_signal_no_signals ml :
  total_score (_generate_signal empty_analysis ml) = Some (ml_weight_of ml) ∧
  signal_type (_generate_signal empty_analysis ml) ≠ STRONG_BUY ∧
  signal_type (_generate_signal empty_analysis ml) ≠ STRONG_SELL.
Proof.
  split; [reflexivity|]. unfold _generate_signal, ml_weight_of. simpl.
  destruct ml as [m|]; [|done]. by repeat case_match.
Qed.

Lemma size_nonzero_of_lookup {V} (d : gmap string V) key v :
  d !! key = Some v → bool_decide (size d = 0%nat) = false.
Proof.
  intros H. apply bool_decide_eq_false_2. intros Hs.
  apply map_size_empty_iff in Hs. subst d. by rewrite lookup_empty in H.
Qed.

(** What [analyze_asset] returns once a price record was extracted. *)
Lemma analyze_asset_accepted asset_data price_data :
  _extract_price_data asset_data = Some price_data →
  analyze_asset asset_data
  = try_except
      (info ← _extract_asset_info asset_data;
       price ← last_close_or_zero price_data;
       let ta := _technical_analysis price_data in
       let ml := if is_trained then predict price_data else None in
       let sg := _generate_signal ta ml in
       Ok (mkRecommendation info price sg ta ml
             (_calculate_entry_exit_points price_data sg)
             (_assess_risk price_data ta)
             (_generate_recommendation_reason ta ml sg) now))
      (λ _, _create_empty_result asset_data).
Proof.
  intros H. unfold analyze_asset. rewrite H.
  destruct (extract_price_data_shape _ _ H) as [[c Hc] _].
  by rewrite (size_nonzero_of_lookup _ _ _ Hc).
Qed.

(** C9. For an asset record whose price data is extracted: every series has
    exactly one bar, the technical analysis is empty, the total score is the
    ML weight alone and lies in [-1, 2], and neither [_generate_signal] nor
    the record returned by [analyze_asset] carries strong_buy or
    strong_sell. *)
Theorem accepted_asset_single_bar (asset_data : gmap string pyval)
    (price_data : gmap string (list Q)) :
  _extract_price_data asset_data = Some price_data →
  (∀ key series, price_data !! key = Some series → length series = 1%nat) ∧
  _technical_analysis price_data = empty_analysis ∧
  (∀ ml,
     total_score (_generate_signal (_technical_analysis price_data) ml)
     = Some (ml_weight_of ml) ∧
     (-1 ≤ ml_weight_of ml ≤ 2)%Z ∧
     signal_type (_generate_signal (_technical_analysis price_data) ml)
     ≠ STRONG_BUY ∧
     signal_type (_generate_signal (_technical_analysis price_data) ml)
     ≠ STRONG_SELL) ∧
  (∀ r, analyze_asset asset_data = Ok r →
        signal_type (signal r) ≠ STRONG_BUY ∧
        signal_type (signal r) ≠ STRONG_SELL).
Proof.
  intros H. destruct (extract_price_data_shape _ _ H) as [[c Hc] Hone].
  pose proof (technical_analysis_single_bar _ _ Hc) as Hta.
  split; [done|]. split; [done|]. split.
  - intros ml. rewrite Hta.
    destruct (generate_signal_no_signals ml) as (? & ? & ?).
    pose proof (ml_weight_bounds ml). done.
  - intros r. rewrite (analyze_asset_accepted _ _ H).
    unfold _create_empty_result.
    destruct (_extract_asset_info asset_data) as [info|e];
      rewrite ?bind_Ok, ?bind_Raise; [|done].
    rewrite (last_close_or_zero_spec _ _ Hc), bind_Ok. cbv zeta.
    intros [= <-]. cbn [signal]. rewrite Hta.
    by destruct (generate_signal_no_signals
                   (if is_trained then predict price_data else None))
      as (_ & ? & ?).
Qed.

Lemma analyze_asset_no_price_keys asset_data :
  asset_data !! "current_price" = None →
  asset_data !! "收盘" = None →
  asset_data !! "dwjz" = None →
  analyze_asset asset_data = _create_empty_result asset_data.
Proof.
  intros H1 H2 H3. unfold analyze_asset, _extract_price_data.
  rewrite !py_in_None by done. cbn [catch].
  by destruct (_create_empty_result asset_data).
Qed.

(** C5. An asset record with none of the keys [current_price], [收盘],
    [dwjz]: whatever record [analyze_asset] returns has [current_price] 0,
    signal type hold and the rationale [数据不足] (the source's text for
    "insufficient data"); and it does return one whenever the record has no
    [symbol] entry or a string there. *)
Theorem missing_price_keys_neutral (asset_data : gmap string pyval) :
  asset_data !! "current_price" = None →
  asset_data !! "收盘" = None →
  asset_data !! "dwjz" = None →
  (∀ r, analyze_asset asset_data = Ok r →
        current_price r = 0%Q ∧
        signal_type (signal r) = HOLD ∧
        recommendation_reason r = "数据不足") ∧
  ((asset_data !! "symbol" = None ∨
    ∃ s, asset_data !! "symbol" = Some (VStr s)) →
   ∃ r, analyze_asset asset_data = Ok r).
Proof.
  intros H1 H2 H3. rewrite (analyze_asset_no_price_keys _ H1 H2 H3).
  unfold _create_empty_result. split.
  - intros r. destruct (_extract_asset_info asset_data) as [info|e];
      rewrite ?bind_Ok, ?bind_Raise; [|done].
    by intros [= <-].
  - intros Hsym. unfold _extract_asset_info.
    destruct Hsym as [Hs|[s Hs]].
    + rewrite (py_in_None _ _ Hs). repeat case_match; by eexists.
    + unfold py_get. rewrite Hs. simpl py_upper.
      destruct (py_in "symbol" asset_data); [by eexists|].
      repeat case_match; by eexists.
Qed.

(** C2 fails on the code.  A record whose [symbol] is [None] makes
    [_extract_asset_info] raise [AttributeError]; the handler of
    [analyze_asset] calls it again through [_create_empty_result], so the
    exception reaches the caller, with or without a usable price. *)
Theorem analyze_asset_raises_without_upper :
  analyze_asset {[ "symbol" := VNone ]} = Raise AttributeError ∧
  analyze_asset (<["symbol" := VNone]> {[ "current_price" := VFloat 100 ]})
  = Raise AttributeError.
Proof. split; by vm_compute. Qed.

(** [analyze_asset] returns a record exactly when [_extract_asset_info]
    does: no other exception escapes it. *)
Lemma analyze_asset_returns_iff asset_data :
  (∃ r, analyze_asset asset_data = Ok r) ↔
  (∃ info, _extract_asset_info asset_data = Ok info).
Proof.
  destruct (_extract_price_data asset_data) as [price_data|] eqn:H.
  - rewrite (analyze_asset_accepted _ _ H).
    destruct (extract_price_data_shape _ _ H) as [[c Hc] _].
    unfold _create_empty_result.
    destruct (_extract_asset_info asset_data) as [info|e];
      rewrite ?bind_Ok, ?bind_Raise.
    + rewrite (last_close_or_zero_spec _ _ Hc), bind_Ok. cbv zeta.
      split; intros _; by eexists.
    + split; intros [? ?]; discriminate.
  - unfold analyze_asset. rewrite H. unfold _create_empty_result.
    destruct (_extract_asset_info asset_data) as [info|e];
      rewrite ?bind_Ok, ?bind_Raise.
    + split; intros _; by eexists.
    + split; intros [? ?]; discriminate.
Qed.

(** ** The supplied history and the mock walk *)





(** * Further properties of the indicator library *)

(** ** Moving averages read a window *)

Lemma for_collect_Forall {X B} (body : X → res B) (P : B → Prop) xs out :
  for_collect body xs = Ok out →
  (∀ x b, x ∈ xs → body x = Ok b → P b) →
  Forall P out.
Proof.
  revert out. induction xs as [|x xs IH]; intros out; simpl.
  - intros [= <-] _. constructor.
  - destruct (body x) as [b|e] eqn:Hb; [|discriminate]. rewrite bind_Ok.
    destruct (for_collect body xs) as [bs|e]; [|discriminate].
    rewrite bind_Ok. intros [= <-] HP. constructor.
    + apply (HP x b); [by left|done].
    + apply IH; [done|]. intros y c Hy. apply HP. by right.
Qed.

Lemma Forall_py_slice {A} (P : A → Prop) (l : list A) lo hi :
  Forall P l → Forall P (py_slice l lo hi).
Proof. intros H. unfold py_slice. by apply Forall_take, Forall_drop. Qed.

Lemma length_py_slice {A} (l : list A) lo hi :
  (0 ≤ lo ≤ hi)%Z → (hi ≤ len l)%Z →
  length (py_slice l lo hi) = Z.to_nat (hi - lo).
Proof.
  intros Hlo Hhi. unfold py_slice, slice_bound.
  destruct (Z.ltb_spec lo 0); [lia|]. destruct (Z.ltb_spec hi 0); [lia|].
  rewrite !Z.min_l by lia. rewrite length_take, length_drop.
  unfold len in *. lia.
Qed.

Lemma py_sum_bounds lo hi l :
  Forall (λ x, lo <= x <= hi)%Q l →
  (inject_Z (len l) * lo <= py_sum l <= inject_Z (len l) * hi)%Q.
Proof.
  intros Hl. unfold py_sum.
  assert (∀ acc,
    (acc + inject_Z (len l) * lo <= foldl Qplus acc l
     <= acc + inject_Z (len l) * hi)%Q) as Hgen.
  { induction Hl as [|x l Hx Hl IH]; intros acc.
    - change (inject_Z (len (@nil Q))) with 0%Q. simpl foldl. lra.
    - simpl foldl. specialize (IH (acc + x)%Q).
      unfold len in *. rewrite length_cons, Nat2Z.inj_succ, <- Z.add_1_r.
      rewrite inject_Z_plus. change (inject_Z 1) with 1%Q. lra. }
  specialize (Hgen 0%Q). lra.
Qed.

(** The mean of [n >= 1] values of [[lo, hi]] lies in [[lo, hi]]. *)
Lemma mean_within_range lo hi l n :
  (1 ≤ n)%Z → len l = n → Forall (λ x, lo <= x <= hi)%Q l →
  (lo <= py_sum l / inject_Z n <= hi)%Q.
Proof.
  intros Hn Hlen Hl. pose proof (py_sum_bounds lo hi l Hl) as [H1 H2].
  rewrite Hlen in H1, H2. pose proof (inject_Z_pos n Hn) as Hpos. split.
  - apply Qle_shift_div_l; [done|]. lra.
  - apply Qle_shift_div_r; [done|]. lra.
Qed.

Lemma py_slice_take {A} (l : list A) (n : nat) lo hi :
  (0 ≤ lo ≤ hi)%Z → (hi ≤ Z.of_nat n)%Z → (n ≤ length l)%nat →
  py_slice (take n l) lo hi = py_slice l lo hi.
Proof.
  intros Hlo Hhi Hn. unfold py_slice, slice_bound, len.
  rewrite length_take, Nat.min_l by done.
  destruct (Z.ltb_spec lo 0); [lia|]. destruct (Z.ltb_spec hi 0); [lia|].
  rewrite !Z.min_l by lia.
  apply list_eq. intros i. rewrite !lookup_take.
  destruct (decide (i < Z.to_nat (hi - lo))%nat); [|done].
  rewrite !lookup_drop, lookup_take. by rewrite decide_True by lia.
Qed.

Lemma py_index_take {A} (l : list A) (n : nat) i :
  (0 ≤ i < Z.of_nat n)%Z → (n ≤ length l)%nat →
  py_index (take n l) i = py_index l i.
Proof.
  intros Hi Hn. unfold py_index, len. cbv zeta.
  rewrite length_take, Nat.min_l by done.
  destruct (Z.ltb_spec i 0); [lia|]. destruct (Z.ltb_spec i 0); [lia|].
  destruct (Z.leb_spec (Z.of_nat n) i); [lia|].
  destruct (Z.leb_spec (Z.of_nat (length l)) i); [lia|]. cbn [orb].
  rewrite lookup_take. by rewrite decide_True by lia.
Qed.

Lemma py_slice_single {A} (l : list A) (i : nat) x :
  l !! i = Some x → py_slice l (Z.of_nat i) (Z.of_nat i + 1) = [x].
Proof.
  intros Hx. pose proof (lookup_lt_Some _ _ _ Hx) as Hi.
  unfold py_slice, slice_bound, len.
  destruct (Z.ltb_spec (Z.of_nat i) 0); [lia|].
  destruct (Z.ltb_spec (Z.of_nat i + 1) 0); [lia|].
  rewrite !Z.min_l by lia.
  replace (Z.to_nat (Z.of_nat i + 1 - Z.of_nat i)) with 1%nat by lia.
  rewrite Nat2Z.id. apply list_eq. intros [|j].
  - rewrite lookup_take, decide_True by lia.
    rewrite lookup_drop, Nat.add_0_r. done.
  - rewrite lookup_take_ge by lia. done.
Qed.

Lemma py_range_split lo mid hi :
  (lo ≤ mid ≤ hi)%Z → py_range lo hi = py_range lo mid ++ py_range mid hi.
Proof.
  intros H. unfold py_range.
  replace (hi - lo)%Z with ((mid - lo) + (hi - mid))%Z by lia.
  rewrite seqZ_app by lia. do 2 f_equal; lia.
Qed.

Lemma for_collect_ext {X B} (f g : X → res B) xs :
  (∀ x, x ∈ xs → f x = g x) → for_collect f xs = for_collect g xs.
Proof.
  induction xs as [|x xs IH]; intros H; simpl; [done|].
  rewrite (H x) by left. rewrite IH; [done|]. intros y Hy. apply H. by right.
Qed.

Lemma for_collect_app {X B} (f : X → res B) xs ys :
  for_collect f (xs ++ ys)
  = (a ← for_collect f xs; b ← for_collect f ys; Ok (a ++ b)).
Proof.
  induction xs as [|x xs IH]; simpl.
  - by destruct (for_collect f ys).
  - destruct (f x) as [v|e]; [|done]. rewrite !bind_Ok, IH.
    destruct (for_collect f xs) as [a|e]; [|done]. rewrite !bind_Ok.
    by destruct (for_collect f ys).
Qed.

Lemma for_loop_ext {S X} (f g : S → X → res S) xs s :
  (∀ s x, x ∈ xs → f s x = g s x) → for_loop f xs s = for_loop g xs s.
Proof.
  revert s. induction xs as [|x xs IH]; intros s H; simpl; [done|].
  rewrite (H s x) by left. destruct (g s x) as [s'|e]; [|done].
  rewrite !bind_Ok. apply IH. intros t y Hy. apply H. by right.
Qed.

Lemma for_loop_app {S X} (f : S → X → res S) xs ys s :
  for_loop f (xs ++ ys) s = (s' ← for_loop f xs s; for_loop f ys s').
Proof.
  revert s. induction xs as [|x xs IH]; intros s; simpl; [done|].
  destruct (f s x) as [s'|e]; [|done]. rewrite !bind_Ok. apply IH.
Qed.

(** A loop whose body only appends leaves its initial list as a prefix. *)
Lemma for_loop_appends {A X} (f : list A → X → res (list A)) xs s s' :
  (∀ t x t', f t x = Ok t' → ∃ v, t' = t ++ [v]) →
  for_loop f xs s = Ok s' → ∃ ext, s' = s ++ ext.
Proof.
  intros Hf. revert s. induction xs as [|x xs IH]; intros s; simpl.
  - intros [= <-]. exists []. by rewrite app_nil_r.
  - destruct (f s x) as [t|e] eqn:E; [|discriminate]. rewrite bind_Ok.
    intros Hrun. destruct (Hf s x t E) as [v ->].
    destruct (IH _ Hrun) as [ext ->]. exists (v :: ext).
    by rewrite <- app_assoc.
Qed.

(** X1. [sma] has no look-ahead: with [period >= 1], the averages of the
    first [n] prices are the first averages of the whole series, one per
    window that fits into the first [n] prices.  With [period = 1] the
    averages are the prices themselves. *)
Theorem sma_is_causal (prices : list Q) (period : Z) (n : nat) :
  (1 ≤ period)%Z → (n ≤ length prices)%nat →
  ∃ whole part,
    sma prices period = Ok whole ∧
    sma (take n prices) period = Ok part ∧
    len part = Z.max 0 (Z.of_nat n - period + 1) ∧
    part = take (length part) whole ∧
    (period = 1%Z → Forall2 Qeq whole prices).
Proof.
  only_needed.
  intros Hp Hn.
  destruct (sma_total prices period Hp) as (whole & Hw & Hwl).
  destruct (sma_total (take n prices) period Hp) as (part & Hpart & Hpl).
  exists whole, part. split; [done|]. split; [done|].
  assert (len (take n prices) = Z.of_nat n) as Hlt.
  { unfold len. rewrite length_take. lia. }
  split; [by rewrite Hpl, Hlt|]. split.
  - unfold sma in Hw, Hpart. rewrite Hlt in Hpart.
    destruct (Z.ltb_spec (Z.of_nat n) period) as [Hshort|Hlong].
    { by injection Hpart as <-. }
    destruct (Z.ltb_spec (len prices) period); [unfold len in *; lia|].
    rewrite (py_range_split (period - 1) (Z.of_nat n) (len prices)) in Hw
      by (unfold len; lia).
    rewrite for_collect_app in Hw.
    rewrite (for_collect_ext _
               (λ i, py_div (py_sum (py_slice prices (i - period + 1)
                                              (i + 1)))
                            (inject_Z period))) in Hpart.
    2:{ intros i Hi. apply elem_of_py_range in Hi. cbv beta.
        by rewrite py_slice_take by lia. }
    rewrite Hpart, bind_Ok in Hw.
    destruct (for_collect _ (py_range (Z.of_nat n) (len prices)))
      as [rest|e]; [|discriminate].
    rewrite bind_Ok in Hw. injection Hw as <-.
    by rewrite take_app_length.
  - intros ->. apply Forall2_same_length_lookup. split.
    { unfold len in *. lia. }
    intros i x y Hx Hy. unfold sma in Hw.
    destruct (Z.ltb_spec (len prices) 1).
    { injection Hw as <-. done. }
    destruct (for_collect_lookup _ _ _ i (Z.of_nat i) Hw) as (b & Hb & Hbody).
    { unfold py_range. apply lookup_seqZ.
      apply lookup_lt_Some in Hy. unfold len. lia. }
    cbv beta in Hbody.
    replace (Z.of_nat i - 1 + 1)%Z with (Z.of_nat i) in Hbody by lia.
    rewrite (py_slice_single prices i y Hy) in Hbody.
    change (py_div (py_sum [y]) (inject_Z 1)) with (Ok (py_sum [y] / 1)%Q)
      in Hbody.
    rewrite Hx in Hb. simplify_eq. unfold py_sum. simpl. field.
Qed.

Lemma ema_body_appends (prices : list Q) (multiplier : Q) t (i : Z) t' :
  (p ← py_index prices i;
   prev ← py_index t (-1);
   Ok (t ++ [(p * multiplier + prev * (1 - multiplier))%Q])) = Ok t' →
  ∃ v, t' = t ++ [v].
Proof.
  destruct (py_index prices i) as [p|e]; [|discriminate]. rewrite bind_Ok.
  destruct (py_index t (-1)) as [prev|e]; [|discriminate]. rewrite bind_Ok.
  intros [= <-]. by eexists.
Qed.

(** X2. [ema] has no look-ahead: with [period >= 1], the averages of the
    first [n] prices are the first averages of the whole series.  With
    [period = 1] the multiplier is 1 and the averages are the prices
    themselves. *)
Theorem ema_is_causal (prices : list Q) (period : Z) (n : nat) :
  (1 ≤ period)%Z → (n ≤ length prices)%nat →
  ∃ whole part,
    ema prices period = Ok whole ∧
    ema (take n prices) period = Ok part ∧
    len part = Z.max 0 (Z.of_nat n - period + 1) ∧
    part = take (length part) whole ∧
    (period = 1%Z → Forall2 Qeq whole prices).
Proof.
  only_needed.
  intros Hp Hn.
  destruct (ema_total prices period Hp) as (whole & Hw & Hwl).
  destruct (ema_total (take n prices) period Hp) as (part & Hpart & Hpl).
  exists whole, part. split; [done|]. split; [done|].
  assert (len (take n prices) = Z.of_nat n) as Hlt.
  { unfold len. rewrite length_take. lia. }
  split; [by rewrite Hpl, Hlt|]. split.
  - unfold ema in Hw, Hpart. rewrite Hlt in Hpart.
    destruct (Z.ltb_spec (Z.of_nat n) period) as [Hshort|Hlong].
    { by injection Hpart as <-. }
    destruct (Z.ltb_spec (len prices) period); [unfold len in *; lia|].
    rewrite !py_div_inject_Z, !bind_Ok in Hw, Hpart by lia.
    rewrite py_slice_take in Hpart by lia.
    rewrite (py_range_split period (Z.of_nat n) (len prices)) in Hw
      by (unfold len; lia).
    rewrite for_loop_app in Hw.
    erewrite for_loop_ext in Hpart.
    2:{ intros t i Hi. apply elem_of_py_range in Hi.
        rewrite py_index_take by lia. reflexivity. }
    rewrite Hpart, bind_Ok in Hw.
    destruct (for_loop_appends _ _ _ _ (ema_body_appends prices _) Hw)
      as [ext ->].
    by rewrite take_app_length.
  - intros ->. unfold ema in Hw.
    destruct (Z.ltb_spec (len prices) 1) as [Hshort|Hlong].
    { injection Hw as <-. destruct prices; [constructor|].
      unfold len in Hshort. simpl in Hshort. lia. }
    rewrite !py_div_inject_Z, !bind_Ok in Hw by lia.
    destruct (prices !! 0%nat) as [p0|] eqn:H0.
    2:{ apply lookup_ge_None in H0. unfold len in Hlong. lia. }
    change (py_slice prices 0 1)
      with (py_slice prices (Z.of_nat 0) (Z.of_nat 0 + 1)) in Hw.
    rewrite (py_slice_single prices 0 p0 H0) in Hw.
    match type of Hw with
    | for_loop ?body ?r ?s0 = _ =>
        destruct (for_loop_invariant
          (λ k (vs : list Q), Forall2 Qeq vs (take (S k) prices))
          body r s0) as (out & Hout & Hinv)
    end.
    + rewrite (take_S_r _ _ _ H0). simpl. constructor; [|constructor].
      unfold py_sum. simpl. field.
    + intros k vs i [-> Hi]%lookup_py_range Hvs.
      destruct (py_index_nonneg prices (1 + Z.of_nat k)) as (p & -> & Hp');
        [lia|]. rewrite bind_Ok.
      replace (Z.to_nat (1 + Z.of_nat k)) with (S k) in Hp' by lia.
      assert (vs ≠ []) as Hne.
      { intros ->. apply Forall2_length in Hvs.
        rewrite length_take in Hvs. cbn [length] in Hvs.
        unfold len in Hlong. lia. }
      destruct (exists_last Hne) as (vs' & v & ->).
      rewrite py_index_last, bind_Ok. eexists. split; [done|].
      rewrite (take_S_r _ _ _ Hp'). apply Forall2_app; [done|].
      constructor; [|constructor].
      change (inject_Z (1 + 1)) with 2%Q. field.
    + rewrite Hw in Hout. injection Hout as <-.
      rewrite length_py_range in Hinv.
      rewrite take_ge in Hinv by (unfold len in *; lia). exact Hinv.
Qed.

(** ** Bollinger bands *)

(** The bands on at least [period] prices. *)
Lemma bollinger_bands_spec (prices : list Q) (period : Z) (std_dev : Q) :
  (1 ≤ period)%Z → (period ≤ len prices)%Z →
  ∃ b, bollinger_bands prices period std_dev = Ok b ∧
       sma prices period = Ok (middle b) ∧
       len (middle b) = (len prices - period + 1)%Z ∧
       length (upper b) = length (middle b) ∧
       length (lower b) = length (middle b) ∧
       ∀ i u m l,
         upper b !! i = Some u → middle b !! i = Some m →
         lower b !! i = Some l →
         u = (m + np_std (py_slice prices (Z.of_nat i)
                                   (Z.of_nat i + period)) * std_dev)%Q ∧
         l = (m - np_std (py_slice prices (Z.of_nat i)
                                   (Z.of_nat i + period)) * std_dev)%Q.
Proof.
  intros Hp Hlen. unfold bollinger_bands.
  destruct (Z.ltb_spec (len prices) period); [lia|].
  destruct (sma_total prices period Hp) as (mid & Hmid & Hmlen).
  rewrite Hmid, bind_Ok.
  set (window := λ i : nat, py_slice prices (Z.of_nat i) (Z.of_nat i + period)).
  match goal with
  | |- context [for_loop ?body ?r ?s0] =>
      destruct (for_loop_invariant
        (λ k (bands : list Q * list Q),
           length bands.1 = k ∧ length bands.2 = k ∧
           ∀ i u m l, bands.1 !! i = Some u → mid !! i = Some m →
                      bands.2 !! i = Some l →
                      u = (m + np_std (window i) * std_dev)%Q ∧
                      l = (m - np_std (window i) * std_dev)%Q)
        body r s0) as (bands & Hrun & Hl1 & Hl2 & Hvals)
  end.
  - split; [done|]. split; [done|]. intros i u m l Hu. done.
  - intros k [up lo] i [-> Hi]%lookup_py_range (Hl1 & Hl2 & Hvals).
    cbn [fst snd] in *.
    destruct (py_index_nonneg mid (period - 1 + Z.of_nat k - period + 1))
      as (m & -> & Hm); [lia|]. rewrite bind_Ok.
    replace (Z.to_nat (period - 1 + Z.of_nat k - period + 1)) with k in Hm
      by lia.
    eexists; split; [done|]. cbn [fst snd]. rewrite !length_app. simpl.
    split; [lia|]. split; [lia|]. intros j u m' l Hu Hm' Hlo.
    destruct (decide (j < k)%nat) as [Hlt|Hge].
    + rewrite lookup_app_l in Hu by lia. rewrite lookup_app_l in Hlo by lia.
      by apply Hvals.
    + apply lookup_lt_Some in Hu as Hj. rewrite length_app in Hj.
      simpl in Hj. assert (j = k) as -> by lia.
      rewrite lookup_app_r in Hu by lia. rewrite lookup_app_r in Hlo by lia.
      rewrite Hl1, Nat.sub_diag in Hu. rewrite Hl2, Nat.sub_diag in Hlo.
      simpl in Hu, Hlo. injection Hu as <-. injection Hlo as <-.
      rewrite Hm in Hm'. injection Hm' as <-. unfold window.
      replace (period - 1 + Z.of_nat k - period + 1)%Z with (Z.of_nat k)
        by lia.
      replace (period - 1 + Z.of_nat k + 1)%Z with (Z.of_nat k + period)%Z
        by lia.
      done.
  - rewrite Hrun, bind_Ok. eexists; split; [done|]. cbn [upper middle lower].
    rewrite length_py_range in Hl1, Hl2.
    split; [done|]. split; [lia|]. split; [unfold len in *; lia|].
    split; [unfold len in *; lia|]. intros i u m l Hu Hm Hlo.
    exact (Hvals i u m l Hu Hm Hlo).
Qed.

(** X3. [bollinger_bands] with [period >= 1] on at least [period] prices
    returns three bands of equal length; the middle band is [sma]; band [i]
    is the middle value plus and minus [std_dev] standard deviations of the
    window [prices[i : i + period]]; and when that deviation and [std_dev]
    are non-negative the bands bracket the middle:
    [lower <= middle <= upper].  With fewer prices the three bands are
    empty. *)
Theorem bollinger_bands_bracket (prices : list Q) (period : Z)
    (std_dev : Q) :
  (1 ≤ period)%Z →
  ((period ≤ len prices)%Z →
   ∃ b, bollinger_bands prices period std_dev = Ok b ∧
        sma prices period = Ok (middle b) ∧
        len (middle b) = (len prices - period + 1)%Z ∧
        length (upper b) = length (middle b) ∧
        length (lower b) = length (middle b) ∧
        ∀ i u m l,
          upper b !! i = Some u → middle b !! i = Some m →
          lower b !! i = Some l →
          u = (m + np_std (py_slice prices (Z.of_nat i)
                                    (Z.of_nat i + period)) * std_dev)%Q ∧
          l = (m - np_std (py_slice prices (Z.of_nat i)
                                    (Z.of_nat i + period)) * std_dev)%Q ∧
          ((0 <= np_std (py_slice prices (Z.of_nat i)
                                  (Z.of_nat i + period)))%Q →
           (0 <= std_dev)%Q → (l <= m)%Q ∧ (m <= u)%Q)) ∧
  ((len prices < period)%Z →
   bollinger_bands prices period std_dev = Ok (mkBollinger [] [] [])).
Proof.
  intros Hp. split; intros Hlen.
  - destruct (bollinger_bands_spec prices period std_dev Hp Hlen)
      as (b & Hb & Hsma & Hml & Hul & Hll & Hvals).
    exists b. do 5 (split; [done|]). intros i u m l Hu Hm Hl.
    destruct (Hvals i u m l Hu Hm Hl) as [-> ->].
    split; [done|]. split; [done|].
    generalize (np_std (py_slice prices (Z.of_nat i) (Z.of_nat i + period))).
    intros s Hs Hk. split; nra.
  - unfold bollinger_bands.
    destruct (Z.ltb_spec (len prices) period); [done|lia].
Qed.

(** ** Lengths of the MACD series *)

(** The three series of [macd], written with [zip_with]. *)
Lemma macd_unfold (prices : list Q) (fast slow signal : Z) :
  (1 ≤ fast ≤ slow)%Z → (1 ≤ signal)%Z → (slow ≤ len prices)%Z →
  ∃ fast_ema slow_ema macd_l signal_l,
    ema prices fast = Ok fast_ema ∧
    ema prices slow = Ok slow_ema ∧
    macd_l = zip_with Qminus (drop (Z.to_nat (slow - fast)) fast_ema)
                             slow_ema ∧
    ema macd_l signal = Ok signal_l ∧
    macd prices fast slow signal
    = Ok (mkMacd macd_l signal_l
            (zip_with Qminus
               (drop (length macd_l - length signal_l) macd_l) signal_l)).
Proof.
  intros Hfs Hsig Hlen. unfold macd.
  destruct (Z.ltb_spec (len prices) slow); [lia|].
  destruct (ema_total prices fast) as (fast_ema & Hf & Hfl); [lia|].
  destruct (ema_total prices slow) as (slow_ema & Hs & Hsl); [lia|].
  rewrite Hf, Hs, !bind_Ok. rewrite py_slice_from_drop by lia.
  destruct (collect_differences (drop (Z.to_nat (slow - fast)) fast_ema)
              slow_ema 0 (len slow_ema)) as (macd_l & Hm & Hmeq).
  { lia. }
  { unfold len in *. rewrite length_drop. lia. }
  { lia. }
  cbv beta iota delta [Z.add] in Hm. rewrite Hm, bind_Ok.
  rewrite take_ge in Hmeq by (unfold len; lia).
  change (Z.to_nat 0) with 0%nat in Hmeq. rewrite drop_0 in Hmeq.
  destruct (ema_total macd_l signal) as (signal_l & Hsg & Hsgl); [lia|].
  rewrite Hsg, bind_Ok.
  destruct (collect_differences macd_l signal_l
              (len macd_l - len signal_l) (len signal_l))
    as (hist & Hh & Hheq); [unfold len in *; lia..|].
  rewrite Hh, bind_Ok. rewrite take_ge in Hheq by (unfold len; lia).
  replace (Z.to_nat (len macd_l - len signal_l))
    with (length macd_l - length signal_l)%nat in Hheq by (unfold len; lia).
  exists fast_ema, slow_ema, macd_l, signal_l. subst hist.
  repeat split; done.
Qed.

(** X4. The lengths of the three series of [macd], for
    [1 <= fast <= slow], [signal >= 1] and at least [slow] prices: the MACD
    line has [len - slow + 1] values, the signal line and the histogram have
    [max(0, len - slow - signal + 2)] each, so the histogram is empty exactly
    when there are fewer than [slow + signal - 1] prices (34 with the default
    periods 12, 26, 9). *)
Theorem macd_series_lengths (prices : list Q) (fast slow signal : Z) :
  (1 ≤ fast ≤ slow)%Z → (1 ≤ signal)%Z → (slow ≤ len prices)%Z →
  ∃ m, macd prices fast slow signal = Ok m ∧
       len (macd_line m) = (len prices - slow + 1)%Z ∧
       len (signal_line m) = Z.max 0 (len prices - slow - signal + 2) ∧
       len (histogram m) = Z.max 0 (len prices - slow - signal + 2) ∧
       (histogram m = [] ↔ (len prices < slow + signal - 1)%Z).
Proof.
  only_needed.
  intros Hfs Hsig Hlen.
  destruct (macd_unfold prices fast slow signal Hfs Hsig Hlen)
    as (fe & se & ml & sl & Hfe & Hse & Hml & Hsl & ->).
  eexists. split; [done|]. cbn [macd_line signal_line histogram].
  destruct (ema_total prices fast) as (? & Hfe' & Hfl); [lia|].
  destruct (ema_total prices slow) as (? & Hse' & Hsel); [lia|].
  rewrite Hfe in Hfe'. injection Hfe' as <-.
  rewrite Hse in Hse'. injection Hse' as <-.
  destruct (ema_total ml signal Hsig) as (? & Hsl' & Hsll).
  rewrite Hsl in Hsl'. injection Hsl' as <-.
  assert (len ml = len prices - slow + 1)%Z as Hmll.
  { subst ml. unfold len in *. rewrite length_zip_with, length_drop. lia. }
  assert (len (zip_with Qminus (drop (length ml - length sl) ml) sl)
          = Z.max 0 (len prices - slow - signal + 2)) as Hhl.
  { unfold len in *. rewrite length_zip_with, length_drop. lia. }
  split; [done|]. split; [lia|]. split; [done|].
  rewrite <- length_zero_iff_nil. unfold len in *. lia.
Qed.

(** ** RSI of a falling series *)

Lemma py_sum_pos l :
  l ≠ [] → Forall (λ x, 0 < x)%Q l → (0 < py_sum l)%Q.
Proof.
  intros Hne Hl. unfold py_sum.
  assert (∀ acc, (0 <= acc)%Q → l ≠ [] → (0 < foldl Qplus acc l)%Q) as Hgen.
  { clear Hne. induction Hl as [|x l Hx Hl IH]; intros acc Hacc Hn; [done|].
    cbv beta in *. simpl foldl.
    destruct l as [|y l]; [simpl; lra|]. apply IH; [lra|done]. }
  apply Hgen; [lra|done].
Qed.

Lemma wilder_avg_pos period xs k :
  (1 ≤ period)%Z → Forall (λ x, 0 < x)%Q xs →
  (Z.to_nat period + k ≤ length xs)%nat →
  (0 < wilder_avg period xs k)%Q.
Proof.
  intros Hp Hxs. pose proof (inject_Z_pos period Hp) as Hpos.
  induction k as [|k IH]; intros Hk; simpl.
  - apply Qlt_shift_div_l; [done|].
    assert (0 < py_sum (take (Z.to_nat period) xs))%Q; [|lra].
    apply py_sum_pos; [|by apply Forall_take].
    intros Hnil. apply (f_equal length) in Hnil.
    rewrite length_take in Hnil. simpl in Hnil. lia.
  - apply Qlt_shift_div_l; [done|].
    specialize (IH ltac:(lia)).
    destruct (lookup_lt_is_Some_2 xs (Z.to_nat period + k)) as [x Hx]; [lia|].
    rewrite (nth_lookup_Some _ _ _ _ Hx).
    rewrite Forall_forall in Hxs.
    pose proof (Hxs x (list_elem_of_lookup_2 _ _ _ Hx)) as Hxpos.
    pose proof (inject_Z_nonneg (period - 1) ltac:(lia)). nra.
Qed.

Lemma gains_zero changes :
  Forall (λ change, change < 0)%Q changes →
  Forall (λ x, x == 0)%Q (gains_of changes).
Proof.
  intros H. unfold gains_of. apply Forall_fmap.
  eapply Forall_impl; [exact H|]. intros c Hc.
  unfold compose, py_max. cbv beta in *.
  destruct (Qltb c 0) eqn:E; [reflexivity|].
  apply Qltb_ge in E. lra.
Qed.

Lemma losses_pos changes :
  Forall (λ change, change < 0)%Q changes →
  Forall (λ x, 0 < x)%Q (losses_of changes).
Proof.
  intros H. unfold losses_of. apply Forall_fmap.
  eapply Forall_impl; [exact H|]. intros c Hc.
  unfold compose, py_min. cbv beta in *.
  destruct (Qltb 0 c) eqn:E.
  - apply Qltb_lt in E. lra.
  - rewrite Qabs_neg by lra. lra.
Qed.

(** X5. With [period >= 1] and at least [period + 1] prices that fall at
    every step, [rsi] returns [len(prices) - period] readings, all equal
    to 0. *)
Theorem rsi_falling_prices_is_zero (prices : list Q) (period : Z) :
  (1 ≤ period)%Z → (period + 1 ≤ len prices)%Z →
  (∀ i a b, prices !! i = Some a → prices !! S i = Some b → (b < a)%Q) →
  ∃ values, rsi prices period = Ok values ∧
            len values = (len prices - period)%Z ∧
            Forall (λ v, v == 0)%Q values.
Proof.
  intros Hp Hlen Hfall.
  destruct (price_changes_total prices) as (changes & Hc & Hclen).
  assert (Forall (λ change, change < 0)%Q changes) as Hneg.
  { eapply for_collect_Forall; [exact Hc|].
    intros i d [Hlo Hhi]%elem_of_py_range.
    destruct (py_index_nonneg prices i) as (a & -> & Ha); [lia|].
    destruct (py_index_nonneg prices (i - 1)) as (b & -> & Hb); [lia|].
    rewrite !bind_Ok. intros [= <-].
    replace (Z.to_nat i) with (S (Z.to_nat (i - 1))) in Ha by lia.
    pose proof (Hfall _ _ _ Hb Ha). lra. }
  destruct (rsi_run_spec prices period changes Hp Hlen Hc)
    as (st & Hrun & _ & _ & Hn & Hvals).
  exists st.2. split.
  { unfold rsi. destruct (Z.ltb_spec (len prices) (period + 1)); [lia|].
    by rewrite Hrun. }
  split; [lia|]. apply Forall_lookup. intros k v Hk.
  pose proof (lookup_lt_Some _ _ _ Hk) as Hklt.
  specialize (Hvals k v Hk).
  pose proof (wilder_avg_zero period (gains_of changes) k Hp
                (gains_zero _ Hneg)) as Hg.
  assert (0 < wilder_avg period (losses_of changes) k)%Q as Hl.
  { apply wilder_avg_pos; [done|by apply losses_pos|].
    unfold losses_of. rewrite length_fmap. unfold len in *. lia. }
  revert Hvals. unfold rsi_value.
  destruct (Qeq_bool (wilder_avg period (losses_of changes) k) 0) eqn:E.
  { apply Qeq_bool_iff in E. lra. }
  rewrite py_div_nonzero by lra. rewrite bind_Ok.
  set (g := wilder_avg period (gains_of changes) k) in *.
  set (l := wilder_avg period (losses_of changes) k) in *.
  assert (g / l == 0)%Q as Hrs by (rewrite Hg; field; lra).
  rewrite py_div_nonzero by lra. rewrite bind_Ok. intros [= <-].
  rewrite Hrs. reflexivity.
Qed.

(** ** Volume analysis *)

Lemma py_slice_from_neg {A} (l : list A) k :
  (0 < k)%Z →
  py_slice_from l (- k) = drop (Z.to_nat (Z.max (len l - k) 0)) l.
Proof.
  intros Hk. unfold py_slice_from, py_slice, slice_bound, len.
  destruct (Z.ltb_spec (- k) 0); [|lia].
  destruct (Z.ltb_spec (Z.of_nat (length l)) 0); [lia|].
  rewrite Z.min_id. replace (- k + Z.of_nat (length l))%Z
    with (Z.of_nat (length l) - k)%Z by lia.
  apply take_ge. rewrite length_drop. lia.
Qed.

(** X6. [volume_analysis] with [period >= 1] never raises.  With fewer than
    [period] volumes it reports average 0, ratio 1, not abnormal, and no
    current volume.  Otherwise the current volume is the last one, and the
    reading is abnormal exactly when the sum [S] of the last [period] volumes
    is positive and the last volume exceeds 1.5 times their mean
    ([1.5 * S < period * last]); in particular a flat positive series is
    never abnormal. *)
Theorem volume_analysis_abnormal_iff (volumes : list Q) (period : Z) :
  (1 ≤ period)%Z →
  (∃ r, volume_analysis volumes period = Ok r) ∧
  ((len volumes < period)%Z →
   volume_analysis volumes period = Ok (mkVolume 0%Q None 1%Q false)) ∧
  ((period ≤ len volumes)%Z →
   ∃ r cur,
     volume_analysis volumes period = Ok r ∧
     last volumes = Some cur ∧ current_volume r = Some cur ∧
     (is_abnormal r = true ↔
      (0 < py_sum (py_slice_from volumes (- period)))%Q ∧
      ((15 # 10) * py_sum (py_slice_from volumes (- period))
       < inject_Z period * cur)%Q) ∧
     (∀ v, (0 < v)%Q → Forall (λ x, x = v) volumes →
           cur = v ∧ is_abnormal r = false)).
Proof.
  only_needed.
  intros Hp. unfold volume_analysis.
  destruct (Z.ltb_spec (len volumes) period) as [Hlt|Hge].
  { split; [by eexists|]. split; [done|]. intros; lia. }
  rewrite py_div_inject_Z by lia. rewrite bind_Ok.
  set (total := py_sum (py_slice_from volumes (- period))).
  pose proof (inject_Z_pos period Hp) as Hpos.
  assert (¬ (inject_Z period == 0)%Q) as Hne0 by lra.
  pose proof (Qmult_div_r total (inject_Z period) Hne0) as Havg.
  set (avg := (total / inject_Z period)%Q) in *.
  assert (volumes ≠ []) as Hne.
  { intros ->. unfold len in Hge. simpl in Hge. lia. }
  destruct (exists_last Hne) as (front & x & Hvol).
  assert ((match volumes with
           | [] => Ok 0%Q
           | _ => py_index volumes (-1)
           end) = Ok x) as ->.
  { rewrite Hvol, py_index_last. by destruct front. }
  rewrite bind_Ok.
  assert (last volumes = Some x) as Hlast by (rewrite Hvol; apply last_snoc).
  assert (∃ ratio,
    (if Qltb 0 avg then py_div x avg else Ok 1%Q) = Ok ratio ∧
    (Qltb (15 # 10) ratio = true ↔
     (0 < total)%Q ∧ ((15 # 10) * total < inject_Z period * x)%Q))
    as (ratio & Hratio & Hiff).
  { destruct (Qltb 0 avg) eqn:E.
    - apply Qltb_lt in E. rewrite py_div_nonzero by lra.
      eexists. split; [done|]. rewrite Qltb_lt.
      pose proof (Qmult_div_r x avg ltac:(lra)) as Hq.
      set (q := (x / avg)%Q) in *. clearbody q avg total.
      assert (inject_Z period * x == total * q)%Q as Hx.
      { rewrite <- Hq, <- Havg. ring. }
      generalize dependent (inject_Z period). intros P HP _ HPa HPx.
      assert (0 < total)%Q as Ht by nra.
      split.
      + intros Hr. split; [done|]. rewrite HPx. nra.
      + intros [_ Hr]. rewrite HPx in Hr. nra.
    - apply Qltb_ge in E. exists 1%Q. split; [done|]. split.
      + intros Hr. apply Qltb_lt in Hr. lra.
      + intros [Ht _]. exfalso. clearbody avg total.
        generalize dependent (inject_Z period). intros P HP _ HPa. nra. }
  rewrite Hratio, bind_Ok.
  split; [by eexists|]. split; [intros; lia|]. intros _.
  eexists _, x. split; [done|].
  cbn [avg_volume current_volume volume_ratio is_abnormal].
  split; [done|]. split; [done|]. split; [exact Hiff|].
  intros v Hv Hflat.
  assert (x = v) as ->.
  { rewrite Forall_forall in Hflat. apply Hflat. rewrite Hvol.
    apply elem_of_app. right. by left. }
  split; [done|]. apply not_true_is_false. intros Habn.
  apply Hiff in Habn as [_ Habn].
  assert (total == inject_Z period * v)%Q as Htot.
  { unfold total. rewrite py_slice_from_neg by lia.
    set (window := drop _ _).
    assert (len window = period) as Hwl.
    { unfold window, len in *. rewrite length_drop. lia. }
    assert (Forall (λ y, v <= y <= v)%Q window) as Hw.
    { apply Forall_drop. eapply Forall_impl; [exact Hflat|].
      intros y ->. split; apply Qle_refl. }
    pose proof (py_sum_bounds v v window Hw) as [H1 H2].
    rewrite Hwl in H1, H2. by apply Qle_antisym. }
  rewrite Htot in Habn.
  assert (0 < inject_Z period * v)%Q as Hpv
    by (apply Qmult_lt_0_compat; lra).
  revert Habn Hpv. generalize (inject_Z period * v)%Q. intros z Hz Hz'. lra.
Qed.

(** ** Support and resistance on flat and monotone series *)

Lemma level_loop_flat beats (c : Q) (n : nat) window :
  (0 ≤ window)%Z → beats c c = false →
  for_loop (level_loop beats (replicate n c) window)
           (py_range window (len (replicate n c) - window)) []
  = Ok (replicate (Z.to_nat (Z.of_nat n - 2 * window)) c).
Proof.
  intros Hw Hbeat.
  assert (len (replicate n c) = Z.of_nat n) as Hlen.
  { unfold len. by rewrite length_replicate. }
  destruct (for_loop_invariant
    (λ k levels, levels = replicate k c)
    (level_loop beats (replicate n c) window)
    (py_range window (len (replicate n c) - window)) [])
    as (levels & Hrun & Hlev).
  - done.
  - intros k levels i [-> Hi]%lookup_py_range ->. unfold level_loop.
    destruct (py_index_nonneg (replicate n c) (window + Z.of_nat k))
      as (cur & -> & Hcur); [lia|]. rewrite bind_Ok.
    apply lookup_replicate in Hcur as [-> _].
    destruct (window_scan_spec beats (replicate n c) c
                (window + Z.of_nat k)
                (py_range (window + Z.of_nat k - window)
                          (window + Z.of_nat k + window + 1)))
      as (b & -> & Hb).
    { intros j Hj%elem_of_py_range. lia. }
    rewrite bind_Ok. assert (b = true) as ->.
    { apply Hb. intros j vj _ _ Hvj.
      by apply lookup_replicate in Hvj as [-> _]. }
    eexists; split; [done|].
    change [c] with (replicate 1 c). rewrite <- replicate_add.
    f_equal. lia.
  - rewrite Hrun, Hlev, length_py_range, Hlen. do 2 f_equal. lia.
Qed.

(** X7. On a series of [n >= 2 * window + 1] equal bars every bar from
    [window] to [n - window - 1] is listed both as a support and as a
    resistance: the result holds [n - 2 * window] copies of the price in
    each list. *)
Theorem support_resistance_flat_series (c : Q) (n : nat) (window : Z) :
  (0 ≤ window)%Z → (2 * window + 1 ≤ Z.of_nat n)%Z →
  support_resistance_levels (replicate n c) (replicate n c)
                            (replicate n c) window
  = Ok (mkLevels (replicate (Z.to_nat (Z.of_nat n - 2 * window)) c)
                 (replicate (Z.to_nat (Z.of_nat n - 2 * window)) c)).
Proof.
  intros Hw Hn. unfold support_resistance_levels.
  assert (len (replicate n c) = Z.of_nat n) as Hlen.
  { unfold len. by rewrite length_replicate. }
  destruct (Z.ltb_spec (len (replicate n c)) (window * 2 + 1)); [lia|].
  assert (Qltb c c = false) as Hcc by (apply Qltb_ge, Qle_refl).
  rewrite (level_loop_flat lower_than c n window Hw Hcc), bind_Ok.
  by rewrite (level_loop_flat higher_than c n window Hw Hcc), bind_Ok.
Qed.

(** No bar is listed when every bar of the searched range is beaten by
    some other bar of its window. *)
Lemma level_loop_none beats values window :
  (0 ≤ window)%Z →
  (∀ i, (window ≤ i < len values - window)%Z →
        ∃ j vi vj, (i - window ≤ j ≤ i + window)%Z ∧ j ≠ i ∧
                   values !! Z.to_nat i = Some vi ∧
                   values !! Z.to_nat j = Some vj ∧
                   beats vj vi = true) →
  for_loop (level_loop beats values window)
           (py_range window (len values - window)) [] = Ok [].
Proof.
  intros Hw Hbeaten.
  destruct (level_loop_spec beats values window Hw)
    as (levels & -> & listed & -> & _ & Hmem).
  destruct listed as [|i listed]; [done|]. exfalso.
  destruct (proj1 (Hmem i)) as [Hi (v & Hv & Hall)]; [by left|].
  destruct (Hbeaten i Hi) as (j & vi & vj & Hj & Hne & Hvi & Hvj & Hb).
  rewrite Hv in Hvi. injection Hvi as <-.
  specialize (Hall j vj Hj Hne Hvj). cbv beta in Hall. congruence.
Qed.

Lemma neighbours_exist (values : list Q) window i :
  (1 ≤ window)%Z → (window ≤ i < len values - window)%Z →
  ∃ a b c, values !! Z.to_nat (i - 1) = Some a ∧
           values !! Z.to_nat i = Some b ∧
           values !! Z.to_nat (i + 1) = Some c ∧
           Z.to_nat i = S (Z.to_nat (i - 1)) ∧
           Z.to_nat (i + 1) = S (Z.to_nat i).
Proof.
  intros Hw Hi. unfold len in Hi.
  destruct (lookup_lt_is_Some_2 values (Z.to_nat (i - 1))) as [a Ha]; [lia|].
  destruct (lookup_lt_is_Some_2 values (Z.to_nat i)) as [b Hb]; [lia|].
  destruct (lookup_lt_is_Some_2 values (Z.to_nat (i + 1))) as [c Hc]; [lia|].
  exists a, b, c. repeat split; try done; lia.
Qed.

(** X8. With [window >= 1], a series whose lows rise at every step, or fall
    at every step, has no support level, and one whose highs rise or fall at
    every step has no resistance level: a strictly monotone series yields
    two empty lists. *)
Theorem support_resistance_monotone_series (prices highs lows : list Q)
    (window : Z) :
  (1 ≤ window)%Z → (2 * window + 1 ≤ len prices)%Z →
  rising lows ∨ falling lows →
  rising highs ∨ falling highs →
  support_resistance_levels prices highs lows window = Ok (mkLevels [] []).
Proof.
  intros Hw Hlen Hlows Hhighs. unfold support_resistance_levels.
  destruct (Z.ltb_spec (len prices) (window * 2 + 1)); [lia|].
  rewrite (level_loop_none lower_than lows window); [|lia|].
  2: { intros i Hi.
       destruct (neighbours_exist lows window i Hw Hi)
         as (a & b & c & Ha & Hb & Hc & Hab & Hbc).
       destruct Hlows as [Hr|Hf].
       - exists (i - 1)%Z, b, a. split; [lia|]. split; [lia|].
         split; [done|]. split; [done|]. apply Qltb_lt.
         apply (Hr (Z.to_nat (i - 1))); [done|]. by rewrite <- Hab.
       - exists (i + 1)%Z, b, c. split; [lia|]. split; [lia|].
         split; [done|]. split; [done|]. apply Qltb_lt.
         apply (Hf (Z.to_nat i)); [done|]. by rewrite <- Hbc. }
  rewrite bind_Ok.
  rewrite (level_loop_none higher_than highs window); [done|lia|].
  intros i Hi.
  destruct (neighbours_exist highs window i Hw Hi)
    as (a & b & c & Ha & Hb & Hc & Hab & Hbc).
  destruct Hhighs as [Hr|Hf].
  - exists (i + 1)%Z, b, c. split; [lia|]. split; [lia|].
    split; [done|]. split; [done|]. apply Qltb_lt.
    apply (Hr (Z.to_nat i)); [done|]. by rewrite <- Hbc.
  - exists (i - 1)%Z, b, a. split; [lia|]. split; [lia|].
    split; [done|]. split; [done|]. apply Qltb_lt.
    apply (Hf (Z.to_nat (i - 1))); [done|]. by rewrite <- Hab.
Qed.

(** * Further properties of the strategy engine *)

(** ** The mock history *)

(** X9. [_generate_mock_historical_data] with [days >= 1] returns [days]
    prices ending with the current price.  Because every draw is applied to
    [prices[-1]], which stays the current price, the price [k] steps before
    the end is [max(current * (1 + draw_(k-1)), current / 2)]: the draws do
    not accumulate.  For a non-negative current price no mock price is below
    half of it. *)
Theorem mock_history_shape (current_price : Q) (days : Z) :
  (1 ≤ days)%Z →
  ∃ prices,
    _generate_mock_historical_data current_price days = Ok prices ∧
    len prices = days ∧
    last prices = Some current_price ∧
    (∀ k, (k < Z.to_nat days - 1)%nat →
          prices !! (Z.to_nat days - 2 - k)%nat
          = Some (py_max (current_price * (1 + np_normal k))
                         (current_price * (5 # 10)))%Q) ∧
    ((0 <= current_price)%Q →
     Forall (λ p, current_price * (5 # 10) <= p)%Q prices).
Proof.
  intros Hd. unfold _generate_mock_historical_data.
  set (mock := λ k : nat,
         py_max (current_price * (1 + np_normal k))
                (current_price * (5 # 10))%Q).
  match goal with
  | |- context [for_loop ?body ?r ?s0] =>
      destruct (for_loop_invariant
        (λ k (prices : list Q),
           ∃ front, prices = front ++ [current_price] ∧ length front = k ∧
                    ∀ j, (j < k)%nat → front !! (k - 1 - j)%nat = Some (mock j))
        body r s0) as (prices & Hrun & front & -> & Hlen & Hfront)
  end.
  - exists []. split; [done|]. split; [done|]. intros j Hj. lia.
  - intros k prices i [-> Hi]%lookup_py_range (front & -> & Hlen & Hfront).
    rewrite py_index_last, bind_Ok. eexists; split; [done|].
    exists (mock k :: front). split.
    { unfold mock. by rewrite Z.add_0_l, Nat2Z.id. }
    split; [simpl; lia|]. intros j Hj.
    destruct (decide (j = k)) as [->|Hne].
    + by replace (S k - 1 - k)%nat with 0%nat by lia.
    + replace (S k - 1 - j)%nat with (S (k - 1 - j)) by lia.
      simpl. apply Hfront. lia.
  - rewrite length_py_range in Hlen, Hfront.
    exists (front ++ [current_price]). split; [done|].
    split; [unfold len; rewrite length_app; simpl; lia|].
    split; [by rewrite last_snoc|]. split.
    + intros k Hk. rewrite lookup_app_l by lia.
      replace (Z.to_nat days - 2 - k)%nat
        with (Z.to_nat (days - 1 - 0) - 1 - k)%nat by lia.
      apply Hfront. lia.
    + intros Hpos. apply Forall_app. split.
      * apply Forall_lookup. intros i p Hi.
        pose proof (lookup_lt_Some _ _ _ Hi) as Hilt.
        specialize (Hfront (Z.to_nat (days - 1 - 0) - 1 - i)%nat
                      ltac:(lia)).
        replace (Z.to_nat (days - 1 - 0) - 1
                 - (Z.to_nat (days - 1 - 0) - 1 - i))%nat with i
          in Hfront by lia.
        rewrite Hi in Hfront. injection Hfront as ->.
        unfold mock, py_max. case_match eqn:E; [lra|].
        by apply Qltb_ge in E.
      * constructor; [lra|constructor].
Qed.

(** ** Risk assessment *)

Lemma mock_history_length current_price days :
  (1 ≤ days)%Z →
  ∃ prices, _generate_mock_historical_data current_price days = Ok prices ∧
            len prices = days.
Proof.
  intros Hd. unfold _generate_mock_historical_data.
  match goal with
  | |- context [for_loop ?body ?r ?s0] =>
      destruct (for_loop_invariant
        (λ k (prices : list Q), length prices = S k) body r s0)
        as (prices & Hrun & Hlen)
  end.
  - done.
  - intros k prices i _ Hk.
    destruct (exists_last (l:=prices)) as (front & x & ->).
    { intros ->. discriminate. }
    rewrite py_index_last, bind_Ok. eexists; split; [done|]. simpl. lia.
  - exists prices. split; [done|]. rewrite length_py_range in Hlen.
    unfold len. lia.
Qed.

Lemma decidable_by_compute (P : Prop) `{Decision P} :
  bool_decide P = true → P.
Proof. apply bool_decide_eq_true_1. Qed.

(** X10. [_assess_risk] draws a 20-bar mock history and asks
    [calculate_volatility] for a 20-period volatility, which needs 21 bars
    and therefore answers 0.  With a non-negative volatility threshold the
    assessment never carries a volatility label, its score is at most 3, and
    its level is never [high]. *)
Theorem assess_risk_never_high (price_data : gmap string (list Q))
    (ta : TechnicalAnalysis) :
  (0 <= volatility_threshold RISK_PARAMS)%Q →
  risk_level (_assess_risk price_data ta) ≠ "high" ∧
  ("高波动率" ∉ risk_factors (_assess_risk price_data ta)) ∧
  ("中等波动率" ∉ risk_factors (_assess_risk price_data ta)) ∧
  (risk_volatility (_assess_risk price_data ta) = None ∨
   risk_volatility (_assess_risk price_data ta) = Some 0%Q) ∧
  (∀ score, risk_score (_assess_risk price_data ta) = Some score →
            (0 ≤ score ≤ 3)%Z).
Proof.
  intros Hthr. unfold _assess_risk.
  destruct (truthy (default [] (price_data !! "close"))); cbn [negb catch].
  2: { repeat split; try done; try (left; done); try set_solver. }
  match goal with
  | |- context [catch (?x ≫= _)] => set (volstep := x)
  end.
  assert ((∃ vol, volstep = Ok vol ∧ (vol = None ∨ vol = Some 0%Q)) ∨
          (∃ e, volstep = Raise e)) as Hvol.
  { unfold volstep.
    destruct (1 <? len _)%Z; [|left; eexists; split; [done|by left]].
    destruct (py_index _ (-1)) as [c|e]; [|right; by eexists].
    rewrite bind_Ok.
    destruct (mock_history_length c 20 ltac:(lia)) as (h & -> & Hh).
    rewrite bind_Ok. unfold calculate_volatility. rewrite Hh. simpl.
    left. eexists; split; [done|by right]. }
  clearbody volstep.
  destruct Hvol as [(vol & -> & Hvol)|[e ->]].
  2: { cbn [catch risk_level risk_factors risk_volatility risk_score].
       split; [done|]. split; [set_solver|]. split; [set_solver|].
       split; [by right|]. intros ? [= <-]. lia. }
  rewrite bind_Ok. cbn [catch risk_level risk_factors risk_volatility
                        risk_score].
  assert ((match vol with
           | Some volatility => volatility_risk volatility
           | None => ([], 0%Z)
           end) = ([], 0%Z)) as ->.
  { destruct Hvol as [-> | ->]; [done|]. unfold volatility_risk.
    assert (Qltb (volatility_threshold RISK_PARAMS) 0 = false) as ->
      by (apply Qltb_ge; lra).
    assert (Qltb (volatility_threshold RISK_PARAMS * (5 # 10)) 0 = false)
      as -> by (apply Qltb_ge; lra).
    done. }
  cbn [fst snd app].
  assert (rsi_risk (indicators ta) = ([], 0%Z) ∨
          rsi_risk (indicators ta) = (["RSI极值"], 1%Z)) as H2.
  { unfold rsi_risk. repeat case_match; auto. }
  assert (bollinger_risk (indicators ta) = ([], 0%Z) ∨
          bollinger_risk (indicators ta) = (["价格偏离均值"], 1%Z)) as H3.
  { unfold bollinger_risk. repeat case_match; auto. }
  assert (volume_risk (indicators ta) = ([], 0%Z) ∨
          volume_risk (indicators ta) = (["成交量萎缩"], 1%Z)) as H4.
  { unfold volume_risk. repeat case_match; auto. }
  split.
  { destruct H2 as [-> | ->], H3 as [-> | ->], H4 as [-> | ->]; done. }
  split.
  { destruct H2 as [-> | ->], H3 as [-> | ->], H4 as [-> | ->];
      apply (decidable_by_compute _); by vm_compute. }
  split.
  { destruct H2 as [-> | ->], H3 as [-> | ->], H4 as [-> | ->];
      apply (decidable_by_compute _); by vm_compute. }
  split.
  { destruct Hvol as [-> | ->]; by right. }
  intros score [= <-].
  destruct H2 as [-> | ->], H3 as [-> | ->], H4 as [-> | ->]; simpl; lia.
Qed.

(** ** What [analyze_asset] can return *)

Lemma predict_single_bar (price_data : gmap string (list Q)) c :
  price_data !! "close" = Some [c] → predict price_data = None.
Proof.
  intros H. unfold predict. rewrite H. by destruct is_trained.
Qed.

Lemma assess_risk_single_bar (price_data : gmap string (list Q)) c :
  price_data !! "close" = Some [c] →
  _assess_risk price_data empty_analysis
  = mkRisk "low" (Some 0%Z) [] (Some 0%Q).
Proof. intros H. unfold _assess_risk. by rewrite H. Qed.

(** X11. [analyze_asset] extracts one bar per series, so the technical
    analysis is empty and [predict], which needs 30 closes, gives nothing
    even when a model is trained.  Every record it returns is therefore
    neutral: no prediction, no elementary signal, signal [hold] with strength
    0 and low confidence.  For a record whose price was extracted, the
    composite has score 0, the risk is [low] with score 0, and the rationale
    is [暂无明确信号]. *)
Theorem analyze_asset_always_hold (asset_data : gmap string pyval)
    (r : Recommendation) :
  analyze_asset asset_data = Ok r →
  signal_type (signal r) = HOLD ∧
  strength (signal r) = 0%Z ∧
  confidence (signal r) = "low" ∧
  technical_analysis r = empty_analysis ∧
  ml_prediction r = None ∧
  (∀ price_data,
     _extract_price_data asset_data = Some price_data →
     signal r = mkComposite HOLD 0 "low" (Some 0%Z) (Some 0%Z)
                            (Some 0%Z) (Some 0%Z) ∧
     risk_assessment r = mkRisk "low" (Some 0%Z) [] (Some 0%Q) ∧
     recommendation_reason r = "暂无明确信号" ∧
     price_data !! "close" = Some [current_price r]).
Proof.
  destruct (_extract_price_data asset_data) as [price_data|] eqn:H.
  - rewrite (analyze_asset_accepted _ _ H).
    destruct (extract_price_data_shape _ _ H) as [[c Hc] _].
    unfold _create_empty_result.
    destruct (_extract_asset_info asset_data) as [info|e];
      rewrite ?bind_Ok, ?bind_Raise; [|done].
    rewrite (last_close_or_zero_spec _ _ Hc), bind_Ok. cbv zeta.
    rewrite (technical_analysis_single_bar _ _ Hc).
    rewrite (predict_single_bar _ _ Hc).
    rewrite (assess_risk_single_bar _ _ Hc).
    assert ((if is_trained then None else None) = @None MLPrediction) as ->
      by by destruct is_trained.
    intros [= <-]. cbn [signal technical_analysis ml_prediction
                        risk_assessment recommendation_reason current_price].
    do 5 (split; [done|]). intros pd [= <-]. done.
  - unfold analyze_asset. rewrite H. unfold _create_empty_result.
    destruct (_extract_asset_info asset_data) as [info|e];
      rewrite ?bind_Ok, ?bind_Raise; [|done].
    intros [= <-]. do 5 (split; [done|]). intros pd. discriminate.
Qed.

(** X12. The only exception that leaves [analyze_asset] is the
    [AttributeError] of [.upper()] on a [symbol] entry that is not a [str]:
    the call raises exactly when the record has such an entry. *)
Theorem analyze_asset_raises_iff (asset_data : gmap string pyval) (e : exn) :
  analyze_asset asset_data = Raise e ↔
  e = AttributeError ∧
  ∃ v, asset_data !! "symbol" = Some v ∧ ∀ s, v ≠ VStr s.
Proof.
  assert (_extract_asset_info asset_data = Raise e ↔
          e = AttributeError ∧
          ∃ v, asset_data !! "symbol" = Some v ∧ ∀ s, v ≠ VStr s) as Hinfo.
  { unfold _extract_asset_info, py_in, py_get.
    destruct (asset_data !! "symbol") as [v|] eqn:Hs.
    - rewrite bool_decide_eq_true_2 by by eexists.
      destruct v as [ | b | z | q | s | ]; cbn [py_upper];
        rewrite ?bind_Ok, ?bind_Raise.
      5: { split; [discriminate|].
           intros [_ (v & [= <-] & Hv)]. by destruct (Hv s). }
      all: split;
        [ intros [= <-]; split; [done|]; eexists; split; [done|];
          intros s; discriminate
        | by intros [-> _] ].
    - rewrite bool_decide_eq_false_2 by by intros [? ?].
      split; [by repeat case_match|]. by intros [_ (v & ? & _)]. }
  rewrite <- Hinfo. clear Hinfo.
  destruct (_extract_price_data asset_data) as [price_data|] eqn:H.
  - rewrite (analyze_asset_accepted _ _ H).
    destruct (extract_price_data_shape _ _ H) as [[c Hc] _].
    unfold _create_empty_result.
    destruct (_extract_asset_info asset_data) as [info|e'];
      rewrite ?bind_Ok, ?bind_Raise;
      [|simpl; split; by intros [= ->]].
    rewrite (last_close_or_zero_spec _ _ Hc), bind_Ok.
    unfold try_except. split; discriminate.
  - unfold analyze_asset. rewrite H. unfold _create_empty_result.
    destruct (_extract_asset_info asset_data) as [info|e'];
      rewrite ?bind_Ok, ?bind_Raise;
      [|simpl; split; by intros [= ->]].
    unfold try_except. split; discriminate.
Qed.

(** ** Composite signal: confidence and the ML weight *)

(** X13. In every composite signal the confidence agrees with the type: a
    [hold] signal has low confidence, and high confidence occurs only with
    [strong_buy] or [strong_sell] and at least three elementary signals. *)
Theorem confidence_agrees_with_type (ta : TechnicalAnalysis)
    (ml : option MLPrediction) :
  (signal_type (_generate_signal ta ml) = HOLD →
   confidence (_generate_signal ta ml) = "low") ∧
  (confidence (_generate_signal ta ml) = "high" →
   (signal_type (_generate_signal ta ml) = STRONG_BUY ∨
    signal_type (_generate_signal ta ml) = STRONG_SELL) ∧
   (3 ≤ length (signals ta))%nat) ∧
  (confidence (_generate_signal ta ml) = "medium" →
   signal_type (_generate_signal ta ml) ≠ HOLD ∧
   (2 ≤ length (signals ta))%nat).
Proof.
  unfold _generate_signal, _calculate_confidence.
  cbn [signal_type confidence].
  set (score := (_ - _ + _)%Z). unfold len.
  destruct (Z.leb_spec 4 score); destruct (Z.leb_spec 2 score);
    destruct (Z.leb_spec score (-4)); destruct (Z.leb_spec score (-2));
    try lia;
    destruct (Z.leb_spec 4 (Z.abs score));
    destruct (Z.leb_spec 2 (Z.abs score)); try lia;
    destruct (Z.leb_spec 3 (Z.of_nat (length (signals ta))));
    destruct (Z.leb_spec 2 (Z.of_nat (length (signals ta)))); try lia;
    cbn [andb]; repeat split; try done; try lia; auto.
Qed.

(** X14. Any ML prediction moves the score: the weight is 2 above 0.6, 1
    above 0.4 up to 0.6 (0.5 included), and -1 otherwise, never 0.  With no
    elementary signal the composite is [buy] exactly when the probability
    exceeds 0.6 and [hold] otherwise: a prediction alone never yields a sell
    signal. *)
Theorem ml_prediction_alone (m : MLPrediction) :
  ml_weight_of (Some m) ≠ 0%Z ∧
  (ml_weight_of (Some m) = 2%Z ↔ (6 # 10 < probability m)%Q) ∧
  (ml_weight_of (Some m) = 1%Z ↔
   (4 # 10 < probability m)%Q ∧ (probability m <= 6 # 10)%Q) ∧
  (ml_weight_of (Some m) = (-1)%Z ↔ (probability m <= 4 # 10)%Q) ∧
  (signal_type (_generate_signal empty_analysis (Some m)) = BUY ↔
   (6 # 10 < probability m)%Q) ∧
  (signal_type (_generate_signal empty_analysis (Some m)) = HOLD ↔
   (probability m <= 6 # 10)%Q).
Proof.
  unfold _generate_signal. cbn [signal_type signals empty_analysis].
  unfold ml_weight_of. simpl filter. cbn.
  destruct (Qltb (6 # 10) (probability m)) eqn:E6;
    destruct (Qltb (4 # 10) (probability m)) eqn:E4;
    try apply Qltb_lt in E6; try apply Qltb_ge in E6;
    try apply Qltb_lt in E4; try apply Qltb_ge in E4;
    cbn; repeat split; try done; try lra; try (intros; lra);
    try (intros [? ?]; lra).
Qed.

(** ** Entry and exit levels *)

Lemma Qltb_comp a a' b b' :
  (a == a')%Q → (b == b')%Q → Qltb a b = Qltb a' b'.
Proof. intros Ha Hb. unfold Qltb. by rewrite Ha, Hb. Qed.

(** [round] depends on the number, not on the fraction that writes it. *)
Lemma py_round_comp x y ndigits :
  (x == y)%Q → py_round x ndigits = py_round y ndigits.
Proof.
  intros H. unfold py_round. cbv zeta.
  set (scale := inject_Z (10 ^ ndigits)).
  assert (x * scale == y * scale)%Q as Hs by (by rewrite H).
  rewrite (Qfloor_comp _ _ Hs).
  set (f := Qfloor (y * scale)).
  rewrite (Qltb_comp (x * scale - inject_Z f) (y * scale - inject_Z f)
             (1 # 2) (1 # 2)) by (by rewrite ?Hs).
  by rewrite (Qltb_comp (1 # 2) (1 # 2) (x * scale - inject_Z f)
                (y * scale - inject_Z f)) by (by rewrite ?Hs).
Qed.

(** [round] is monotone. *)
Lemma py_round_mono x y ndigits :
  (0 ≤ ndigits)%Z → (x <= y)%Q →
  (py_round x ndigits <= py_round y ndigits)%Q.
Proof.
  intros Hn Hxy. unfold py_round. cbv zeta.
  set (scale := inject_Z (10 ^ ndigits)).
  assert (0 < scale)%Q as Hscale.
  { apply inject_Z_pos. pose proof (Z.pow_pos_nonneg 10 ndigits). lia. }
  set (X := (x * scale)%Q). set (Y := (y * scale)%Q).
  assert (X <= Y)%Q as HXY by (unfold X, Y; nra).
  pose proof (Qfloor_resp_le X Y HXY) as Hf.
  pose proof (Qfloor_le X) as HX1. pose proof (Qlt_floor X) as HX2.
  pose proof (Qfloor_le Y) as HY1. pose proof (Qlt_floor Y) as HY2.
  rewrite inject_Z_plus in HX2, HY2. change (inject_Z 1) with 1%Q in *.
  apply Qmult_le_compat_r; [|apply Qlt_le_weak, Qinv_lt_0_compat; done].
  rewrite <- Zle_Qle.
  destruct (decide (Qfloor X = Qfloor Y)) as [Heq|Hne].
  - rewrite Heq in *. set (f := Qfloor Y) in *.
    destruct (Qltb (X - inject_Z f) (1 # 2)) eqn:E1;
      destruct (Qltb (1 # 2) (X - inject_Z f)) eqn:E2;
      destruct (Qltb (Y - inject_Z f) (1 # 2)) eqn:E3;
      destruct (Qltb (1 # 2) (Y - inject_Z f)) eqn:E4;
      try apply Qltb_lt in E1; try apply Qltb_ge in E1;
      try apply Qltb_lt in E2; try apply Qltb_ge in E2;
      try apply Qltb_lt in E3; try apply Qltb_ge in E3;
      try apply Qltb_lt in E4; try apply Qltb_ge in E4;
      try lra; destruct (Z.even f); lia.
  - assert (Qfloor X + 1 ≤ Qfloor Y)%Z by lia.
    repeat case_match; lia.
Qed.

Lemma Qabs_pos_nonzero p : ¬ (p == 0)%Q → (0 < Qabs p)%Q.
Proof.
  intros Hp. destruct (Qlt_le_dec 0 p) as [H|H].
  - by rewrite Qabs_pos by lra.
  - rewrite Qabs_neg by done. destruct (Qeq_dec p 0); [done|lra].
Qed.

(** The dict returned for a non-zero last close. *)
Lemma entry_exit_points_nonzero (price_data : gmap string (list Q))
    (sg : CompositeSignal) closes p :
  price_data !! "close" = Some closes → last closes = Some p →
  ¬ (p == 0)%Q →
  _calculate_entry_exit_points price_data sg
  = <["entry_price" :=
        py_round (entry_exit_levels (signal_type sg) p).1.1 4]>
    (<["stop_loss" :=
         py_round (entry_exit_levels (signal_type sg) p).1.2 4]>
    (<["take_profit" :=
         py_round (entry_exit_levels (signal_type sg) p).2 4]>
    (<["risk_reward_ratio" :=
         if Qltb 0 (Qabs ((entry_exit_levels (signal_type sg) p).1.1
                          - (entry_exit_levels (signal_type sg) p).1.2))
         then py_round
                (Qabs ((entry_exit_levels (signal_type sg) p).2
                       - (entry_exit_levels (signal_type sg) p).1.1)
                 / Qabs ((entry_exit_levels (signal_type sg) p).1.1
                         - (entry_exit_levels (signal_type sg) p).1.2)) 2
         else 0%Q]> ∅))).
Proof.
  intros Hclose Hp Hp0. unfold _calculate_entry_exit_points.
  rewrite (last_close_or_zero_spec _ _ Hclose), bind_Ok, Hp. simpl default.
  destruct (Qeq_bool p 0) eqn:E; [by apply Qeq_bool_iff in E|].
  destruct (entry_exit_levels (signal_type sg) p) as [[e st] t].
  cbn [fst snd]. cbv beta iota zeta.
  destruct (Qltb 0 (Qabs (e - st))) eqn:Hlt; [|by rewrite bind_Ok].
  apply Qltb_lt in Hlt.
  rewrite py_div_nonzero
    by (intros H0; rewrite H0 in Hlt; by apply Qlt_irrefl in Hlt).
  by rewrite !bind_Ok.
Qed.

(** X15. With the configured 5% stop-loss and 15% take-profit the
    risk/reward ratio does not depend on the price: for every non-zero last
    close it is 3.44 for a buy or sell signal of either strength and 3 for
    any other signal type. *)
Theorem risk_reward_ratio_fixed (price_data : gmap string (list Q))
    (sg : CompositeSignal) (closes : list Q) (p : Q) :
  (stop_loss_pct RISK_PARAMS == 5 # 100)%Q →
  (take_profit_pct RISK_PARAMS == 15 # 100)%Q →
  price_data !! "close" = Some closes → last closes = Some p →
  ¬ (p == 0)%Q →
  _calculate_entry_exit_points price_data sg !! "risk_reward_ratio"
  = Some (if bool_decide (signal_type sg ∈
                            ["buy"; "strong_buy"; "sell"; "strong_sell"])
          then 344 # 100 else 300 # 100)%Q.
Proof.
  only_needed.
  intros Hsl Htp Hclose Hp Hp0.
  rewrite (entry_exit_points_nonzero _ _ _ _ Hclose Hp Hp0).
  pose proof (Qabs_pos_nonzero p Hp0) as Hpos.
  assert (∀ k, (0 < k)%Q → (Qabs (p * k) == Qabs p * k)%Q) as Habs.
  { intros k Hk. rewrite Qabs_Qmult. by rewrite (Qabs_pos k) by lra. }
  assert (∀ k, (0 < k)%Q → (Qabs (p * - k) == Qabs p * k)%Q) as Habsn.
  { intros k Hk. rewrite Qabs_Qmult.
    rewrite (Qabs_neg (- k)) by lra. by rewrite Qopp_involutive. }
  unfold entry_exit_levels.
  destruct (bool_decide (signal_type sg ∈ ["buy"; "strong_buy"])) eqn:Hbuy;
    [|destruct (bool_decide (signal_type sg ∈ ["sell"; "strong_sell"]))
        eqn:Hsell]; cbn [fst snd].
  - assert (bool_decide (signal_type sg ∈
              ["buy"; "strong_buy"; "sell"; "strong_sell"]) = true) as ->.
    { apply bool_decide_eq_true_1 in Hbuy. apply bool_decide_eq_true_2.
      rewrite !elem_of_cons in *. tauto. }
    set (d := Qabs _) at 1.
    assert (d == Qabs p * (45 # 1000))%Q as Hd.
    { unfold d. rewrite <- Habs by done. apply Qabs_wd.
      rewrite Hsl. ring. }
    assert (Qltb 0 d = true) as ->.
    { apply Qltb_lt. rewrite Hd. nra. }
    set (r := (_ / _)%Q).
    assert (r == 31 # 9)%Q as Hr.
    { unfold r. fold d. rewrite Hd.
      assert (Qabs (p * (1 + take_profit_pct RISK_PARAMS) - p * (995 # 1000))
              == Qabs p * (155 # 1000))%Q as ->.
      { rewrite <- Habs by done. apply Qabs_wd. rewrite Htp. ring. }
      field. lra. }
    rewrite (py_round_comp _ _ 2 Hr). by vm_compute.
  - assert (bool_decide (signal_type sg ∈
              ["buy"; "strong_buy"; "sell"; "strong_sell"]) = true) as ->.
    { apply bool_decide_eq_true_1 in Hsell. apply bool_decide_eq_true_2.
      rewrite !elem_of_cons in *. tauto. }
    set (d := Qabs _) at 1.
    assert (d == Qabs p * (45 # 1000))%Q as Hd.
    { unfold d. rewrite <- Habsn by done. apply Qabs_wd.
      rewrite Hsl. ring. }
    assert (Qltb 0 d = true) as ->.
    { apply Qltb_lt. rewrite Hd. nra. }
    set (r := (_ / _)%Q).
    assert (r == 31 # 9)%Q as Hr.
    { unfold r. fold d. rewrite Hd.
      assert (Qabs (p * (1 - take_profit_pct RISK_PARAMS) - p * (1005 # 1000))
              == Qabs p * (155 # 1000))%Q as ->.
      { rewrite <- Habsn by done. apply Qabs_wd. rewrite Htp. ring. }
      field. lra. }
    rewrite (py_round_comp _ _ 2 Hr). by vm_compute.
  - assert (bool_decide (signal_type sg ∈
              ["buy"; "strong_buy"; "sell"; "strong_sell"]) = false) as ->.
    { apply bool_decide_eq_false_1 in Hbuy, Hsell.
      apply bool_decide_eq_false_2. rewrite !elem_of_cons in *. tauto. }
    set (d := Qabs _) at 1.
    assert (d == Qabs p * (5 # 100))%Q as Hd.
    { unfold d. rewrite <- Habs by done. apply Qabs_wd.
      rewrite Hsl. ring. }
    assert (Qltb 0 d = true) as ->.
    { apply Qltb_lt. rewrite Hd. nra. }
    set (r := (_ / _)%Q).
    assert (r == 3)%Q as Hr.
    { unfold r. fold d. rewrite Hd.
      assert (Qabs (p * (1 + take_profit_pct RISK_PARAMS) - p)
              == Qabs p * (15 # 100))%Q as ->.
      { rewrite <- Habs by done. apply Qabs_wd. rewrite Htp. ring. }
      field. lra. }
    rewrite (py_round_comp _ _ 2 Hr). by vm_compute.
Qed.

(** X16. For a positive last close, a stop-loss of at least 0.5% and a
    non-negative take-profit, the rounded levels are ordered with the trade:
    stop-loss <= entry <= take-profit unless the signal is a sell of either
    strength, and take-profit <= entry <= stop-loss when it is. *)
Theorem entry_exit_levels_ordered (price_data : gmap string (list Q))
    (sg : CompositeSignal) (closes : list Q) (p : Q) :
  (5 # 1000 <= stop_loss_pct RISK_PARAMS)%Q →
  (0 <= take_profit_pct RISK_PARAMS)%Q →
  price_data !! "close" = Some closes → last closes = Some p →
  (0 < p)%Q →
  ∃ entry stop take,
    _calculate_entry_exit_points price_data sg !! "entry_price"
    = Some entry ∧
    _calculate_entry_exit_points price_data sg !! "stop_loss" = Some stop ∧
    _calculate_entry_exit_points price_data sg !! "take_profit"
    = Some take ∧
    (signal_type sg ∈ ["sell"; "strong_sell"] →
     (take <= entry)%Q ∧ (entry <= stop)%Q) ∧
    (signal_type sg ∉ ["sell"; "strong_sell"] →
     (stop <= entry)%Q ∧ (entry <= take)%Q).
Proof.
  intros Hsl Htp Hclose Hp Hpos.
  rewrite (entry_exit_points_nonzero _ _ _ _ Hclose Hp) by lra.
  eexists _, _, _. split; [reflexivity|]. split; [reflexivity|].
  split; [reflexivity|]. unfold entry_exit_levels.
  destruct (bool_decide (signal_type sg ∈ ["buy"; "strong_buy"])) eqn:Hbuy;
    [|destruct (bool_decide (signal_type sg ∈ ["sell"; "strong_sell"]))
        eqn:Hsell]; cbn [fst snd].
  - apply bool_decide_eq_true_1 in Hbuy. split.
    + intros Hs. exfalso. revert Hbuy Hs. generalize (signal_type sg).
      intros ty. rewrite !elem_of_cons, !elem_of_nil.
      intros [->|[->|[]]] [H|[H|[]]]; discriminate.
    + intros _. split; apply py_round_mono; try done; nra.
  - apply bool_decide_eq_true_1 in Hsell. split.
    + intros _. split; apply py_round_mono; try done; nra.
    + intros Hs. done.
  - apply bool_decide_eq_false_1 in Hsell. split.
    + intros Hs. done.
    + intros _. split; apply py_round_mono; try done; nra.
Qed.

(** ** What the technical analysis can vote *)

Lemma rsi_block_vote historical r :
  rsi_block historical = Ok r → medium_vote r.2.
Proof.
  unfold rsi_block, medium_vote.
  destruct (rsi historical 14) as [vals|e]; rewrite ?bind_Ok, ?bind_Raise;
    [|discriminate].
  destruct (truthy vals); [|intros [= <-]; by left].
  destruct (py_index vals (-1)) as [x|e]; rewrite ?bind_Ok, ?bind_Raise;
    [|discriminate].
  intros [= <-]. cbn [snd].
  repeat case_match; [right; left|right; right|left]; by eauto.
Qed.

Lemma macd_block_short historical :
  len historical = 30%Z → macd_block historical = Ok (None, []).
Proof.
  intros Hlen. unfold macd_block.
  destruct (macd_unfold historical 12 26 9)
    as (fe & se & ml & sl & Hfe & Hse & Hml & Hsl & ->); [lia..|].
  rewrite bind_Ok. cbn [macd_line signal_line histogram].
  destruct (ema_total historical 12) as (? & Hfe' & Hfl); [lia|].
  destruct (ema_total historical 26) as (? & Hse' & Hsel); [lia|].
  rewrite Hfe in Hfe'. injection Hfe' as <-.
  rewrite Hse in Hse'. injection Hse' as <-.
  assert (len ml < 9)%Z as Hshort.
  { subst ml. unfold len in *. rewrite length_zip_with, length_drop. lia. }
  unfold ema in Hsl. destruct (Z.ltb_spec (len ml) 9); [|lia].
  injection Hsl as <-. by destruct (truthy ml).
Qed.

Lemma bollinger_block_vote historical closes r :
  bollinger_block historical closes = Ok r → medium_vote r.2.
Proof.
  unfold bollinger_block, medium_vote.
  destruct (bollinger_bands historical 20 2) as [bb|e];
    rewrite ?bind_Ok, ?bind_Raise; [|discriminate].
  destruct (truthy (upper bb) && truthy (lower bb));
    [|intros [= <-]; by left].
  repeat match goal with
  | |- context [py_index ?l (-1)] =>
      destruct (py_index l (-1)) as [?|?]; rewrite ?bind_Ok, ?bind_Raise;
      [|discriminate]
  end.
  match goal with
  | |- context [(if ?c then py_div ?a ?b else Ok ?d) ≫= _] =>
      destruct (if c then py_div a b else Ok d) as [?|?];
      rewrite ?bind_Ok, ?bind_Raise; [|discriminate]
  end.
  intros [= <-]. cbn [snd].
  repeat case_match; [right; left|right; right|left]; by eauto.
Qed.

Lemma moving_average_block_vote historical closes r :
  moving_average_block historical closes = Ok r → medium_vote r.2.
Proof.
  unfold moving_average_block, medium_vote.
  destruct (sma historical 5) as [s5|e]; rewrite ?bind_Ok, ?bind_Raise;
    [|discriminate].
  destruct (sma historical 20) as [s20|e]; rewrite ?bind_Ok, ?bind_Raise;
    [|discriminate].
  destruct (truthy s5 && truthy s20); [|intros [= <-]; by left].
  repeat match goal with
  | |- context [py_index ?l (-1)] =>
      destruct (py_index l (-1)) as [?|?]; rewrite ?bind_Ok, ?bind_Raise;
      [|discriminate]
  end.
  repeat match goal with
  | |- context [(if ?c then py_div ?a ?b else Ok ?d) ≫= _] =>
      destruct (if c then py_div a b else Ok d) as [?|?];
      rewrite ?bind_Ok, ?bind_Raise; [|discriminate]
  end.
  intros [= <-]. cbn [snd].
  repeat case_match; [right; left|right; right|left]; by eauto.
Qed.

Lemma volume_block_vote (price_data : gmap string (list Q)) r :
  volume_block price_data = Ok r →
  r.2 = [] ∨ ∃ reason, r.2 = [mkSignal "buy" reason "medium"].
Proof.
  unfold volume_block.
  destruct (truthy (default [] (price_data !! "volume")));
    [|intros [= <-]; by left].
  destruct (volume_analysis _ 10) as [va|e]; rewrite ?bind_Ok, ?bind_Raise;
    [|discriminate].
  intros [= <-]. cbn [snd]. case_match; [right|left]; by eauto.
Qed.

(** With a non-negative standard deviation the price cannot be at or below
    the lower band and above both moving averages at once. *)
Lemma bollinger_average_buy_exclusive historical closes bs ms r1 r2 :
  (∀ l, 0 <= np_std l)%Q →
  bollinger_block historical closes
  = Ok (bs, [mkSignal "buy" r1 "medium"]) →
  moving_average_block historical closes
  = Ok (ms, [mkSignal "buy" r2 "medium"]) →
  False.
Proof.
  intros Hstd. unfold bollinger_block, moving_average_block.
  destruct (Z.lt_ge_cases (len historical) 20) as [Hshort|Hlong].
  { unfold bollinger_bands.
    destruct (Z.ltb_spec (len historical) 20); [|lia].
    rewrite bind_Ok. cbn. discriminate. }
  destruct (bollinger_bands_spec historical 20 2 ltac:(lia) Hlong)
    as (b & -> & Hsma & Hml & Hul & Hll & Hrel).
  rewrite !bind_Ok, Hsma.
  destruct (truthy (upper b) && truthy (lower b)); [|discriminate].
  rewrite !py_index_last_elem.
  destruct (last closes) as [p|]; rewrite ?bind_Ok, ?bind_Raise;
    [|discriminate].
  destruct (last (upper b)) as [u|] eqn:Hu; rewrite ?bind_Ok, ?bind_Raise;
    [|discriminate].
  destruct (last (lower b)) as [l|] eqn:Hl; rewrite ?bind_Ok, ?bind_Raise;
    [|discriminate].
  destruct (last (middle b)) as [m|] eqn:Hm; rewrite ?bind_Ok, ?bind_Raise;
    [|discriminate].
  pose proof Hm as Hmlast.
  rewrite last_lookup in Hu, Hl, Hm. rewrite Hul in Hu. rewrite Hll in Hl.
  destruct (Hrel _ _ _ _ Hu Hm Hl) as (_ & Hlow).
  match goal with
  | |- context [(if ?c then py_div ?a ?b else Ok ?d) ≫= _] =>
      destruct (if c then py_div a b else Ok d) as [?|?];
      rewrite ?bind_Ok, ?bind_Raise; [|discriminate]
  end.
  destruct (Qle_bool p l) eqn:Hle; [|by repeat case_match].
  apply Qle_bool_iff in Hle. intros _.
  destruct (sma historical 5) as [s5|e]; rewrite ?bind_Ok, ?bind_Raise;
    [|discriminate].
  destruct (truthy s5 && truthy (middle b)); [|discriminate].
  rewrite (py_index_last_elem s5).
  destruct (last s5) as [avg5|]; rewrite ?bind_Ok, ?bind_Raise;
    [|discriminate].
  rewrite (py_index_last_elem (middle b)), Hmlast, !bind_Ok.
  repeat match goal with
  | |- context [(if ?c then py_div ?x ?y else Ok ?d) ≫= _] =>
      destruct (if c then py_div x y else Ok d) as [?|?];
      rewrite ?bind_Ok, ?bind_Raise; [|discriminate]
  end.
  destruct (Qltb m avg5) eqn:E1; destruct (Qltb avg5 p) eqn:E2; cbn [andb];
    try (by repeat case_match).
  apply Qltb_lt in E1, E2.
  pose proof (Hstd (py_slice historical
                      (Z.of_nat (Init.Nat.pred (length (middle b))))
                      (Z.of_nat (Init.Nat.pred (length (middle b))) + 20))).
  subst l. intros _. nra.
Qed.

(** The analysis is either empty or assembled from the four blocks that can
    run on the 30-bar mock history; the MACD block never contributes. *)
Lemma technical_analysis_blocks (price_data : gmap string (list Q)) :
  _technical_analysis price_data = empty_analysis ∨
  ∃ historical closes r b a v,
    rsi_block historical = Ok r ∧
    bollinger_block historical closes = Ok b ∧
    moving_average_block historical closes = Ok a ∧
    volume_block price_data = Ok v ∧
    _technical_analysis price_data
    = mkAnalysis (mkIndicators r.1 None b.1 a.1 v.1)
                 (r.2 ++ b.2 ++ a.2 ++ v.2).
Proof.
  unfold _technical_analysis. set (closes := default [] _).
  destruct (len closes <? 2)%Z; [by left|].
  destruct (py_index closes (-1)) as [c|e]; rewrite ?bind_Ok, ?bind_Raise;
    [|by left].
  destruct (mock_history_length c 30 ltac:(lia)) as (hist & -> & Hlen).
  rewrite bind_Ok, (macd_block_short hist Hlen).
  destruct (rsi_block hist) as [r|e] eqn:Hr; rewrite ?bind_Ok, ?bind_Raise;
    [|by left].
  destruct (bollinger_block hist closes) as [b|e] eqn:Hb;
    rewrite ?bind_Ok, ?bind_Raise; [|by left].
  destruct (moving_average_block hist closes) as [a|e] eqn:Ha;
    rewrite ?bind_Ok, ?bind_Raise; [|by left].
  destruct (volume_block price_data) as [v|e] eqn:Hv;
    rewrite ?bind_Ok, ?bind_Raise; [|by left].
  right. exists hist, closes, r, b, a, v. done.
Qed.

(** X17. [_technical_analysis] runs its indicators on a 30-bar mock history,
    on which the MACD line has 5 values and the 9-period signal line none:
    the snapshot never holds a MACD entry and the only strong rule never
    fires.  Every elementary signal is of medium strength, there are at most
    four, and without an ML prediction the composite is never [strong_sell];
    provided the standard deviation is non-negative it is never [strong_buy]
    either. *)
Theorem technical_analysis_votes (price_data : gmap string (list Q)) :
  ind_macd (indicators (_technical_analysis price_data)) = None ∧
  Forall (λ s, sig_strength s = "medium")
         (signals (_technical_analysis price_data)) ∧
  (length (signals (_technical_analysis price_data)) ≤ 4)%nat ∧
  signal_type (_generate_signal (_technical_analysis price_data) None)
  ≠ STRONG_SELL ∧
  ((∀ l, 0 <= np_std l)%Q →
   signal_type (_generate_signal (_technical_analysis price_data) None)
   ≠ STRONG_BUY).
Proof.
  destruct (technical_analysis_blocks price_data)
    as [->|(hist & closes & [r1 r2] & [b1 b2] & [a1 a2] & [v1 v2]
            & Hr & Hb & Ha & Hv & ->)].
  { repeat split; try done. simpl. lia. }
  pose proof (rsi_block_vote _ _ Hr) as Vr.
  pose proof (bollinger_block_vote _ _ _ Hb) as Vb.
  pose proof (moving_average_block_vote _ _ _ Ha) as Va.
  pose proof (volume_block_vote _ _ Hv) as Vv.
  cbn [fst snd] in *. cbn [indicators ind_macd signals].
  split; [done|].
  destruct Vr as [->|[[? ->]|[? ->]]], Vb as [->|[[? ->]|[? ->]]],
    Va as [->|[[? ->]|[? ->]]], Vv as [->|[? ->]];
    (split; [repeat constructor|]); (split; [simpl; lia|]);
    (split; [by vm_compute|]); intros Hstd; try (by vm_compute);
    exfalso; by eapply bollinger_average_buy_exclusive.
Qed.

(** * Candlestick patterns *)

Lemma last_py_slice_from {A} (l : list A) (k : positive) :
  last (py_slice_from l (Z.neg k)) = last l.
Proof.
  change (Z.neg k) with (- Z.pos k)%Z. rewrite py_slice_from_neg by done.
  destruct (decide (length l = 0)) as [E|E].
  { apply length_zero_iff_nil in E as ->. by rewrite drop_nil. }
  rewrite !last_lookup, length_drop, lookup_drop.
  f_equal. unfold len. lia.
Qed.

Lemma py_slice_from_twice {A} (l : list A) (j k : positive) :
  (k ≤ j)%positive →
  py_slice_from (py_slice_from l (Z.neg j)) (Z.neg k)
  = py_slice_from l (Z.neg k).
Proof.
  intros H. change (Z.neg k) with (- Z.pos k)%Z.
  change (Z.neg j) with (- Z.pos j)%Z.
  rewrite !py_slice_from_neg by lia.
  rewrite drop_drop. f_equal. unfold len. rewrite length_drop. lia.
Qed.

Lemma len_py_slice_from_neg {A} (l : list A) (k : positive) :
  len (py_slice_from l (Z.neg k)) = Z.min (len l) (Z.pos k).
Proof.
  change (Z.neg k) with (- Z.pos k)%Z. rewrite py_slice_from_neg by done.
  unfold len. rewrite length_drop. lia.
Qed.

Lemma bullish_engulfing_total opens closes :
  ∃ b, _is_bullish_engulfing opens closes = Ok b.
Proof.
  unfold _is_bullish_engulfing.
  destruct (_ || _)%bool eqn:E; [by eexists|].
  apply orb_false_iff in E as [Ho Hc]. apply Z.ltb_ge in Ho, Hc.
  destruct (py_index_nonneg closes 0) as (c0 & -> & _); [lia|].
  destruct (py_index_nonneg opens 0) as (o0 & -> & _); [lia|].
  destruct (py_index_nonneg closes 1) as (c1 & -> & _); [lia|].
  destruct (py_index_nonneg opens 1) as (o1 & -> & _); [lia|].
  by eexists.
Qed.

Lemma bearish_engulfing_total opens closes :
  ∃ b, _is_bearish_engulfing opens closes = Ok b.
Proof.
  unfold _is_bearish_engulfing.
  destruct (_ || _)%bool eqn:E; [by eexists|].
  apply orb_false_iff in E as [Ho Hc]. apply Z.ltb_ge in Ho, Hc.
  destruct (py_index_nonneg closes 0) as (c0 & -> & _); [lia|].
  destruct (py_index_nonneg opens 0) as (o0 & -> & _); [lia|].
  destruct (py_index_nonneg closes 1) as (c1 & -> & _); [lia|].
  destruct (py_index_nonneg opens 1) as (o1 & -> & _); [lia|].
  by eexists.
Qed.

(** With three closes or more the pattern analysis reads the last open, high,
    low and close and the last two opens and closes. *)
Lemma pattern_analysis_reads (opens highs lows closes : list Q) :
  (3 ≤ len closes)%Z →
  k_line_pattern_analysis opens highs lows closes =
    (o ← py_index opens (-1);
     h ← py_index highs (-1);
     l ← py_index lows (-1);
     c ← py_index closes (-1);
     let found := if _is_hammer o h l c then ["hammer"] else [] in
     let found := if _is_doji o c h l then found ++ ["doji"] else found in
     found ← (bullish ← _is_bullish_engulfing (py_slice_from opens (-2))
                                               (py_slice_from closes (-2));
              if (bullish : bool) then Ok (found ++ ["bullish_engulfing"])
              else
                bearish ← _is_bearish_engulfing (py_slice_from opens (-2))
                                                 (py_slice_from closes (-2));
                Ok (if (bearish : bool)
                    then found ++ ["bearish_engulfing"] else found));
     let bias :=
       if bool_decide ("hammer" ∈ found ∨ "bullish_engulfing" ∈ found)
       then "bullish"
       else if bool_decide ("bearish_engulfing" ∈ found) then "bearish"
       else "neutral" in
     Ok (mkPattern None (Some found) bias)).
Proof.
  intros H. unfold k_line_pattern_analysis.
  destruct (Z.ltb_spec (len closes) 3); [lia|]. cbv zeta.
  rewrite (len_py_slice_from_neg closes 3).
  destruct (Z.leb_spec 2 (Z.min (len closes) 3)); [|lia].
  rewrite !(py_slice_from_twice _ 3 2) by lia.
  rewrite !py_index_last_elem, !(last_py_slice_from _ 3).
  reflexivity.
Qed.

(** X18. With three closes or more, [k_line_pattern_analysis] returns
    exactly when the open, high and low series are non-empty, and raises
    [IndexError] otherwise (their lengths are never compared with the
    closes').  A returned record has the key [patterns], never [pattern];
    the names are listed in the fixed order hammer, doji, engulfing; the two
    engulfing names never occur together; and the bias is bullish exactly
    when a hammer or bullish engulfing is listed, bearish exactly when a
    bearish engulfing is listed without a hammer, neutral exactly when
    nothing or only a doji is listed. *)
Theorem pattern_analysis_returns (opens highs lows closes : list Q) :
  (3 ≤ len closes)%Z →
  ((∃ r, k_line_pattern_analysis opens highs lows closes = Ok r)
     ↔ opens ≠ [] ∧ highs ≠ [] ∧ lows ≠ []) ∧
  (∀ e, k_line_pattern_analysis opens highs lows closes = Raise e →
        e = IndexError) ∧
  (∀ r, k_line_pattern_analysis opens highs lows closes = Ok r →
     pattern r = None ∧
     ∃ found, patterns r = Some found ∧
       sublist found
         ["hammer"; "doji"; "bullish_engulfing"; "bearish_engulfing"] ∧
       ¬ ("bullish_engulfing" ∈ found ∧ "bearish_engulfing" ∈ found) ∧
       (pattern_signal r = "bullish"
          ↔ "hammer" ∈ found ∨ "bullish_engulfing" ∈ found) ∧
       (pattern_signal r = "bearish"
          ↔ "bearish_engulfing" ∈ found ∧ "hammer" ∉ found) ∧
       (pattern_signal r = "neutral" ↔ found = [] ∨ found = ["doji"])).
Proof.
  intros H. rewrite pattern_analysis_reads by done.
  rewrite !py_index_last_elem.
  destruct (last opens) as [o|] eqn:Ho.
  2:{ apply last_None in Ho as ->. rewrite bind_Raise.
      split; [split; [by intros [r [=]] | by intros [? _]]|].
      split; [by intros e [= <-] | by intros r [=]]. }
  destruct (last highs) as [h|] eqn:Hh.
  2:{ apply last_None in Hh as ->. rewrite bind_Ok, bind_Raise.
      split; [split; [by intros [r [=]] | by intros (_ & ? & _)]|].
      split; [by intros e [= <-] | by intros r [=]]. }
  destruct (last lows) as [l|] eqn:Hl.
  2:{ apply last_None in Hl as ->. rewrite !bind_Ok, bind_Raise.
      split; [split; [by intros [r [=]] | by intros (_ & _ & ?)]|].
      split; [by intros e [= <-] | by intros r [=]]. }
  destruct (last closes) as [c|] eqn:Hc.
  2:{ apply last_None in Hc as ->. unfold len in H. simpl in H. lia. }
  rewrite !bind_Ok. cbv zeta.
  destruct (bullish_engulfing_total (py_slice_from opens (-2))
              (py_slice_from closes (-2))) as [bu ->].
  destruct (bearish_engulfing_total (py_slice_from opens (-2))
              (py_slice_from closes (-2))) as [be ->].
  assert (opens ≠ [] ∧ highs ≠ [] ∧ lows ≠ []) as Hne.
  { repeat split; intros ->; discriminate. }
  destruct (_is_hammer o h l c), (_is_doji o c h l), bu, be;
    rewrite !bind_Ok; cbn [app];
    (split; [split; [by intros _ | by eexists]|]);
    (split; [by intros e [=]|]);
    intros r [= <-]; (split; [done|]); eexists; (split; [done|]);
    (split; [repeat constructor|]);
    (split; [apply (decidable_by_compute _); by vm_compute|]);
    (split; [split; intros Hs;
             (apply (decidable_by_compute _); by vm_compute)
             || (exfalso; revert Hs; apply (decidable_by_compute _);
                 by vm_compute)|]);
    (split; [split; intros Hs;
             (apply (decidable_by_compute _); by vm_compute)
             || (exfalso; revert Hs; apply (decidable_by_compute _);
                 by vm_compute)|]);
    split; intros Hs;
      (apply (decidable_by_compute _); by vm_compute)
      || (exfalso; revert Hs; apply (decidable_by_compute _);
          by vm_compute).
Qed.

(** X19. With three closes or more, the pattern analysis depends only on the
    last two opens and closes and on the last high and low: two inputs that
    agree there get the same answer, whatever the earlier bars are (the
    three-bar window the function slices is never read beyond that). *)
Theorem pattern_analysis_last_two_bars
    (opens1 highs1 lows1 closes1 opens2 highs2 lows2 closes2 : list Q) :
  (3 ≤ len closes1)%Z → (3 ≤ len closes2)%Z →
  py_slice_from opens1 (-2) = py_slice_from opens2 (-2) →
  py_slice_from closes1 (-2) = py_slice_from closes2 (-2) →
  last highs1 = last highs2 → last lows1 = last lows2 →
  k_line_pattern_analysis opens1 highs1 lows1 closes1
  = k_line_pattern_analysis opens2 highs2 lows2 closes2.
Proof.
  intros H1 H2 Ho Hc Hh Hl.
  rewrite !pattern_analysis_reads by done.
  rewrite !py_index_last_elem, Hh, Hl, Ho, Hc.
  rewrite <- (last_py_slice_from opens1 2), <- (last_py_slice_from closes1 2).
  rewrite <- (last_py_slice_from opens2 2), <- (last_py_slice_from closes2 2).
  by rewrite Ho, Hc.
Qed.

Lemma engulfing_reads (opens closes : list Q) o0 o1 c0 c1 :
  opens !! 0%nat = Some o0 → opens !! 1%nat = Some o1 →
  closes !! 0%nat = Some c0 → closes !! 1%nat = Some c1 →
  _is_bullish_engulfing opens closes
  = Ok (Qltb c0 o0 && Qltb o1 c1 && (Qltb o1 c0 && Qltb o0 c1)) ∧
  _is_bearish_engulfing opens closes
  = Ok (Qltb o0 c0 && Qltb c1 o1 && (Qltb c0 o1 && Qltb c1 o0)).
Proof.
  intros Ho0 Ho1 Hc0 Hc1.
  assert (2 ≤ len opens)%Z as Hlo.
  { apply lookup_lt_Some in Ho1. unfold len. lia. }
  assert (2 ≤ len closes)%Z as Hlc.
  { apply lookup_lt_Some in Hc1. unfold len. lia. }
  unfold _is_bullish_engulfing, _is_bearish_engulfing.
  destruct (Z.ltb_spec (len opens) 2); [lia|].
  destruct (Z.ltb_spec (len closes) 2); [lia|]. cbn [orb].
  destruct (py_index_nonneg closes 0) as (x & -> & Hx); [lia|].
  destruct (py_index_nonneg opens 0) as (y & -> & Hy); [lia|].
  destruct (py_index_nonneg closes 1) as (z & -> & Hz); [lia|].
  destruct (py_index_nonneg opens 1) as (w & -> & Hw); [lia|].
  change (Z.to_nat 0) with 0%nat in *. change (Z.to_nat 1) with 1%nat in *.
  rewrite !bind_Ok. by simplify_eq.
Qed.

(** X20. The engulfing tests.  Both answer [False] when either list has
    fewer than two entries.  Otherwise the bullish test holds exactly when
    [opens[1] < closes[0] < opens[0] < closes[1]] and the bearish test
    exactly when [closes[1] < opens[0] < closes[0] < opens[1]] (the test on
    the current bar's own direction is implied by the other three), so the
    two never hold together. *)
Theorem engulfing_is_a_chain (opens closes : list Q) :
  ((len opens < 2 ∨ len closes < 2)%Z →
     _is_bullish_engulfing opens closes = Ok false ∧
     _is_bearish_engulfing opens closes = Ok false) ∧
  (_is_bullish_engulfing opens closes = Ok true ↔
     ∃ o0 o1 c0 c1, opens !! 0%nat = Some o0 ∧ opens !! 1%nat = Some o1 ∧
       closes !! 0%nat = Some c0 ∧ closes !! 1%nat = Some c1 ∧
       (o1 < c0)%Q ∧ (c0 < o0)%Q ∧ (o0 < c1)%Q) ∧
  (_is_bearish_engulfing opens closes = Ok true ↔
     ∃ o0 o1 c0 c1, opens !! 0%nat = Some o0 ∧ opens !! 1%nat = Some o1 ∧
       closes !! 0%nat = Some c0 ∧ closes !! 1%nat = Some c1 ∧
       (c1 < o0)%Q ∧ (o0 < c0)%Q ∧ (c0 < o1)%Q) ∧
  ¬ (_is_bullish_engulfing opens closes = Ok true ∧
     _is_bearish_engulfing opens closes = Ok true).
Proof.
  assert ((len opens < 2 ∨ len closes < 2)%Z →
          _is_bullish_engulfing opens closes = Ok false ∧
          _is_bearish_engulfing opens closes = Ok false) as Hshort.
  { intros Hs. unfold _is_bullish_engulfing, _is_bearish_engulfing.
    destruct (Z.ltb_spec (len opens) 2); [done|].
    destruct (Z.ltb_spec (len closes) 2); [done|]. lia. }
  split; [exact Hshort|].
  destruct (Z.lt_ge_cases (len opens) 2) as [Ho|Ho].
  { destruct Hshort as [-> ->]; [by left|].
    split; [|split]; [split; [done|] .. | by intros [[=] _]];
      intros (o0 & o1 & c0 & c1 & _ & H1 & _);
      apply lookup_lt_Some in H1; unfold len in Ho; lia. }
  destruct (Z.lt_ge_cases (len closes) 2) as [Hc|Hc].
  { destruct Hshort as [-> ->]; [by right|].
    split; [|split]; [split; [done|] .. | by intros [[=] _]];
      intros (o0 & o1 & c0 & c1 & _ & _ & _ & H1 & _);
      apply lookup_lt_Some in H1; unfold len in Hc; lia. }
  destruct (lookup_lt_is_Some_2 opens 0) as [o0 Ho0]; [unfold len in *; lia|].
  destruct (lookup_lt_is_Some_2 opens 1) as [o1 Ho1]; [unfold len in *; lia|].
  destruct (lookup_lt_is_Some_2 closes 0) as [c0 Hc0]; [unfold len in *; lia|].
  destruct (lookup_lt_is_Some_2 closes 1) as [c1 Hc1]; [unfold len in *; lia|].
  destruct (engulfing_reads opens closes o0 o1 c0 c1) as [-> ->]; try done.
  split; [|split].
  - split.
    + intros [= E]. apply andb_prop in E as [E E34].
      apply andb_prop in E as [E1 E2]. apply andb_prop in E34 as [E3 E4].
      apply Qltb_lt in E1, E2, E3, E4. by exists o0, o1, c0, c1.
    + intros (? & ? & ? & ? & ? & ? & ? & ? & E3 & E1 & E4). simplify_eq.
      assert (o1 < c1)%Q as E2 by lra.
      apply Qltb_lt in E1, E2, E3, E4. by rewrite E1, E2, E3, E4.
  - split.
    + intros [= E]. apply andb_prop in E as [E E34].
      apply andb_prop in E as [E1 E2]. apply andb_prop in E34 as [E3 E4].
      apply Qltb_lt in E1, E2, E3, E4. by exists o0, o1, c0, c1.
    + intros (? & ? & ? & ? & ? & ? & ? & ? & E4 & E1 & E3). simplify_eq.
      assert (c1 < o1)%Q as E2 by lra.
      apply Qltb_lt in E1, E2, E3, E4. by rewrite E1, E2, E3, E4.
  - intros [[= E] [= F]].
    apply andb_prop in E as [E _]. apply andb_prop in E as [E1 _].
    apply andb_prop in F as [F _]. apply andb_prop in F as [F1 _].
    apply Qltb_lt in E1, F1. lra.
Qed.

(** X21. The single-bar tests, without [max] and [min].  A bar is a hammer
    exactly when its body is non-zero, its low lies more than two bodies
    below both open and close, and its high lies less than half a body above
    open or close.  A bar that opens and closes at the same price is never a
    hammer, and is a doji exactly when its high is above its low; no bar
    with [high <= low] is a doji. *)
Theorem hammer_and_doji_bodies (open_price high low close : Q) :
  (_is_hammer open_price high low close = true ↔
     (0 < Qabs (close - open_price))%Q ∧
     (2 * Qabs (close - open_price) < open_price - low)%Q ∧
     (2 * Qabs (close - open_price) < close - low)%Q ∧
     ((2 * (high - open_price) < Qabs (close - open_price))%Q ∨
      (2 * (high - close) < Qabs (close - open_price))%Q)) ∧
  ((open_price == close)%Q →
     _is_hammer open_price high low close = false ∧
     (_is_doji open_price close high low = true ↔ (low < high)%Q)) ∧
  ((high <= low)%Q → _is_doji open_price close high low = false).
Proof.
  set (body := Qabs (close - open_price)).
  assert (_is_hammer open_price high low close = true ↔
          (0 < body)%Q ∧
          (2 * body < open_price - low)%Q ∧ (2 * body < close - low)%Q ∧
          ((2 * (high - open_price) < body)%Q ∨ (2 * (high - close) < body)%Q))
    as Hhammer.
  { unfold _is_hammer, py_max, py_min. cbv zeta. fold body. clearbody body.
    rewrite !andb_true_iff, !Qltb_lt.
    destruct (Qltb open_price close) eqn:F1;
      [apply Qltb_lt in F1 | apply Qltb_ge in F1];
      (destruct (Qltb close open_price) eqn:F2;
       [apply Qltb_lt in F2 | apply Qltb_ge in F2]);
      (split; [intros [[E1 E2] E3]; repeat split; try lra
              | intros (E3 & E1 & E1' & [E2|E2]); repeat split; try lra]).
    all: try (left; lra); try (right; lra). }
  split; [exact Hhammer|].
  split.
  - intros E.
    assert (body == 0)%Q as Hb.
    { unfold body.
      assert (close - open_price == 0)%Q as -> by (rewrite E; ring). done. }
    split.
    + apply not_true_is_false. intros F. apply Hhammer in F as [F _].
      rewrite Hb in F. by apply Qlt_irrefl in F.
    + unfold _is_doji. cbv zeta. fold body.
      destruct (Qltb 0 (high - low)) eqn:F.
      * apply Qltb_lt in F. rewrite Qltb_lt, Hb. split; intros; lra.
      * apply Qltb_ge in F. split; [done|]. intros; lra.
  - intros E. unfold _is_doji. cbv zeta.
    destruct (Qltb 0 (high - low)) eqn:F; [|done].
    apply Qltb_lt in F. lra.
Qed.

(** * Training labels *)

Lemma for_collect_raises {X B} (body : X → res B) xs x :
  x ∈ xs → (∃ e, body x = Raise e) → ∃ e, for_collect body xs = Raise e.
Proof.
  intros Hx [e He]. induction xs as [|y xs IH]; [by apply elem_of_nil in Hx|].
  simpl. apply elem_of_cons in Hx as [<-|Hx].
  - rewrite He. by eexists.
  - destruct (body y); [|by eexists].
    destruct (IH Hx) as [e' ->]. by eexists.
Qed.

Lemma py_index_lookup {A} (l : list A) i x :
  (0 ≤ i)%Z → l !! Z.to_nat i = Some x → py_index l i = Ok x.
Proof.
  intros Hi Hl. pose proof (lookup_lt_Some _ _ _ Hl).
  destruct (py_index_nonneg l i) as (y & -> & Hy); [unfold len; lia|].
  congruence.
Qed.

Lemma py_index_out_of_range {A} (l : list A) i :
  (len l ≤ i)%Z → py_index l i = Raise IndexError.
Proof.
  intros Hi. unfold py_index, len in *.
  destruct (Z.ltb_spec i 0); [lia|].
  destruct (Z.ltb_spec i 0); [lia|].
  by destruct (Z.leb_spec (Z.of_nat (length l)) i); [|lia].
Qed.

(** One label, from the two prices it compares. *)
Lemma label_of_prices (closes : list Q) (prediction_days : Z)
    (target_return : Q) (k : nat) cur fut :
  (0 ≤ prediction_days)%Z →
  closes !! k = Some cur →
  closes !! (k + Z.to_nat prediction_days)%nat = Some fut →
  ∃ label : Z,
    (current_price ← py_index closes (0 + Z.of_nat k);
     future_price ← py_index closes (0 + Z.of_nat k + prediction_days);
     return_rate ← (if negb (Qeq_bool current_price 0)
                    then py_div (future_price - current_price) current_price
                    else Ok 0%Q);
     Ok (if Qle_bool target_return return_rate then 1 else 0)%Z) = Ok label ∧
    (label = 0 ∨ label = 1)%Z ∧
    ((0 < cur)%Q → label = 1%Z ↔ (cur * (1 + target_return) <= fut)%Q) ∧
    ((cur < 0)%Q → label = 1%Z ↔ (fut <= cur * (1 + target_return))%Q) ∧
    ((cur == 0)%Q → label = 1%Z ↔ (target_return <= 0)%Q).
Proof.
  intros Hpd Hcur Hfut.
  assert (py_index closes (0 + Z.of_nat k) = Ok cur) as ->.
  { apply py_index_lookup; [lia|].
    by replace (Z.to_nat (0 + Z.of_nat k)) with k by lia. }
  assert (py_index closes (0 + Z.of_nat k + prediction_days) = Ok fut) as ->.
  { apply py_index_lookup; [lia|].
    by replace (Z.to_nat (0 + Z.of_nat k + prediction_days))
      with (k + Z.to_nat prediction_days)%nat by lia. }
  rewrite !bind_Ok.
  destruct (Qeq_bool cur 0) eqn:E; cbn [negb].
  - apply Qeq_bool_iff in E. rewrite bind_Ok.
    destruct (Qle_bool target_return 0) eqn:F.
    + apply Qle_bool_iff in F. exists 1%Z.
      split; [done|]. split; [by right|].
      repeat split; try done; intros; lra.
    + assert (¬ (target_return <= 0)%Q) as F'.
      { intros G. apply Qle_bool_iff in G. congruence. }
      exists 0%Z. split; [done|]. split; [by left|].
      repeat split; try done; intros; lra.
  - assert (¬ (cur == 0)%Q) as Hne.
    { intros G. apply Qeq_bool_iff in G. congruence. }
    rewrite py_div_nonzero, bind_Ok by done.
    pose proof (Qmult_div_r (fut - cur) cur Hne) as Hq.
    set (q := ((fut - cur) / cur)%Q) in *. clearbody q.
    destruct (Qle_bool target_return q) eqn:F.
    + apply Qle_bool_iff in F. exists 1%Z.
      split; [done|]. split; [by right|].
      repeat split; try done; intros; try lra; nra.
    + assert (¬ (target_return <= q)%Q) as F'.
      { intros G. apply Qle_bool_iff in G. congruence. }
      exists 0%Z. split; [done|]. split; [by left|].
      repeat split; try done; intros; try lra; exfalso; apply F'; nra.
Qed.

(** X22. [prepare_labels].  A negative [prediction_days] makes the loop
    index past the end of the closes, so the answer is [None].  Otherwise
    the answer has one label per bar that has a bar [prediction_days] later;
    the label is 0 or 1, and it is 1 exactly when the later close reaches
    [(1 + target_return)] times the current one for a positive price, when
    it stays at or below that product for a negative price, and when the
    target is at most 0 for a zero price. *)
Theorem prepare_labels_spec (closes : list Q) (prediction_days : Z)
    (target_return : Q) :
  ((prediction_days < 0)%Z →
     prepare_labels closes prediction_days target_return = None) ∧
  ((0 ≤ prediction_days)%Z →
     ∃ labels,
       prepare_labels closes prediction_days target_return = Some labels ∧
       len labels = Z.max 0 (len closes - prediction_days) ∧
       ∀ (k : nat) cur fut,
         closes !! k = Some cur →
         closes !! (k + Z.to_nat prediction_days)%nat = Some fut →
         ∃ label, labels !! k = Some label ∧
           (label = 0 ∨ label = 1)%Z ∧
           ((0 < cur)%Q →
              label = 1%Z ↔ (cur * (1 + target_return) <= fut)%Q) ∧
           ((cur < 0)%Q →
              label = 1%Z ↔ (fut <= cur * (1 + target_return))%Q) ∧
           ((cur == 0)%Q → label = 1%Z ↔ (target_return <= 0)%Q)).
Proof.
  unfold prepare_labels. split.
  - intros Hneg.
    match goal with
    | |- context [for_collect ?body ?xs] =>
        destruct (for_collect_raises body xs (len closes)) as [e ->]
    end; [| |reflexivity].
    + apply elem_of_py_range. unfold len. lia.
    + cbv beta. rewrite (py_index_out_of_range closes (len closes)) by lia. by eexists.
  - intros Hpd.
    match goal with
    | |- context [for_collect ?body ?xs] =>
        destruct (for_collect_total body xs) as [labels Hl]
    end.
    { intros i Hi. apply elem_of_py_range in Hi.
      destruct (lookup_lt_is_Some_2 closes (Z.to_nat i)) as [cur Hcur];
        [unfold len in *; lia|].
      destruct (lookup_lt_is_Some_2 closes
                  (Z.to_nat i + Z.to_nat prediction_days)) as [fut Hfut];
        [unfold len in *; lia|].
      destruct (label_of_prices closes prediction_days target_return
                  (Z.to_nat i) cur fut) as (label & Hlabel & _); try done.
      exists label. rewrite <- Hlabel.
      by replace (0 + Z.of_nat (Z.to_nat i))%Z with i by lia. }
    rewrite Hl. exists labels. split; [done|].
    pose proof (for_collect_length _ _ _ Hl) as Hlen.
    rewrite length_py_range in Hlen.
    split; [unfold len in *; lia|].
    intros k cur fut Hcur Hfut.
    pose proof (lookup_lt_Some _ _ _ Hfut) as Hk.
    destruct (label_of_prices closes prediction_days target_return
                k cur fut) as (label & Hlabel & Hprops); try done.
    exists label. split; [|exact Hprops].
    destruct (for_collect_lookup _ _ _ k (0 + Z.of_nat k)%Z Hl)
      as (b & Hb & Hbody).
    { unfold py_range. apply lookup_seqZ. unfold len. lia. }
    cbv beta in Hbody. rewrite Hlabel in Hbody. congruence.
Qed.

(** * Price fields of a quote *)

Lemma py_in_Some {V} (d : gmap string V) key v :
  d !! key = Some v → py_in key d = true.
Proof. intros H. unfold py_in. rewrite H. by apply bool_decide_eq_true_2. Qed.

Lemma analyze_asset_unpriced asset_data :
  _extract_price_data asset_data = None →
  analyze_asset asset_data = _create_empty_result asset_data.
Proof.
  intros H. unfold analyze_asset. rewrite H.
  by destruct (_create_empty_result asset_data).
Qed.

(** X23. A record with the key [current_price] is read as a CoinGecko
    quote.  A [None] under any of the four price fields voids the whole
    extraction, so [analyze_asset] answers with the empty result even when
    the price itself is valid; fields that are absent count as 0; and the
    extracted record has exactly four series and never an [open] one,
    whatever other keys the record carries. *)
Theorem quote_price_fields (asset_data : gmap string pyval) (v : pyval) :
  asset_data !! "current_price" = Some v →
  (∀ key, key ∈ ["current_price"; "high_24h"; "low_24h"; "total_volume"] →
     asset_data !! key = Some VNone →
     _extract_price_data asset_data = None ∧
     analyze_asset asset_data = _create_empty_result asset_data) ∧
  (∀ c, py_float v = Ok c →
     asset_data !! "high_24h" = None →
     asset_data !! "low_24h" = None →
     asset_data !! "total_volume" = None →
     _extract_price_data asset_data
     = Some (<["close" := [c]]> (<["high" := [0%Q]]> (<["low" := [0%Q]]>
             (<["volume" := [0%Q]]> ∅))))) ∧
  (∀ price_data, _extract_price_data asset_data = Some price_data →
     price_data !! "open" = None ∧ size price_data = 4%nat).
Proof.
  intros H. split; [|split].
  - intros key Hkey Hnone.
    assert (_extract_price_data asset_data = None) as Hex.
    { unfold _extract_price_data. rewrite (py_in_Some _ _ _ H).
      rewrite !elem_of_cons, elem_of_nil in Hkey.
      destruct Hkey as [->|[->|[->|[->|[]]]]];
        unfold py_get; rewrite Hnone;
        change (py_float VNone) with (@Raise Q TypeError);
        repeat (match goal with
                | |- context [py_float ?x] => destruct (py_float x)
                end; rewrite ?bind_Ok, ?bind_Raise);
        reflexivity. }
    split; [exact Hex | by apply analyze_asset_unpriced].
  - intros c Hc Hh Hl Hv. unfold _extract_price_data, py_get.
    rewrite (py_in_Some _ _ _ H), H, Hh, Hl, Hv, Hc. reflexivity.
  - intros price_data. unfold _extract_price_data.
    rewrite (py_in_Some _ _ _ H).
    repeat (match goal with
            | |- context [py_float ?x] => destruct (py_float x)
            end; rewrite ?bind_Ok, ?bind_Raise);
      cbn [catch]; try discriminate.
    intros [= <-]. split; by vm_compute.
Qed.

(** * Volatility *)

Lemma py_slice_nil {A} lo hi : py_slice ([] : list A) lo hi = [].
Proof. unfold py_slice. by rewrite drop_nil, take_nil. Qed.

Lemma py_sum_squares_nonneg (m : Q) (l : list Q) :
  (0 <= py_sum ((λ r, (r - m) ^ 2)%Q <$> l))%Q.
Proof.
  apply py_sum_nonneg, Forall_fmap, Forall_forall. intros r _.
  unfold compose. cbv beta. change ((r - m) ^ 2)%Q with ((r - m) * (r - m))%Q.
  generalize (r - m)%Q. intros x. nra.
Qed.

(** The loop of [calculate_volatility] that collects the returns never
    raises, and collects nothing from a series of zero prices. *)
Lemma volatility_returns_loop (prices : list Q) :
  ∃ returns,
    for_loop
      (λ (returns : list Q) i,
         prev ← py_index prices (i - 1);
         if negb (Qeq_bool prev 0) then
           cur ← py_index prices i;
           ret ← py_div (cur - prev) prev;
           Ok (returns ++ [ret])
         else Ok returns)
      (py_range 1 (len prices))
      [] = Ok returns ∧
    (Forall (λ p, p == 0)%Q prices → returns = []).
Proof.
  apply (for_loop_invariant
           (λ (k : nat) (rs : list Q),
              (Forall (λ p, p == 0)%Q prices → rs = []))); [done|].
  intros k rs i Hk Hinv. apply lookup_py_range in Hk as [-> Hi].
  destruct (py_index_nonneg prices (1 + Z.of_nat k - 1)) as (prev & -> & Hp);
    [unfold len in *; lia|].
  rewrite bind_Ok. destruct (Qeq_bool prev 0) eqn:E; cbn [negb].
  - eexists. split; [done|]. exact Hinv.
  - destruct (py_index_nonneg prices (1 + Z.of_nat k)) as (cur & -> & _);
      [unfold len in *; lia|].
    rewrite bind_Ok, py_div_nonzero, bind_Ok.
    2:{ intros G. apply Qeq_bool_iff in G. congruence. }
    eexists. split; [done|]. intros Hall. exfalso.
    apply list_elem_of_lookup_2 in Hp.
    rewrite Forall_forall in Hall. apply Hall, Qeq_bool_iff in Hp.
    congruence.
Qed.

(** The population variance of the last [period] returns. *)
Lemma volatility_variance (returns : list Q) (period : Z) :
  (1 ≤ period)%Z → (period ≤ len returns)%Z →
  ∃ variance, (0 <= variance)%Q ∧
    (mean_return ← py_div (py_sum (py_slice_from returns (- period)))
          (inject_Z (len (py_slice_from returns (- period))));
     variance ← py_div
       (py_sum ((λ r, (r - mean_return) ^ 2)%Q
                  <$> py_slice_from returns (- period)))
       (inject_Z (len (py_slice_from returns (- period))));
     Ok (pow_half variance)) = Ok (pow_half variance).
Proof.
  intros Hp Hlen. set (recent := py_slice_from returns (- period)).
  assert (len recent = period) as Hrecent.
  { unfold recent. rewrite py_slice_from_neg by lia.
    unfold len in *. rewrite length_drop. lia. }
  rewrite Hrecent. rewrite py_div_inject_Z, bind_Ok by lia.
  rewrite py_div_inject_Z, bind_Ok by lia.
  eexists. split; [|reflexivity].
  apply Qle_shift_div_l; [apply inject_Z_pos; lia|].
  rewrite Qmult_0_l. apply py_sum_squares_nonneg.
Qed.

Lemma calculate_volatility_total (prices : list Q) (period : Z) :
  (1 ≤ period)%Z → ∃ v, calculate_volatility prices period = Ok v.
Proof.
  intros Hp. unfold calculate_volatility.
  destruct (Z.ltb_spec (len prices) (period + 1)); [by eexists|].
  destruct (volatility_returns_loop prices) as (returns & -> & _).
  rewrite bind_Ok.
  destruct (Z.ltb_spec (len returns) period) as [|Hmany]; [by eexists|].
  destruct (volatility_variance returns period Hp Hmany) as (v & _ & ->).
  by eexists.
Qed.

(** X24. [calculate_volatility].  With a period of at least 1 it never
    raises; it answers 0 when there are fewer than [period + 1] prices and
    when every price is 0 (a zero price yields no return); and any other
    answer is the square root of a non-negative variance.  With a period of
    0 or less, a non-empty series of zero prices makes it divide by the
    length of an empty list: [ZeroDivisionError]. *)
Theorem calculate_volatility_edges (prices : list Q) (period : Z) :
  ((1 ≤ period)%Z →
     (∃ v, calculate_volatility prices period = Ok v) ∧
     ((len prices < period + 1)%Z →
        calculate_volatility prices period = Ok 0%Q) ∧
     (Forall (λ p, p == 0)%Q prices →
        calculate_volatility prices period = Ok 0%Q) ∧
     (∀ v, calculate_volatility prices period = Ok v →
        v = 0%Q ∨ ∃ variance, (0 <= variance)%Q ∧ v = pow_half variance)) ∧
  ((period ≤ 0)%Z → (1 ≤ len prices)%Z →
     Forall (λ p, p == 0)%Q prices →
     calculate_volatility prices period = Raise ZeroDivisionError).
Proof.
  unfold calculate_volatility.
  destruct (volatility_returns_loop prices) as (returns & -> & Hzero).
  rewrite !bind_Ok. split.
  - intros Hp.
    destruct (Z.ltb_spec (len prices) (period + 1)) as [Hshort|Hlong].
    { split; [by eexists|]. split; [done|]. split; [done|].
      intros v [= <-]. by left. }
    destruct (Z.ltb_spec (len returns) period) as [Hfew|Hmany].
    { split; [by eexists|]. split; [lia|]. split; [done|].
      intros v [= <-]. by left. }
    destruct (volatility_variance returns period Hp Hmany)
      as (variance & Hv & ->).
    split; [by eexists|]. split; [lia|]. split.
    + intros Hall. rewrite (Hzero Hall) in Hmany. unfold len in Hmany.
      simpl in Hmany. lia.
    + intros v [= <-]. right. by exists variance.
  - intros Hp Hlen Hall. rewrite (Hzero Hall).
    destruct (Z.ltb_spec (len prices) (period + 1)); [lia|].
    destruct (Z.ltb_spec (len ([] : list Q)) period) as [Hfew|_].
    { unfold len in Hfew. simpl in Hfew. lia. }
    unfold py_slice_from. rewrite py_slice_nil. reflexivity.
Qed.

(** * Rationale text *)

Lemma recommendation_reason_three (ta : TechnicalAnalysis)
    (ml : option MLPrediction) (sg : CompositeSignal) :
  (3 ≤ length (signals ta))%nat →
  _generate_recommendation_reason ta ml sg
  = py_join "; " (take 3 (sig_reason <$> signals ta)).
Proof.
  intros Hlen. unfold _generate_recommendation_reason. cbv zeta.
  match goal with
  | |- context [(sig_reason <$> signals ta) ++ ?rest] => generalize rest
  end.
  intros rest. rewrite py_slice_prefix by lia.
  change (Z.to_nat 3) with 3%nat.
  rewrite take_app_le by (rewrite length_fmap; lia).
  destruct (signals ta) as [|s l]; [simpl in Hlen; lia|]. reflexivity.
Qed.

(** X25. The rationale keeps the first three reasons only, and the
    technical signals come first: with three or more of them the text is
    their first three reasons joined by ["; "], and neither the ML
    prediction nor the composite signal can change it. *)
Theorem recommendation_reason_truncates (ta : TechnicalAnalysis)
    (ml : option MLPrediction) (sg : CompositeSignal) :
  (3 ≤ length (signals ta))%nat →
  _generate_recommendation_reason ta ml sg
  = py_join "; " (take 3 (sig_reason <$> signals ta)) ∧
  ∀ ml' sg',
    _generate_recommendation_reason ta ml' sg'
    = _generate_recommendation_reason ta ml sg.
Proof.
  intros Hlen. split; [by apply recommendation_reason_three|].
  intros ml' sg'. by rewrite !recommendation_reason_three.
Qed.

(** * The feature matrix *)

Lemma py_index_neg {A} (l : list A) k :
  (1 ≤ k ≤ len l)%Z → ∃ x, py_index l (- k) = Ok x.
Proof.
  intros Hk. unfold py_index. cbv zeta.
  destruct (Z.ltb_spec (- k) 0); [|lia].
  destruct (Z.ltb_spec (- k + len l) 0); [lia|].
  destruct (Z.leb_spec (len l) (- k + len l)); [lia|]. cbn [orb].
  destruct (lookup_lt_is_Some_2 l (Z.to_nat (- k + len l))) as [x ->];
    [unfold len in *; lia|].
  by eexists.
Qed.

Lemma len_py_slice_upto {A} (l : list A) k :
  (0 < k ≤ len l)%Z → len (py_slice l 0 (- k)) = (len l - k)%Z.
Proof.
  intros Hk. unfold py_slice, slice_bound.
  destruct (Z.ltb_spec 0 0); [lia|]. destruct (Z.ltb_spec (- k) 0); [|lia].
  unfold len in *. rewrite length_take, length_drop. lia.
Qed.

Lemma guarded_div_total (a b d : Q) :
  ∃ q, (if negb (Qeq_bool b 0) then py_div a b else Ok d) = Ok q.
Proof.
  destruct (Qeq_bool b 0) eqn:E; cbn [negb]; [by eexists|].
  rewrite py_div_nonzero; [by eexists|].
  intros G. apply Qeq_bool_iff in G. congruence.
Qed.

Lemma guarded_index_total (l : list Q) (i : Z) (d : Q) :
  (0 ≤ i)%Z → ∃ x, (if (i <? len l)%Z then py_index l i else Ok d) = Ok x.
Proof.
  intros Hi. destruct (Z.ltb_spec i (len l)); [|by eexists].
  destruct (py_index_nonneg l i) as (x & -> & _); [lia|]. by eexists.
Qed.

Lemma rsi_total_length (prices : list Q) (period : Z) :
  (1 ≤ period)%Z → (period + 1 ≤ len prices)%Z →
  ∃ values, rsi prices period = Ok values ∧
            len values = (len prices - period)%Z ∧
            Forall (λ v, 0 <= v <= 100)%Q values.
Proof.
  intros Hp Hlen.
  destruct (price_changes_total prices) as (changes & Hc & Hclen).
  destruct (rsi_run_spec prices period changes Hp Hlen Hc)
    as (st & Hrun & _ & _ & Hn & Hvals).
  exists st.2. split.
  { unfold rsi. destruct (Z.ltb_spec (len prices) (period + 1)); [lia|].
    by rewrite Hrun. }
  split; [lia|]. apply Forall_lookup. intros k v Hk.
  specialize (Hvals k v Hk).
  destruct (rsi_value_spec (wilder_avg period (gains_of changes) k)
              (wilder_avg period (losses_of changes) k)) as (w & Hw & Hb & _).
  { apply wilder_avg_nonneg; [done|apply gains_nonneg]. }
  { apply wilder_avg_nonneg; [done|apply losses_nonneg]. }
  rewrite Hvals in Hw. by injection Hw as <-.
Qed.

Lemma macd_total_length (prices : list Q) (fast slow signal : Z) :
  (1 ≤ fast ≤ slow)%Z → (1 ≤ signal)%Z → (slow ≤ len prices)%Z →
  ∃ m, macd prices fast slow signal = Ok m ∧
       len (macd_line m) = (len prices - slow + 1)%Z.
Proof.
  intros Hfs Hs Hlen.
  destruct (macd_unfold prices fast slow signal Hfs Hs Hlen)
    as (fe & se & ml & sl & Hfe & Hse & Hml & _ & ->).
  eexists. split; [done|]. cbn [macd_line].
  destruct (ema_total prices fast) as (fe' & Hfe' & Hfl); [lia|].
  destruct (ema_total prices slow) as (se' & Hse' & Hsl); [lia|].
  rewrite Hfe in Hfe'. rewrite Hse in Hse'. simplify_eq.
  unfold len in *. rewrite length_zip_with, length_drop. lia.
Qed.

Lemma pattern_analysis_total (opens highs lows closes : list Q) :
  (3 ≤ len closes)%Z → (1 ≤ len opens)%Z → (1 ≤ len highs)%Z →
  (1 ≤ len lows)%Z →
  ∃ r, k_line_pattern_analysis opens highs lows closes = Ok r.
Proof.
  intros Hc Ho Hh Hl. rewrite pattern_analysis_reads by done.
  destruct (py_index_neg opens 1) as [o Eo]; [lia|].
  destruct (py_index_neg highs 1) as [h Eh]; [lia|].
  destruct (py_index_neg lows 1) as [l El]; [lia|].
  destruct (py_index_neg closes 1) as [c Ec]; [lia|].
  change (- (1))%Z with (-1)%Z in *. rewrite Eo, Eh, El, Ec.
  rewrite !bind_Ok. cbv zeta.
  destruct (bullish_engulfing_total (py_slice_from opens (-2))
              (py_slice_from closes (-2))) as [bu ->].
  destruct (bearish_engulfing_total (py_slice_from opens (-2))
              (py_slice_from closes (-2))) as [be ->].
  rewrite bind_Ok. destruct bu; [by eexists|].
  rewrite bind_Ok. by eexists.
Qed.

Ltac next_bind := rewrite bind_Ok; cbv beta.

(** Every iteration of the feature loop succeeds once the indicator series
    have at least [min_length] entries. *)
Lemma feature_row_total (opens highs lows closes volumes rsi_values : list Q)
    (macd_data : MacdData) (bb_data : BollingerData)
    (sma_5 sma_20 ema_12 ema_26 : list Q) (min_length i : Z) :
  (0 ≤ i < min_length)%Z →
  (min_length + 2 ≤ len closes)%Z →
  (min_length ≤ len rsi_values)%Z →
  (min_length ≤ len (macd_line macd_data))%Z →
  (min_length ≤ len (upper bb_data))%Z →
  (min_length ≤ len (lower bb_data))%Z →
  (min_length ≤ len sma_5)%Z → (min_length ≤ len sma_20)%Z →
  (min_length ≤ len ema_12)%Z → (min_length ≤ len ema_26)%Z →
  Forall (λ v, 0 <= v <= 100)%Q rsi_values →
  ∃ row,
    feature_row opens highs lows closes volumes rsi_values macd_data bb_data
      sma_5 sma_20 ema_12 ema_26 min_length i = Ok row ∧
    length row = 13%nat ∧
    (∃ r, row !! 1%nat = Some r ∧ (0 <= r <= 1)%Q) ∧
    (∃ s, row !! 12%nat = Some s ∧ (s = 1 ∨ s = -1 ∨ s = 0)%Q).
Proof.
  only_needed.
  intros Hi Hc Hr Hm Hu Hl H5 H20 H12 H26 Hrsi.
  unfold feature_row. cbv zeta.
  set (back := (min_length - i)%Z).
  assert (1 ≤ back ≤ min_length)%Z as Hback by lia.
  destruct (py_index_neg closes back) as [cp ->]; [lia|]. next_bind.
  match goal with
  | |- context [(if (back + 1 <=? len closes)%Z then ?a else ?b) ≫= _] =>
      assert (∃ pp, (if (back + 1 <=? len closes)%Z then a else b) = Ok pp)
        as [pp ->]
  end.
  { destruct (Z.leb_spec (back + 1) (len closes)); [|by eexists].
    apply py_index_neg. lia. }
  next_bind.
  destruct (guarded_div_total (cp - pp) pp 0) as [pc ->]. next_bind.
  destruct (py_index_nonneg rsi_values i) as (r & -> & Hri); [lia|].
  next_bind. change (py_div r 100) with (Ok (r / 100)%Q). next_bind.
  destruct (py_index_nonneg (macd_line macd_data) i) as (mv & -> & _);
    [lia|]. next_bind.
  destruct (guarded_index_total (signal_line macd_data) i 0) as [ms ->];
    [lia|]. next_bind.
  destruct (guarded_index_total (histogram macd_data) i 0) as [mh ->];
    [lia|]. next_bind.
  destruct (py_index_nonneg (upper bb_data) i) as (u & -> & _); [lia|].
  next_bind.
  destruct (py_index_nonneg (lower bb_data) i) as (l & -> & _); [lia|].
  next_bind.
  assert (∃ bp, (if negb (Qeq_bool u l) then py_div (cp - l) (u - l)
                 else Ok (5 # 10)%Q) = Ok bp) as [bp ->].
  { destruct (Qeq_bool u l) eqn:E; cbn [negb]; [by eexists|].
    rewrite py_div_nonzero; [by eexists|].
    intros G. assert (u == l)%Q as G' by lra.
    apply Qeq_bool_iff in G'. congruence. }
  next_bind.
  destruct (py_index_nonneg sma_5 i) as (s5 & -> & _); [lia|]. next_bind.
  destruct (guarded_div_total cp s5 1) as [r5 ->]. next_bind.
  destruct (py_index_nonneg sma_20 i) as (s20 & -> & _); [lia|]. next_bind.
  destruct (guarded_div_total cp s20 1) as [r20 ->]. next_bind.
  destruct (py_index_nonneg ema_12 i) as (e12 & -> & _); [lia|]. next_bind.
  destruct (guarded_div_total cp e12 1) as [r12 ->]. next_bind.
  destruct (py_index_nonneg ema_26 i) as (e26 & -> & _); [lia|]. next_bind.
  destruct (guarded_div_total cp e26 1) as [r26 ->]. next_bind.
  match goal with
  | |- context [(if truthy volumes && (back <? len volumes)%Z
                 then ?a else ?b) ≫= _] =>
      assert (∃ vr, (if truthy volumes && (back <? len volumes)%Z
                     then a else b) = Ok vr) as [vr ->]
  end.
  { destruct (truthy volumes && (back <? len volumes)%Z) eqn:E;
      [|by eexists].
    apply andb_prop in E as [_ E]. apply Z.ltb_lt in E.
    destruct (py_index_neg volumes back) as [cv ->]; [lia|]. next_bind.
    destruct (Z.leb_spec (back + 10) (len volumes)).
    - change (py_div ?x 10) with (Ok (x / 10)%Q). next_bind.
      apply guarded_div_total.
    - next_bind. apply guarded_div_total. }
  next_bind.
  set (upto := λ series : list Q,
                 if (0 <? back - 1)%Z then py_slice series 0 (- (back - 1))
                 else series).
  assert (∀ series : list Q, (back ≤ len series)%Z →
            (len series - back + 1 ≤ len (upto series))%Z) as Hupto.
  { intros series Hs. unfold upto.
    destruct (Z.ltb_spec 0 (back - 1)); [|lia].
    rewrite len_py_slice_upto by lia. lia. }
  change (if (0 <? back - 1)%Z then py_slice closes 0 (- (back - 1))
          else closes) with (upto closes).
  change (if (0 <? back - 1)%Z then py_slice opens 0 (- (back - 1))
          else opens) with (upto opens).
  change (if (0 <? back - 1)%Z then py_slice highs 0 (- (back - 1))
          else highs) with (upto highs).
  change (if (0 <? back - 1)%Z then py_slice lows 0 (- (back - 1))
          else lows) with (upto lows).
  destruct (calculate_volatility_total (upto closes) 10) as [vol ->]; [lia|].
  next_bind.
  match goal with
  | |- context [(if ?c then ?a else ?b) ≫= _] =>
      assert (∃ sv, (if c then a else b) = Ok sv ∧
                    (sv = 1 ∨ sv = -1 ∨ sv = 0)%Q) as (sv & -> & Hsv)
  end.
  { destruct ((back <? len opens)%Z && (back <? len highs)%Z
              && (back <? len lows)%Z) eqn:E;
      [|eexists; split; [done|by right; right]].
    apply andb_prop in E as [E E3]. apply andb_prop in E as [E1 E2].
    apply Z.ltb_lt in E1, E2, E3.
    destruct (pattern_analysis_total (upto opens) (upto highs) (upto lows)
                (upto closes)) as [pd ->].
    - specialize (Hupto closes). lia.
    - specialize (Hupto opens). lia.
    - specialize (Hupto highs). lia.
    - specialize (Hupto lows). lia.
    - next_bind. repeat case_match; eexists; (split; [done|]); tauto. }
  next_bind. eexists. split; [done|]. split; [done|]. split; [|by exists sv].
  exists (r / 100)%Q. split; [done|].
  rewrite Forall_lookup in Hrsi. apply Hrsi in Hri.
  split; [apply Qle_shift_div_l | apply Qle_shift_div_r]; lra.
Qed.

(** X26. [prepare_features].  Fewer than 30 closes give [None].  With 30
    closes or more no step raises, whatever the other series hold: the
    answer is a matrix with one row per close from the 26th on (the MACD
    line is the shortest indicator), every row has the thirteen features,
    the RSI feature lies in [[0, 1]] and the pattern feature is 1, -1
    or 0. *)
Theorem prepare_features_shape (price_data : gmap string (list Q))
    (closes : list Q) :
  price_data !! "close" = Some closes →
  ((len closes < 30)%Z → prepare_features price_data = None) ∧
  ((30 ≤ len closes)%Z →
     ∃ features,
       prepare_features price_data = Some features ∧
       len features = (len closes - 25)%Z ∧
       Forall (λ row,
                 length row = 13%nat ∧
                 (∃ r, row !! 1%nat = Some r ∧ (0 <= r <= 1)%Q) ∧
                 (∃ s, row !! 12%nat = Some s ∧ (s = 1 ∨ s = -1 ∨ s = 0)%Q))
              features).
Proof.
  only_needed.
  intros Hclose. unfold prepare_features. cbv zeta. rewrite Hclose.
  generalize (default [] (price_data !! "open")). intros opens.
  generalize (default [] (price_data !! "high")). intros highs.
  generalize (default [] (price_data !! "low")). intros lows.
  generalize (default [] (price_data !! "volume")). intros volumes.
  cbv beta iota delta [default from_option id].
  split; intros Hlen.
  { by destruct (Z.ltb_spec (len closes) 30); [|lia]. }
  destruct (Z.ltb_spec (len closes) 30); [lia|].
  destruct (rsi_total_length closes 14) as (rv & -> & Hrl & Hrb); [lia..|].
  destruct (macd_total_length closes 12 26 9) as (md & -> & Hml); [lia..|].
  destruct (bollinger_bands_spec closes 20 2)
    as (bb & -> & _ & Hbm & Hbu & Hbl & _); [lia..|].
  destruct (sma_total closes 5) as (s5 & -> & H5); [lia|].
  destruct (sma_total closes 20) as (s20 & -> & H20); [lia|].
  destruct (ema_total closes 12) as (e12 & -> & H12); [lia|].
  destruct (ema_total closes 26) as (e26 & -> & H26); [lia|].
  rewrite !bind_Ok. cbv beta.
  match goal with
  | |- context [(?m =? 0)%Z] => set (min_length := m)
  end.
  assert (min_length = len closes - 25)%Z as Hmin.
  { unfold min_length. lia. }
  destruct (Z.eqb_spec min_length 0); [lia|].
  assert (∀ i, i ∈ py_range 0 min_length →
    ∃ row,
      feature_row opens highs lows closes volumes rv md bb s5 s20 e12 e26
        min_length i = Ok row ∧
      length row = 13%nat ∧
      (∃ r, row !! 1%nat = Some r ∧ (0 <= r <= 1)%Q) ∧
      (∃ s, row !! 12%nat = Some s ∧ (s = 1 ∨ s = -1 ∨ s = 0)%Q)) as Hrow.
  { intros i Hi. apply elem_of_py_range in Hi.
    apply feature_row_total; try done; unfold len in *; lia. }
  match goal with
  | |- context [for_collect ?body ?xs] =>
      destruct (for_collect_total body xs) as [features Hf]
  end.
  { intros i Hi. destruct (Hrow i Hi) as (row & -> & _). by eexists. }
  rewrite Hf, bind_Ok. exists features. split; [done|]. split.
  - apply for_collect_length in Hf. rewrite length_py_range in Hf.
    unfold len in *. lia.
  - eapply for_collect_Forall; [exact Hf|].
    intros i row Hi Hrowi. destruct (Hrow i Hi) as (row' & Hrow' & Hprops).
    rewrite Hrowi in Hrow'. by injection Hrow' as <-.
Qed.

End Externals.

(** * The in-memory cache *)

(** X27. [MemoryCache.set] followed by [get] of the same key: the stored
    value comes back while the clock is strictly before the first clock
    reading of [set] plus the lifetime; from that instant on [get] answers
    [None] and drops the key.  So an entry set with a lifetime of 0 or less
    is never served once the clock has not gone backwards.  Other keys
    answer as before the [set]. *)
Theorem cache_set_then_get {V} (cache : gmap string (CacheEntry V))
    (key : string) (value : V) (expire : Z) (clock1 clock2 clock : Q) :
  ((clock < clock1 + inject_Z expire)%Q →
     cache_get (cache_set cache key value expire clock1 clock2) key clock
     = (Some value, cache_set cache key value expire clock1 clock2)) ∧
  ((clock1 + inject_Z expire <= clock)%Q →
     cache_get (cache_set cache key value expire clock1 clock2) key clock
     = (None, delete key cache)) ∧
  ((expire ≤ 0)%Z → (clock1 <= clock)%Q →
     cache_get (cache_set cache key value expire clock1 clock2) key clock
     = (None, delete key cache)) ∧
  (∀ other, other ≠ key →
     (cache_get (cache_set cache key value expire clock1 clock2) other clock).1
     = (cache_get cache other clock).1).
Proof.
  assert ((clock1 + inject_Z expire <= clock)%Q →
          cache_get (cache_set cache key value expire clock1 clock2) key clock
          = (None, delete key cache)) as Hexpired.
  { intros H. unfold cache_get, cache_set. rewrite lookup_insert_eq.
    cbn [expire_time]. apply Qltb_ge in H. rewrite H.
    by rewrite delete_insert_eq. }
  split; [|split; [exact Hexpired|split]].
  - intros H. unfold cache_get, cache_set. rewrite lookup_insert_eq.
    cbn [expire_time entry_value]. apply Qltb_lt in H. by rewrite H.
  - intros He Hc. apply Hexpired.
    assert (inject_Z expire <= 0)%Q.
    { change 0%Q with (inject_Z 0). by rewrite <- Zle_Qle. }
    lra.
  - intros other Hne. unfold cache_get, cache_set.
    rewrite lookup_insert_ne by done.
    destruct (cache !! other) as [e|]; [|done].
    by destruct (Qltb clock (expire_time e)).
Qed.

Lemma lookup_foldl_delete {V} (keys : list string) (cache : gmap string V)
    key :
  foldl (λ c k, delete k c) cache keys !! key
  = if decide (key ∈ keys) then None else cache !! key.
Proof.
  revert cache. induction keys as [|k keys IH]; intros cache; simpl.
  - destruct (decide (key ∈ [])) as [H|_]; [by apply elem_of_nil in H|done].
  - rewrite IH. destruct (decide (key ∈ keys)) as [Hin|Hnin].
    + rewrite decide_True; [done|by right].
    + destruct (decide (key = k)) as [->|Hne].
      * rewrite decide_True by left. apply lookup_delete_eq.
      * rewrite decide_False; [by apply lookup_delete_ne|].
        rewrite elem_of_cons. tauto.
Qed.

(** What [cleanup_expired] leaves under each key. *)
Lemma lookup_cleanup_expired {V} (cache : gmap string (CacheEntry V))
    (clock : Q) key :
  cache_cleanup_expired cache clock !! key
  = match cache !! key with
    | Some e => if Qltb clock (expire_time e) then Some e else None
    | None => None
    end.
Proof.
  unfold cache_cleanup_expired. cbv zeta. rewrite lookup_foldl_delete.
  match goal with |- context [decide ?P] => destruct (decide P) as [Hin|Hnin] end.
  - apply list_elem_of_bind in Hin as ([k e] & Hk & Hke).
    apply elem_of_map_to_list in Hke. cbn [fst snd] in Hk.
    destruct (Qle_bool (expire_time e) clock) eqn:E;
      [|by apply elem_of_nil in Hk].
    apply list_elem_of_singleton in Hk as ->. rewrite Hke.
    unfold Qltb. by rewrite E.
  - destruct (cache !! key) as [e|] eqn:He; [|done].
    destruct (Qltb clock (expire_time e)) eqn:E; [done|].
    exfalso. apply Hnin. apply list_elem_of_bind. exists (key, e).
    split; [|by apply elem_of_map_to_list]. cbn [fst snd].
    unfold Qltb in E. apply negb_false_iff in E. rewrite E. by left.
Qed.

Lemma cleanup_expired_filter {V} (cache : gmap string (CacheEntry V))
    (clock : Q) :
  cache_cleanup_expired cache clock
  = filter (λ kv, Qltb clock (expire_time kv.2) = true) cache.
Proof.
  apply map_eq. intros key. rewrite lookup_cleanup_expired.
  destruct (cache !! key) as [e|] eqn:He.
  - destruct (Qltb clock (expire_time e)) eqn:E; symmetry.
    + by apply map_lookup_filter_Some.
    + apply map_lookup_filter_None. right. intros e' He'. cbn [snd].
      congruence.
  - symmetry. apply map_lookup_filter_None. by left.
Qed.

Lemma size_filter_map_to_list {V} (P : string * V → Prop)
    `{∀ x, Decision (P x)} (m : gmap string V) :
  size (filter P m) = length (filter P (map_to_list m)).
Proof.
  rewrite <- length_map_to_list, map_filter_alt.
  apply Permutation_length, map_to_list_to_map.
  apply (sublist_NoDup _ (map_to_list m).*1);
    first [apply NoDup_fst_map_to_list | apply fmap_sublist, sublist_filter].
Qed.

(** X28. [cleanup_expired] keeps exactly the entries whose expiry is
    strictly after the clock reading; it changes no answer of [get] at that
    reading; and running it twice at the same reading is the same as
    running it once. *)
Theorem cleanup_expired_keeps_live {V} (cache : gmap string (CacheEntry V))
    (clock : Q) :
  (∀ key e, cache_cleanup_expired cache clock !! key = Some e ↔
            cache !! key = Some e ∧ (clock < expire_time e)%Q) ∧
  (∀ key, (cache_get (cache_cleanup_expired cache clock) key clock).1
          = (cache_get cache key clock).1) ∧
  cache_cleanup_expired (cache_cleanup_expired cache clock) clock
  = cache_cleanup_expired cache clock.
Proof.
  split; [|split].
  - intros key e. rewrite lookup_cleanup_expired.
    destruct (cache !! key) as [e'|]; [|by split; [|intros [? _]]].
    destruct (Qltb clock (expire_time e')) eqn:E.
    + apply Qltb_lt in E. split; [by intros [= <-]|by intros [[= <-] _]].
    + apply Qltb_ge in E. split; [done|]. intros [[= <-] H]. lra.
  - intros key. unfold cache_get. rewrite lookup_cleanup_expired.
    destruct (cache !! key) as [e|]; [|done].
    destruct (Qltb clock (expire_time e)) eqn:E; [by rewrite E|done].
  - apply map_eq. intros key. rewrite !lookup_cleanup_expired.
    destruct (cache !! key) as [e|]; [|done].
    destruct (Qltb clock (expire_time e)) eqn:E; [by rewrite E|done].
Qed.

(** X29. [get_stats]: the three counts satisfy
    [total = active + expired] with [0 <= active <= total]; and right after
    [cleanup_expired] at the same clock reading the cache reports the former
    active count as its total and no expired key. *)
Theorem cache_stats_counts {V} (cache : gmap string (CacheEntry V))
    (clock : Q) :
  (cache_get_stats cache clock).1.1
  = ((cache_get_stats cache clock).1.2 + (cache_get_stats cache clock).2)%Z ∧
  (0 ≤ (cache_get_stats cache clock).1.2 ≤ (cache_get_stats cache clock).1.1)%Z ∧
  cache_get_stats (cache_cleanup_expired cache clock) clock
  = ((cache_get_stats cache clock).1.2, (cache_get_stats cache clock).1.2, 0%Z).
Proof.
  unfold cache_get_stats. cbv zeta. cbn [fst snd].
  set (live := λ kv : string * CacheEntry V,
                 Qltb clock (expire_time kv.2) = true).
  assert (len (filter live (map_to_list cache))
          = Z.of_nat (size (filter live cache))) as Hactive.
  { unfold len. by rewrite size_filter_map_to_list. }
  split; [lia|]. split.
  - rewrite Hactive. pose proof (map_size_filter live cache). lia.
  - rewrite cleanup_expired_filter. fold live.
    assert (len (filter live (map_to_list (filter live cache)))
            = Z.of_nat (size (filter live cache))) as ->.
    { unfold len. rewrite <- size_filter_map_to_list.
      by rewrite map_filter_filter_l by done. }
    rewrite Hactive. f_equal. lia.
Qed.

(** X30. [get_or_set] after a miss.  A result other than [None] is stored
    and every later call with the same key, made strictly before the first
    clock reading of the store plus the lifetime, returns it without using
    its own function; the lifetime is the default one when [expire_time] is
    omitted or 0.  A [None] result is stored too but never served: every
    later call answers with its own function's outcome.  When the function
    raises, the exception is passed on and nothing is stored. *)
Theorem get_or_set_reuse {W} (default_expire_time : Z)
    (cache : gmap string (CacheEntry (option W))) (cache_key : string)
    (func : res (option W)) (expire : option Z) (clock clock1 clock2 : Q)
    (lifetime : Z) :
  (cache_get cache cache_key clock).1 = None →
  lifetime = match expire with
             | None | Some 0%Z => default_expire_time
             | Some e => e
             end →
  (∀ w, func = Ok (Some w) →
     (get_or_set default_expire_time cache cache_key func expire
        clock clock1 clock2).1 = Ok (Some w) ∧
     ∀ func' expire' clock' clock1' clock2',
       (clock' < clock1 + inject_Z lifetime)%Q →
       get_or_set default_expire_time
         (get_or_set default_expire_time cache cache_key func expire
            clock clock1 clock2).2
         cache_key func' expire' clock' clock1' clock2'
       = (Ok (Some w),
          (get_or_set default_expire_time cache cache_key func expire
             clock clock1 clock2).2)) ∧
  (func = Ok None →
     (get_or_set default_expire_time cache cache_key func expire
        clock clock1 clock2).1 = Ok None ∧
     is_Some ((get_or_set default_expire_time cache cache_key func expire
                 clock clock1 clock2).2 !! cache_key) ∧
     ∀ func' expire' clock' clock1' clock2',
       (get_or_set default_expire_time
          (get_or_set default_expire_time cache cache_key func expire
             clock clock1 clock2).2
          cache_key func' expire' clock' clock1' clock2').1 = func') ∧
  (∀ e, func = Raise e →
     get_or_set default_expire_time cache cache_key func expire
       clock clock1 clock2
     = (Raise e, (cache_get cache cache_key clock).2)).
Proof.
  intros Hmiss Hlife.
  assert (get_or_set default_expire_time cache cache_key func expire
            clock clock1 clock2
          = match func with
            | Ok result =>
                (Ok result,
                 cache_set (cache_get cache cache_key clock).2 cache_key
                   result lifetime clock1 clock2)
            | Raise e => (Raise e, (cache_get cache cache_key clock).2)
            end) as ->.
  { unfold get_or_set.
    destruct (cache_get cache cache_key clock) as [cached cache'].
    cbn [fst snd] in *. subst cached lifetime.
    by destruct func, expire as [[| |]|]. }
  generalize ((cache_get cache cache_key clock).2). intros cache'.
  split; [|split].
  - intros w ->. cbn [fst snd]. split; [done|].
    intros func' expire' clock' clock1' clock2' Hlive.
    unfold get_or_set, cache_get, cache_set. rewrite lookup_insert_eq.
    cbn [expire_time entry_value]. apply Qltb_lt in Hlive. by rewrite Hlive.
  - intros ->. cbn [fst snd]. split; [done|]. split.
    { unfold cache_set. rewrite lookup_insert_eq. by eexists. }
    intros func' expire' clock' clock1' clock2'.
    unfold get_or_set, cache_get, cache_set. rewrite lookup_insert_eq.
    cbn [expire_time entry_value].
    destruct (Qltb clock' (clock1 + inject_Z lifetime)); by destruct func'.
  - by intros e ->.
Qed.


(** * Worked instances *)

Lemma sma_ema_length_witness :
  (1 ≤ 3)%Z ∧
  (∃ out, sma (Qs [1; 2; 3; 4; 5]%Z) 3 = Ok out ∧ len out = 3%Z) ∧
  (∃ out, ema (Qs [1; 2; 3; 4; 5]%Z) 3 = Ok out ∧ len out = 3%Z).
Proof.
  split; [lia|].
  destruct (sma_ema_length (Qs [1; 2; 3; 4; 5]%Z) 3 ltac:(lia))
    as (Hs & He & _).
  split; [exact Hs | exact He].
Defined.

Lemma rsi_bounds_witness :
  (1 ≤ 2)%Z ∧ (2 + 1 ≤ len (Qs [1; 3; 2; 4; 3]%Z))%Z ∧
  ∃ values,
    rsi (Qs [1; 3; 2; 4; 3]%Z) 2 = Ok values ∧
    len values = 3%Z ∧
    ∀ k v, values !! k = Some v → (0 <= v <= 100)%Q.
Proof.
  split; [lia|]. split; [by vm_compute|].
  destruct (rsi_bounds (Qs [1; 3; 2; 4; 3]%Z) 2 ltac:(lia)
              ltac:(by vm_compute))
    as (changes & values & _ & Hr & Hl & Hv).
  exists values. split; [exact Hr|]. split; [exact Hl|].
  intros k v Hk. exact (proj1 (proj2 (Hv k v Hk))).
Defined.

Lemma macd_alignment_witness :
  (1 ≤ 2 ≤ 3)%Z ∧ (1 ≤ 2)%Z ∧ (3 ≤ len (Qs [1; 3; 2; 4; 3; 7; 8]%Z))%Z ∧
  ∃ m, macd (Qs [1; 3; 2; 4; 3; 7; 8]%Z) 2 3 2 = Ok m ∧
       length (histogram m) = length (signal_line m) ∧
       histogram m =
         zip_with Qminus
           (drop (length (macd_line m) - length (signal_line m))
                 (macd_line m))
           (signal_line m).
Proof.
  split; [lia|]. split; [lia|]. split; [by vm_compute|].
  destruct (macd_alignment (Qs [1; 3; 2; 4; 3; 7; 8]%Z) 2 3 2
              ltac:(lia) ltac:(lia)) as [H _].
  destruct (H ltac:(by vm_compute)) as (m & Hm & Hlen & _ & _ & Hh).
  exists m. split; [exact Hm|]. split; [exact Hlen | exact Hh].
Defined.

Lemma support_resistance_weak_extrema_witness :
  (0 ≤ 1)%Z ∧ (2 * 1 + 1 ≤ len (Qs [3; 1; 2]%Z))%Z ∧
  ∃ lv,
    support_resistance_levels (Qs [3; 1; 2]%Z) (Qs [3; 1; 2]%Z)
                              (Qs [3; 1; 2]%Z) 1 = Ok lv ∧
    lists_exactly (local_extremum Qle (Qs [3; 1; 2]%Z) 1)
                  (Qs [3; 1; 2]%Z) 1 (support lv).
Proof.
  split; [lia|]. split; [by vm_compute|].
  destruct (support_resistance_weak_extrema (Qs [3; 1; 2]%Z)
              (Qs [3; 1; 2]%Z) (Qs [3; 1; 2]%Z) 1 ltac:(lia)
              ltac:(by vm_compute)) as (lv & Hlv & Hs & _).
  exists lv. split; [exact Hlv | exact Hs].
Defined.

Lemma entry_exit_points_fields_witness :
  sample_price_data !! "close" = Some [100%Q] ∧
  ∃ ratio,
    _calculate_entry_exit_points default_RISK_PARAMS sample_price_data
      (mkComposite BUY 2 "low" None None None None)
      !! "risk_reward_ratio" = Some ratio ∧
    (0 <= ratio)%Q.
Proof.
  split; [reflexivity|].
  destruct (entry_exit_points_fields default_RISK_PARAMS sample_price_data
              (mkComposite BUY 2 "low" None None None None) [100%Q]
              eq_refl) as [_ H].
  destruct (H 100%Q eq_refl ltac:(by vm_compute)) as (ratio & Heq & Hr & _).
  exists ratio. split; [|exact Hr].
  rewrite Heq. reflexivity.
Defined.

Lemma accepted_asset_single_bar_witness :
  _extract_price_data sample_float_of_str sample_quote
  = Some sample_price_data ∧
  _technical_analysis sample_std sample_normal sample_price_data
  = empty_analysis ∧
  ∀ r,
    analyze_asset sample_std sample_pow_half sample_normal
      sample_float_of_str sample_upper sample_percent sample_now false
      sample_model default_RISK_PARAMS sample_quote = Ok r →
    signal_type (signal r) ≠ STRONG_BUY ∧
    signal_type (signal r) ≠ STRONG_SELL.
Proof.
  split; [reflexivity|].
  destruct (accepted_asset_single_bar sample_std sample_pow_half
              sample_normal sample_float_of_str sample_upper sample_percent
              sample_now false sample_model default_RISK_PARAMS
              sample_quote sample_price_data eq_refl)
    as (_ & Hta & _ & Hr).
  split; [exact Hta | exact Hr].
Defined.

Lemma missing_price_keys_neutral_witness :
  sample_unpriced !! "current_price" = None ∧
  sample_unpriced !! "收盘" = None ∧
  sample_unpriced !! "dwjz" = None ∧
  ∃ r,
    analyze_asset sample_std sample_pow_half sample_normal
      sample_float_of_str sample_upper sample_percent sample_now false
      sample_model default_RISK_PARAMS sample_unpriced = Ok r ∧
    current_price r = 0%Q ∧
    signal_type (signal r) = HOLD ∧
    recommendation_reason r = "数据不足".
Proof.
  split; [reflexivity|]. split; [reflexivity|]. split; [reflexivity|].
  destruct (missing_price_keys_neutral sample_std sample_pow_half
              sample_normal sample_float_of_str sample_upper sample_percent
              sample_now false sample_model default_RISK_PARAMS
              sample_unpriced eq_refl eq_refl eq_refl) as [Hfields Hret].
  destruct (Hret (or_intror (ex_intro _ "btc" eq_refl))) as [r Hr].
  exists r. split; [exact Hr | exact (Hfields r Hr)].
Defined.





Lemma rsi_falling_prices_is_zero_witness :
  (1 ≤ 2)%Z ∧ (2 + 1 ≤ len (Qs [5; 4; 3; 2]%Z))%Z ∧
  ∃ values, rsi (Qs [5; 4; 3; 2]%Z) 2 = Ok values ∧
            len values = 2%Z ∧ Forall (λ v, v == 0)%Q values.
Proof.
  split; [lia|]. split; [by vm_compute|].
  destruct (rsi_falling_prices_is_zero (Qs [5; 4; 3; 2]%Z) 2 ltac:(lia)
              ltac:(by vm_compute)) as (values & Hv & Hl & Hz).
  { intros i a b Ha Hb.
    destruct i as [|[|[|[|i]]]]; simpl in Ha, Hb; try discriminate;
      injection Ha as <-; injection Hb as <-; by vm_compute. }
  exists values. split; [exact Hv|]. split; [exact Hl | exact Hz].
Defined.


Lemma sma_is_causal_witness :
  (1 ≤ 3)%Z ∧ (4 ≤ length (Qs [1; 2; 3; 4; 5]%Z))%nat ∧
  ∃ whole part,
    sma (Qs [1; 2; 3; 4; 5]%Z) 3 = Ok whole ∧
    sma (take 4 (Qs [1; 2; 3; 4; 5]%Z)) 3 = Ok part ∧
    len part = 2%Z ∧ part = take (length part) whole.
Proof.
  split; [lia|]. split; [simpl; lia|].
  destruct (sma_is_causal (Qs [1; 2; 3; 4; 5]%Z) 3 4 ltac:(lia)
              ltac:(simpl; lia))
    as (whole & part & Hw & Hp & Hl & Hprefix & _).
  exists whole, part.
  split; [exact Hw|]. split; [exact Hp|]. split; [exact Hl | exact Hprefix].
Defined.

Lemma ema_is_causal_witness :
  (1 ≤ 3)%Z ∧ (4 ≤ length (Qs [1; 2; 3; 4; 5]%Z))%nat ∧
  ∃ whole part,
    ema (Qs [1; 2; 3; 4; 5]%Z) 3 = Ok whole ∧
    ema (take 4 (Qs [1; 2; 3; 4; 5]%Z)) 3 = Ok part ∧
    len part = 2%Z ∧ part = take (length part) whole.
Proof.
  split; [lia|]. split; [simpl; lia|].
  destruct (ema_is_causal (Qs [1; 2; 3; 4; 5]%Z) 3 4 ltac:(lia)
              ltac:(simpl; lia))
    as (whole & part & Hw & Hp & Hl & Hprefix & _).
  exists whole, part.
  split; [exact Hw|]. split; [exact Hp|]. split; [exact Hl | exact Hprefix].
Defined.

Lemma bollinger_bands_bracket_witness :
  (1 ≤ 2)%Z ∧ (2 ≤ len (Qs [1; 2; 3]%Z))%Z ∧
  ∃ b, bollinger_bands sample_std (Qs [1; 2; 3]%Z) 2 2 = Ok b ∧
       length (upper b) = length (middle b) ∧
       length (lower b) = length (middle b).
Proof.
  split; [lia|]. split; [by vm_compute|].
  destruct (bollinger_bands_bracket sample_std (Qs [1; 2; 3]%Z) 2 2
              ltac:(lia)) as [H _].
  destruct (H ltac:(by vm_compute)) as (b & Hb & _ & _ & Hu & Hl & _).
  exists b. split; [exact Hb|]. split; [exact Hu | exact Hl].
Defined.

Lemma macd_series_lengths_witness :
  (1 ≤ 2 ≤ 3)%Z ∧ (1 ≤ 2)%Z ∧ (3 ≤ len (Qs [1; 3; 2; 4; 3; 7; 8]%Z))%Z ∧
  ∃ m, macd (Qs [1; 3; 2; 4; 3; 7; 8]%Z) 2 3 2 = Ok m ∧
       len (macd_line m) = 5%Z ∧ len (histogram m) = 4%Z.
Proof.
  split; [lia|]. split; [lia|]. split; [by vm_compute|].
  destruct (macd_series_lengths (Qs [1; 3; 2; 4; 3; 7; 8]%Z) 2 3 2
              ltac:(lia) ltac:(lia) ltac:(by vm_compute))
    as (m & Hm & Hl & _ & Hh & _).
  exists m. split; [exact Hm|]. split; [exact Hl | exact Hh].
Defined.

Lemma volume_analysis_abnormal_iff_witness :
  (1 ≤ 2)%Z ∧ (2 ≤ len (replicate 3 10%Q))%Z ∧
  ∃ r, volume_analysis (replicate 3 10%Q) 2 = Ok r ∧
       current_volume r = Some 10%Q ∧ is_abnormal r = false.
Proof.
  split; [lia|]. split; [by vm_compute|].
  destruct (volume_analysis_abnormal_iff (replicate 3 10%Q) 2 ltac:(lia))
    as (_ & _ & H).
  destruct (H ltac:(by vm_compute)) as (r & cur & Hr & _ & Hcur & _ & Hflat).
  destruct (Hflat 10%Q ltac:(by vm_compute)) as [-> Habn].
  { repeat (constructor; [reflexivity|]). constructor. }
  exists r. split; [exact Hr|]. split; [exact Hcur | exact Habn].
Defined.

Lemma support_resistance_flat_series_witness :
  (0 ≤ 1)%Z ∧ (2 * 1 + 1 ≤ Z.of_nat 3)%Z ∧
  support_resistance_levels (replicate 3 5%Q) (replicate 3 5%Q)
                            (replicate 3 5%Q) 1
  = Ok (mkLevels [5%Q] [5%Q]).
Proof.
  split; [lia|]. split; [lia|].
  exact (support_resistance_flat_series 5%Q 3 1 ltac:(lia) ltac:(lia)).
Defined.

Lemma support_resistance_monotone_series_witness :
  (1 ≤ 1)%Z ∧ (2 * 1 + 1 ≤ len (Qs [1; 2; 3]%Z))%Z ∧
  rising (Qs [1; 2; 3]%Z) ∧
  support_resistance_levels (Qs [1; 2; 3]%Z) (Qs [1; 2; 3]%Z)
                            (Qs [1; 2; 3]%Z) 1
  = Ok (mkLevels [] []).
Proof.
  assert (rising (Qs [1; 2; 3]%Z)) as Hrise.
  { intros i a b Ha Hb.
    destruct i as [|[|[|i]]]; simpl in Ha, Hb; try discriminate;
      injection Ha as <-; injection Hb as <-; by vm_compute. }
  split; [lia|]. split; [by vm_compute|]. split; [exact Hrise|].
  exact (support_resistance_monotone_series (Qs [1; 2; 3]%Z)
           (Qs [1; 2; 3]%Z) (Qs [1; 2; 3]%Z) 1 ltac:(lia)
           ltac:(by vm_compute) (or_introl Hrise) (or_introl Hrise)).
Defined.

Lemma mock_history_shape_witness :
  (1 ≤ 3)%Z ∧
  ∃ prices,
    _generate_mock_historical_data sample_normal 100 3 = Ok prices ∧
    len prices = 3%Z ∧ last prices = Some 100%Q.
Proof.
  split; [lia|].
  destruct (mock_history_shape sample_normal 100 3 ltac:(lia))
    as (prices & Hp & Hl & Hlast & _).
  exists prices. split; [exact Hp|]. split; [exact Hl | exact Hlast].
Defined.

Lemma assess_risk_never_high_witness :
  (0 <= volatility_threshold default_RISK_PARAMS)%Q ∧
  risk_level (_assess_risk sample_pow_half sample_normal default_RISK_PARAMS
                sample_price_data empty_analysis) ≠ "high".
Proof.
  split; [by vm_compute|].
  exact (proj1 (assess_risk_never_high sample_pow_half sample_normal
                  default_RISK_PARAMS sample_price_data empty_analysis
                  ltac:(by vm_compute))).
Defined.

Lemma analyze_asset_always_hold_witness :
  ∃ r,
    analyze_asset sample_std sample_pow_half sample_normal
      sample_float_of_str sample_upper sample_percent sample_now false
      sample_model default_RISK_PARAMS sample_quote = Ok r ∧
    signal_type (signal r) = HOLD ∧
    recommendation_reason r = "暂无明确信号".
Proof.
  assert (∃ r,
    analyze_asset sample_std sample_pow_half sample_normal
      sample_float_of_str sample_upper sample_percent sample_now false
      sample_model default_RISK_PARAMS sample_quote = Ok r) as [r Hr].
  { eexists. vm_compute. reflexivity. }
  exists r. split; [exact Hr|].
  destruct (analyze_asset_always_hold sample_std sample_pow_half
              sample_normal sample_float_of_str sample_upper sample_percent
              sample_now false sample_model default_RISK_PARAMS
              sample_quote r Hr) as (Hhold & _ & _ & _ & _ & Hpriced).
  split; [exact Hhold|].
  destruct (Hpriced sample_price_data eq_refl) as (_ & _ & Hreason & _).
  exact Hreason.
Defined.

Lemma risk_reward_ratio_fixed_witness :
  (stop_loss_pct default_RISK_PARAMS == 5 # 100)%Q ∧
  (take_profit_pct default_RISK_PARAMS == 15 # 100)%Q ∧
  _calculate_entry_exit_points default_RISK_PARAMS sample_price_data
    (mkComposite BUY 2 "low" None None None None) !! "risk_reward_ratio"
  = Some (344 # 100)%Q.
Proof.
  split; [by vm_compute|]. split; [by vm_compute|].
  rewrite (risk_reward_ratio_fixed default_RISK_PARAMS sample_price_data
             (mkComposite BUY 2 "low" None None None None) [100%Q] 100%Q
             ltac:(by vm_compute) ltac:(by vm_compute) eq_refl eq_refl
             ltac:(by vm_compute)).
  by vm_compute.
Defined.

Lemma entry_exit_levels_ordered_witness :
  (5 # 1000 <= stop_loss_pct default_RISK_PARAMS)%Q ∧
  (0 <= take_profit_pct default_RISK_PARAMS)%Q ∧
  ∃ entry stop take,
    _calculate_entry_exit_points default_RISK_PARAMS sample_price_data
      (mkComposite BUY 2 "low" None None None None) !! "entry_price"
    = Some entry ∧
    _calculate_entry_exit_points default_RISK_PARAMS sample_price_data
      (mkComposite BUY 2 "low" None None None None) !! "stop_loss"
    = Some stop ∧
    _calculate_entry_exit_points default_RISK_PARAMS sample_price_data
      (mkComposite BUY 2 "low" None None None None) !! "take_profit"
    = Some take ∧
    (stop <= entry)%Q ∧ (entry <= take)%Q.
Proof.
  split; [by vm_compute|]. split; [by vm_compute|].
  destruct (entry_exit_levels_ordered default_RISK_PARAMS sample_price_data
              (mkComposite BUY 2 "low" None None None None) [100%Q] 100%Q
              ltac:(by vm_compute) ltac:(by vm_compute) eq_refl eq_refl
              ltac:(by vm_compute))
    as (entry & stop & take & He & Hs & Ht & _ & Hbuy).
  exists entry, stop, take.
  split; [exact He|]. split; [exact Hs|]. split; [exact Ht|].
  apply Hbuy. apply (decidable_by_compute _). by vm_compute.
Defined.

Lemma pattern_analysis_returns_witness :
  (3 ≤ len (Qs [1; 2; 3]%Z))%Z ∧
  ∃ r, k_line_pattern_analysis (Qs [1; 2; 3]%Z) (Qs [2; 3; 4]%Z)
         (Qs [0; 1; 2]%Z) (Qs [2; 3; 4]%Z) = Ok r.
Proof.
  split; [by vm_compute|].
  destruct (pattern_analysis_returns (Qs [1; 2; 3]%Z) (Qs [2; 3; 4]%Z)
              (Qs [0; 1; 2]%Z) (Qs [2; 3; 4]%Z) ltac:(by vm_compute))
    as [Hiff _].
  apply Hiff. repeat split; discriminate.
Defined.

Lemma pattern_analysis_last_two_bars_witness :
  (3 ≤ len (Qs [9; 2; 3; 4]%Z))%Z ∧ (3 ≤ len (Qs [0; 3; 4]%Z))%Z ∧
  k_line_pattern_analysis (Qs [9; 1; 2; 3]%Z) (Qs [9; 5]%Z) (Qs [9; 0]%Z)
                          (Qs [9; 2; 3; 4]%Z)
  = k_line_pattern_analysis (Qs [7; 2; 3]%Z) (Qs [5]%Z) (Qs [0]%Z)
                            (Qs [0; 3; 4]%Z).
Proof.
  split; [by vm_compute|]. split; [by vm_compute|].
  exact (pattern_analysis_last_two_bars
           (Qs [9; 1; 2; 3]%Z) (Qs [9; 5]%Z) (Qs [9; 0]%Z)
           (Qs [9; 2; 3; 4]%Z)
           (Qs [7; 2; 3]%Z) (Qs [5]%Z) (Qs [0]%Z) (Qs [0; 3; 4]%Z)
           ltac:(by vm_compute) ltac:(by vm_compute)
           eq_refl eq_refl eq_refl eq_refl).
Defined.

Lemma quote_price_fields_witness :
  sample_quote !! "current_price" = Some (VFloat 100) ∧
  _extract_price_data sample_float_of_str sample_quote
  = Some sample_price_data.
Proof.
  split; [reflexivity|].
  destruct (quote_price_fields sample_std sample_pow_half sample_normal
              sample_float_of_str sample_upper sample_percent sample_now
              false sample_model default_RISK_PARAMS sample_quote
              (VFloat 100) eq_refl) as (_ & Habsent & _).
  exact (Habsent 100%Q eq_refl eq_refl eq_refl eq_refl).
Defined.

Lemma recommendation_reason_truncates_witness :
  _generate_recommendation_reason sample_percent
    (mkAnalysis no_indicators
       [mkSignal "buy" "a" "medium"; mkSignal "buy" "b" "medium";
        mkSignal "sell" "c" "medium"; mkSignal "sell" "d" "medium"])
    None (mkComposite HOLD 0 "low" None None None None)
  = "a; b; c".
Proof.
  exact (proj1 (recommendation_reason_truncates sample_percent
                  (mkAnalysis no_indicators
                     [mkSignal "buy" "a" "medium"; mkSignal "buy" "b" "medium";
                      mkSignal "sell" "c" "medium";
                      mkSignal "sell" "d" "medium"])
                  None (mkComposite HOLD 0 "low" None None None None)
                  ltac:(simpl; lia))).
Defined.

Lemma prepare_features_shape_witness :
  bars rising_closes flat_volume !! "close" = Some rising_closes ∧
  (30 ≤ len rising_closes)%Z ∧
  ∃ features,
    prepare_features sample_std sample_pow_half
      (bars rising_closes flat_volume) = Some features ∧
    len features = 5%Z.
Proof.
  split; [reflexivity|]. split; [by vm_compute|].
  destruct (prepare_features_shape sample_std sample_pow_half
              (bars rising_closes flat_volume) rising_closes eq_refl)
    as [_ H].
  destruct (H ltac:(by vm_compute)) as (features & Hf & Hl & _).
  exists features. split; [exact Hf | exact Hl].
Defined.

Lemma get_or_set_reuse_witness :
  (cache_get (∅ : gmap string (CacheEntry (option nat))) "k" 0).1 = None ∧
  (get_or_set 300 (∅ : gmap string (CacheEntry (option nat))) "k"
     (Ok (Some 7%nat)) None 0 0 0).1 = Ok (Some 7%nat) ∧
  get_or_set 300
    (get_or_set 300 (∅ : gmap string (CacheEntry (option nat))) "k"
       (Ok (Some 7%nat)) None 0 0 0).2
    "k" (Raise KeyError) None 100 100 100
  = (Ok (Some 7%nat),
     (get_or_set 300 (∅ : gmap string (CacheEntry (option nat))) "k"
        (Ok (Some 7%nat)) None 0 0 0).2).
Proof.
  assert ((cache_get (∅ : gmap string (CacheEntry (option nat))) "k" 0).1
          = None) as Hmiss by reflexivity.
  split; [exact Hmiss|].
  destruct (get_or_set_reuse 300 (∅ : gmap string (CacheEntry (option nat)))
              "k" (Ok (Some 7%nat)) None 0 0 0 300 Hmiss eq_refl)
    as (Hstored & _ & _).
  destruct (Hstored 7%nat eq_refl) as [Hfirst Hlater].
  split; [exact Hfirst|].
  exact (Hlater (Raise KeyError) None 100%Q 100%Q 100%Q
           ltac:(by vm_compute)).
Defined.
